(** * SlideEgg-Canva: the PPTX <-> Fabric.js shape and style mapping

    A shallow embedding of the converter's Python sources
    ([color_handler.py], [advanced_shape_handler.py], [text_handler.py],
    [shape_handler.py], [pptx_fabric_converter.py], [pptx_to_json.py]) and
    the properties the specification states about them.

    Conventions of the embedding.
    - A Python computation that may raise is a value of [result]; a
      [try ... except Exception] block is [try_except].
    - Python [float] is a type [F] with the operations of class [PyFloat];
      [binary64] is the IEEE instance (Python's own), [Q] an exact one.
    - Python [str] is [string]; the characters are taken to be ASCII, so
      [len] is [String.length].
    - A [dict] built with a fixed set of literal keys is a record; a [dict]
      that is extended, spread or updated is a [gmap string value].
    - The objects python-pptx hands to the code are records of what the code
      reads from them. *)

From Stdlib Require Import ZArith QArith Qround Qabs Lqa Lia.
From Stdlib Require Import String Ascii List Floats.
From stdpp Require Import base option list gmap strings.

Set Warnings "-register-all,-clear-no-such-hyp".

Local Open Scope string_scope.
Local Open Scope list_scope.
Local Open Scope Z_scope.

(** ** Python preliminaries *)

Module Py.

(** The exception classes the modelled code can meet. *)
Inductive exn : Set :=
| NameError | AttributeError | KeyError | IndexError
| ValueError | TypeError | OverflowError.

Inductive result (A : Type) : Type :=
| Ok (a : A)
| Raise (e : exn).
Arguments Ok {A} a.
Arguments Raise {A} e.

Definition bind {A B} (m : result A) (k : A -> result B) : result B :=
  match m with
  | Ok a => k a
  | Raise e => Raise e
  end.

(** [try: body  except Exception: handler] *)
Definition try_except {A} (body : result A) (handler : A) : A :=
  match body with
  | Ok a => a
  | Raise _ => handler
  end.

(** [d[k]] on an optional entry: [KeyError] when the key is absent. *)
Definition subscript {A} (o : option A) : result A :=
  match o with
  | Some a => Ok a
  | None => Raise KeyError
  end.

(** Calling a method on the value [find] returned: [AttributeError] on
    [None]. *)
Definition deref {A} (o : option A) : result A :=
  match o with
  | Some a => Ok a
  | None => Raise AttributeError
  end.

(** Reading a global name of a module whose top level binds [globals]
    (no builtin has any of the names looked up this way). *)
Definition global (globals : list string) (name : string) : result unit :=
  if existsb (String.eqb name) globals then Ok tt else Raise NameError.

(** *** Strings *)

(** [f'{v}'] of an optional string: [None] renders as the text None. *)
Definition fmt_opt (v : option string) : string :=
  match v with
  | Some s => s
  | None => "None"
  end.

(** [s.startswith(p)] *)
Definition startswith (p s : string) : bool := String.prefix p s.

(** [s.lstrip(c)] for a single character [c] *)
Fixpoint lstrip (c : ascii) (s : string) : string :=
  match s with
  | String a s' => if Ascii.eqb a c then lstrip c s' else s
  | EmptyString => EmptyString
  end.

(** [s[i:i+2]] *)
Definition slice2 (i : nat) (s : string) : string := String.substring i 2 s.

Definition upper_ascii (a : ascii) : ascii :=
  let n := nat_of_ascii a in
  if ((97 <=? n)%nat && (n <=? 122)%nat)%bool then ascii_of_nat (n - 32) else a.

(** [s.upper()] *)
Fixpoint upper (s : string) : string :=
  match s with
  | String a s' => String (upper_ascii a) (upper s')
  | EmptyString => EmptyString
  end.

Definition lower_ascii (a : ascii) : ascii :=
  let n := nat_of_ascii a in
  if ((65 <=? n)%nat && (n <=? 90)%nat)%bool then ascii_of_nat (n + 32) else a.

(** [s.lower()] *)
Fixpoint lower (s : string) : string :=
  match s with
  | String a s' => String (lower_ascii a) (lower s')
  | EmptyString => EmptyString
  end.

(** [s.split(",")[1]]: what lies between the first comma and the next;
    [None] when [s] has no comma. *)
Fixpoint up_to_comma (s : string) : string :=
  match s with
  | String a s' => if Ascii.eqb a "," then EmptyString else String a (up_to_comma s')
  | EmptyString => EmptyString
  end.
Fixpoint after_comma (s : string) : option string :=
  match s with
  | String a s' => if Ascii.eqb a "," then Some (up_to_comma s') else after_comma s'
  | EmptyString => None
  end.

(** The part of [s] after its last [sep]: [s.split(sep)[-1]]. *)
Fixpoint last_segment_from (sep : ascii) (acc s : string) : string :=
  match s with
  | String a s' =>
      if Ascii.eqb a sep then last_segment_from sep s' s'
      else last_segment_from sep acc s'
  | EmptyString => acc
  end.
Definition last_segment (sep : ascii) (s : string) : string :=
  last_segment_from sep s s.

(** *** [int(s, base)] *)

Definition is_space (a : ascii) : bool :=
  let n := nat_of_ascii a in
  ((n =? 32)%nat || ((9 <=? n)%nat && (n <=? 13)%nat))%bool.

Fixpoint lstrip_space (l : list ascii) : list ascii :=
  match l with
  | a :: l' => if is_space a then lstrip_space l' else l
  | [] => []
  end.

Definition strip_space (l : list ascii) : list ascii :=
  rev (lstrip_space (rev (lstrip_space l))).

Definition digit_val (a : ascii) : option Z :=
  let n := Z.of_nat (nat_of_ascii a) in
  if (48 <=? n) && (n <=? 57) then Some (n - 48)
  else if (97 <=? n) && (n <=? 122) then Some (n - 87)
  else if (65 <=? n) && (n <=? 90) then Some (n - 55)
  else None.

(** Digits of [base], single underscores allowed between them ([sep_ok]
    says an underscore may come next, [seen] that a digit was read). *)
Fixpoint digits (base acc : Z) (sep_ok seen : bool) (l : list ascii) : option Z :=
  match l with
  | [] => if sep_ok && seen then Some acc else None
  | a :: l' =>
      if Ascii.eqb a "_" then
        if sep_ok then digits base acc false seen l' else None
      else
        match digit_val a with
        | Some d => if d <? base then digits base (acc * base + d) true true l' else None
        | None => None
        end
  end.

Definition unsigned (base : Z) (l : list ascii) : option Z :=
  match l with
  | "0"%char :: x :: l' =>
      if (base =? 16) && (Ascii.eqb x "x" || Ascii.eqb x "X")
      then digits base 0 true false l'
      else digits base 0 false false l
  | _ => digits base 0 false false l
  end.

Definition int_base (base : Z) (s : string) : result Z :=
  let body := strip_space (list_ascii_of_string s) in
  let signed :=
    match body with
    | "-"%char :: l => Z.opp <$> unsigned base l
    | "+"%char :: l => unsigned base l
    | l => unsigned base l
    end in
  match signed with
  | Some z => Ok z
  | None => Raise ValueError
  end.

(** [int(s)] *)
Definition int (s : string) : result Z := int_base 10 s.

(** *** [f'{n:02x}'] *)

Definition hex_digit (d : Z) : ascii :=
  if d <? 10 then ascii_of_nat (Z.to_nat (48 + d)) else ascii_of_nat (Z.to_nat (87 + d)).

Fixpoint hex_digits (fuel : nat) (n : Z) (acc : string) : string :=
  match fuel with
  | O => acc
  | S fuel' =>
      let acc' := String (hex_digit (n mod 16)) acc in
      if n / 16 =? 0 then acc' else hex_digits fuel' (n / 16) acc'
  end.

(** Lowercase hexadecimal of a non-negative integer, no padding. *)
Definition hex (n : Z) : string := hex_digits (S (Z.to_nat (Z.log2 n))) n "".

(** [f'{n:02x}']: sign, then the digits, zero-padded to width two. *)
Definition fmt_02x (n : Z) : string :=
  if n <? 0 then "-" +:+ hex (- n)
  else if n <? 16 then "0" +:+ hex n
  else hex n.

(** *** Slices and replacements *)

(** [s[:-1]] *)
Fixpoint but_last (s : string) : string :=
  match s with
  | String a EmptyString => EmptyString
  | String a s' => String a (but_last s')
  | EmptyString => EmptyString
  end.

(** [s.replace(old, new)] for a non-empty [old], read from the left:
    [skip] is the number of characters of an occurrence still to pass. *)
Fixpoint replace_from (old new : string) (skip : nat) (s : string) : string :=
  match s with
  | String a s' =>
      match skip with
      | S skip' => replace_from old new skip' s'
      | O =>
          if String.prefix old s
          then new +:+ replace_from old new (String.length old - 1) s'
          else String a (replace_from old new 0 s')
      end
  | EmptyString => EmptyString
  end.

Definition replace (old new s : string) : string := replace_from old new 0 s.

(** *** [n / d] on two ints *)

(** The quotient of two ints is rounded to the nearest float, and the
    division raises [OverflowError] when that float would lie beyond the
    largest one: when the quotient is, in absolute value, at or above
    2^1024 - 2^970, the midpoint between the largest float and 2^1024. *)
Definition float_overflow_bound : Z := Eval vm_compute in (2 ^ 1024 - 2 ^ 970).

Definition true_div_overflows (n d : Z) : bool :=
  Z.abs d * float_overflow_bound <=? Z.abs n.

End Py.

Export Py(result, Ok, Raise).

#[global] Instance result_ret : MRet result := @Ok.
#[global] Instance result_bind : MBind result := fun A B k m => Py.bind m k.

(** ** Python floats *)

(** The operations the converter applies to numbers.  An [int] operand of a
    float operation is converted by [of_int] first (a native length is far
    below 2^53, so [n / 12700] on two ints is the rounded quotient of the two
    conversions). *)
Class PyFloat (F : Type) := {
  float_eq_dec :: EqDecision F;
  of_int : Z -> F;
  fadd : F -> F -> F;
  fsub : F -> F -> F;
  fmul : F -> F -> F;
  (** [x / y]; every divisor in the code is a non-zero constant *)
  fdiv : F -> F -> F;
  (** [n / d] on two ints of any size, for a non-zero [d]: the quotient of
      the integers, rounded once *)
  int_div : Z -> Z -> F;
  (** [x % y], the result taking the sign of [y] *)
  fmod : F -> F -> F;
  (** [x > y] *)
  fgtb : F -> F -> bool;
  (** [int(x)]: truncation toward zero *)
  to_int : F -> result Z;
  (** [float(s)] on a string *)
  of_str : string -> result F
}.

(** [n / d] on two ints read from the markup, for a non-zero [d]:
    [OverflowError] when the quotient is too large for a float, else the
    quotient rounded once. *)
Definition int_truediv {F : Type} `{PyFloat F} (n d : Z) : result F :=
  if Py.true_div_overflows n d then Raise Py.OverflowError
  else Ok (int_div n d).

(** *** IEEE binary64, the floats of CPython *)

Module Binary64.

Definition of_int (z : Z) : float :=
  SF2Prim (binary_normalize prec emax z 0 false).

(** CPython's [long_true_divide]: the quotient of the two integers rounded
    to the nearest float, ties to even. *)
Definition int_sf (z : Z) : spec_float :=
  match z with
  | Z0 => S754_zero false
  | Zpos p => S754_finite false p 0
  | Zneg p => S754_finite true p 0
  end.
Definition int_div (n d : Z) : float :=
  SF2Prim (SFdiv prec emax (int_sf n) (int_sf d)).

(** [int(x)] raises [OverflowError] on an infinity and [ValueError] on a
    NaN. *)
Definition to_int (x : float) : result Z :=
  match Prim2SF x with
  | S754_zero _ => Ok 0
  | S754_finite s m e =>
      Ok (cond_Zopp s (if 0 <=? e then Z.pos m * 2 ^ e else Z.pos m / 2 ^ (- e)))
  | S754_infinity _ => Raise Py.OverflowError
  | S754_nan => Raise Py.ValueError
  end.

(** C's [fmod]: the remainder of the truncated quotient, which is exact. *)
Definition c_fmod (x y : float) : float :=
  match Prim2SF x, Prim2SF y with
  | S754_finite sx mx ex, S754_finite sy my ey =>
      let e := Z.min ex ey in
      let X := Z.pos mx * 2 ^ (ex - e) in
      let Y := Z.pos my * 2 ^ (ey - e) in
      SF2Prim (binary_normalize prec emax (cond_Zopp sx (X mod Y)) e sx)
  | S754_zero _, S754_finite _ _ _ => x
  | S754_finite _ _ _, S754_infinity _ => x
  | S754_zero _, S754_infinity _ => x
  | _, _ => nan
  end.

(** CPython's [float_rem]. *)
Definition fmod (x y : float) : float :=
  let m := c_fmod x y in
  if PrimFloat.eqb m zero then (if PrimFloat.ltb y zero then neg_zero else zero)
  else if Bool.eqb (PrimFloat.ltb y zero) (PrimFloat.ltb m zero) then m
  else PrimFloat.add m y.

(** [float(s)], on the decimal integer literals; the other literals of
    Python (fractions, exponents, inf, nan) are left out and raise here. *)
Definition of_str (s : string) : result float :=
  n ← Py.int s; Ok (of_int n).

(** Equality of two floats as bit patterns; it is Python's [==] on every
    float other than a NaN or a zero of the other sign. *)
Definition eq_dec : EqDecision float.
Proof.
  intros x y. destruct (PrimFloat.Leibniz.eqb x y) eqn:E.
  - left. apply FloatAxioms.Leibniz.eqb_spec, E.
  - right. intros H. apply FloatAxioms.Leibniz.eqb_spec in H. congruence.
Defined.

End Binary64.

#[global] Instance binary64 : PyFloat float := {|
  float_eq_dec := Binary64.eq_dec;
  of_int := Binary64.of_int;
  fadd := PrimFloat.add;
  fsub := PrimFloat.sub;
  fmul := PrimFloat.mul;
  fdiv := PrimFloat.div;
  int_div := Binary64.int_div;
  fmod := Binary64.fmod;
  fgtb := fun x y => PrimFloat.ltb y x;
  to_int := Binary64.to_int;
  of_str := Binary64.of_str
|}.

(** *** Exact rationals: floats without rounding *)

Module Exact.

Definition eq_dec : EqDecision Q.
Proof. intros [a b] [c d]. unfold Decision. decide equality; [apply Pos.eq_dec | apply Z.eq_dec]. Defined.

(** Truncation toward zero. *)
Definition Qtrunc (x : Q) : Z := if Qle_bool 0 x then Qfloor x else Qceiling x.

Definition fmod (x y : Q) : Q := (x - y * inject_Z (Qfloor (x / y)))%Q.

End Exact.

#[global] Instance exact : PyFloat Q := {|
  float_eq_dec := Exact.eq_dec;
  of_int := inject_Z;
  fadd := Qplus;
  fsub := Qminus;
  fmul := Qmult;
  fdiv := Qdiv;
  int_div := fun n d => Qdiv (inject_Z n) (inject_Z d);
  fmod := Exact.fmod;
  fgtb := fun x y => negb (Qle_bool x y);
  to_int := fun x => Ok (Exact.Qtrunc x);
  of_str := fun s => n ← Py.int s; Ok (inject_Z n)
|}.

(** *** The standard model of rounding

    What the error analysis of the unit conversions uses of a float
    implementation: [repr a x] says that [a] is finite and denotes the
    rational [x]; integers up to 2^53 convert exactly; a quotient or product
    whose exact value is zero or lies between 2^-100 and 2^100 is finite and
    within relative error 2^-53 of the exact value (binary64 with
    round-to-nearest is more generous on both counts); [int] truncates. *)

Definition unit_roundoff : Q := (1 # 9007199254740992)%Q.

Definition safe (q : Q) : Prop :=
  (q == 0 \/ (1 # 1267650600228229401496703205376) <= Qabs q
             /\ Qabs q <= 1267650600228229401496703205376)%Q.

Class StdModel (F : Type) `{PyFloat F} := {
  repr : F -> Q -> Prop;
  repr_of_int : forall z : Z,
    Z.abs z <= 2 ^ 53 -> repr (of_int z) (inject_Z z);
  repr_fdiv : forall a b x y,
    repr a x -> repr b y -> ~ (y == 0)%Q -> safe (x / y) ->
    exists r, repr (fdiv a b) r /\ (Qabs (r - x / y) <= unit_roundoff * Qabs (x / y))%Q;
  repr_fmul : forall a b x y,
    repr a x -> repr b y -> safe (x * y) ->
    exists r, repr (fmul a b) r /\ (Qabs (r - x * y) <= unit_roundoff * Qabs (x * y))%Q;
  repr_to_int : forall a x,
    repr a x -> to_int a = Ok (Exact.Qtrunc x)
}.

(** Exact arithmetic rounds as the standard model says: it does not
    round. *)
#[global, refine] Instance exact_std : StdModel Q := {| repr := fun a x => a = x |}.
Proof.
  - intros z _. reflexivity.
  - intros a b x y -> -> _ _. exists (x / y)%Q. split; [reflexivity |].
    assert (E : (x / y - x / y == 0)%Q) by ring. rewrite E.
    change (Qabs 0) with 0%Q. apply Qmult_le_0_compat; [discriminate | apply Qabs_nonneg].
  - intros a b x y -> -> _. exists (x * y)%Q. split; [reflexivity |].
    assert (E : (x * y - x * y == 0)%Q) by ring. rewrite E.
    change (Qabs 0) with 0%Q. apply Qmult_le_0_compat; [discriminate | apply Qabs_nonneg].
  - intros a x ->. reflexivity.
Defined.


(** ** XML elements (lxml)

    An element is its tag, its attributes and its children in document
    order.  A tag is written with the prefix of its namespace: [a:] for
    DrawingML main, [p:] for PresentationML, the two namespaces the code
    searches in. *)

Module Xml.

Inductive element : Type :=
| Element (tag : string) (attrib : list (string * string)) (children : list element).

Definition tag (e : element) : string := let 'Element t _ _ := e in t.
Definition attrib (e : element) : list (string * string) := let 'Element _ a _ := e in a.
Definition children (e : element) : list element := let 'Element _ _ c := e in c.

(** The proper descendants of an element, in document order. *)
Fixpoint descendants (e : element) : list element :=
  match e with
  | Element _ _ cs =>
      (fix go (l : list element) : list element :=
         match l with
         | [] => []
         | c :: l' => c :: descendants c ++ go l'
         end) cs
  end.

(** [e.findall('.//t', ns)] *)
Definition findall (t : string) (e : element) : list element :=
  filter (fun d => tag d = t) (descendants e).

(** [e.find('.//t', ns)]: the first match in document order, or [None] *)
Definition find (t : string) (e : element) : option element :=
  head (findall t e).

(** [e.get(name)] *)
Fixpoint lookup_attr (name : string) (l : list (string * string)) : option string :=
  match l with
  | [] => None
  | (k, v) :: l' => if String.eqb k name then Some v else lookup_attr name l'
  end.
Definition get (name : string) (e : element) : option string :=
  lookup_attr name (attrib e).

(** [e.get(name, default)] *)
Definition get_or (name dflt : string) (e : element) : string :=
  default dflt (get name e).

(** [e.tag.split('}')[-1]]: the tag without its namespace *)
Definition local_name (e : element) : string := Py.last_segment ":" (tag e).

End Xml.

(** ** What the code reads from python-pptx objects *)

Module Pptx.

Inductive MSO_SHAPE_TYPE : Set :=
| GROUP | PICTURE | TEXT_BOX | AUTO_SHAPE | FREEFORM | LINE
| OTHER_SHAPE_TYPE (** placeholder, chart, table, media, ... *).

Inductive MSO_FILL : Set :=
| BACKGROUND | SOLID | GRADIENT
| OTHER_FILL (** patterned, picture, textured, group *).

Inductive MSO_SHAPE : Set :=
| ISOSCELES_TRIANGLE | RECTANGLE
| OTHER_AUTO_SHAPE (** every other preset geometry *).

#[global] Instance MSO_SHAPE_TYPE_eq_dec : EqDecision MSO_SHAPE_TYPE.
Proof. solve_decision. Defined.
#[global] Instance MSO_FILL_eq_dec : EqDecision MSO_FILL.
Proof. solve_decision. Defined.
#[global] Instance MSO_SHAPE_eq_dec : EqDecision MSO_SHAPE.
Proof. solve_decision. Defined.

(** A color: [rgb] is [Some] when [hasattr(color, 'rgb') and color.rgb]
    holds, the three components of the [RGBColor]; [theme_color] is [Some]
    when [hasattr(color, 'theme_color')] holds, the text
    [str(color.theme_color)]. *)
Record ColorFormat : Type := {
  rgb : option (Z * Z * Z);
  theme_color : option string
}.

(** A fill: [fill_type] is [fill.type] ([None] when the markup has no fill
    element); [fore_color] is [Some] when
    [hasattr(fill, 'fore_color') and fill.fore_color] holds. *)
Record FillFormat : Type := {
  fill_type : option MSO_FILL;
  fore_color : option ColorFormat
}.

(** The attribute [fill] of an object: [None] when [hasattr(obj, 'fill')]
    is false, [Some None] when the attribute holds [None]. *)
Definition fill_attr : Type := option (option FillFormat).

(** A line: [has_color] is [hasattr(line, 'color') and line.color];
    [line_width] is [Some] when [hasattr(line, 'width')] holds (EMU). *)
Record LineFormat : Type := {
  has_color : bool;
  line_fill : fill_attr;
  line_width : option Z
}.

(** A picture's image: the base64 text of its blob
    ([base64.b64encode(image.blob).decode()]) and its content type. *)
Record Image : Type := {
  blob_b64 : string;
  content_type : string
}.

End Pptx.

(** ** The Fabric.js scene description *)

Module Fabric.

Section Values.
Context {F : Type}.

(** A path string is kept as the list of the commands it is written from:
    one command stands for its f-string ([f'M {x} {y}'], ...) and the list
    for the commands joined by blanks. *)
Inductive path_cmd : Type :=
| PM (x y : F)
| PL (x y : F)
| PC (x1 y1 x2 y2 x3 y3 : F)
| PA (wR hR stAng : F) (large sweep : bool)
| PZ.

(** The [shadow] dictionary. *)
Record shadow : Type := {
  sh_color : string;
  sh_blur : F;
  sh_offsetX : F;
  sh_offsetY : F;
  sh_opacity : F
}.

(** The [clipPath] dictionary ([type] is always [rect]). *)
Record clip_path : Type := {
  cp_left : F;
  cp_top : F;
  cp_width : F;
  cp_height : F
}.

(** The [coords] dictionary of a gradient: keys x1, y1, x2, y2, or
    x1, y1, r1, x2, y2, r2. *)
Inductive coords : Type :=
| LinearCoords (x1 y1 x2 y2 : F)
| RadialCoords (x1 y1 r1 x2 y2 r2 : F).

(** The gradient [fill] dictionary; [g_colorStops] is keyed by
    [str(offset)], kept here as the offset itself, in insertion order. *)
Record gradient : Type := {
  g_type : string;
  g_coords : coords;
  g_colorStops : list (F * string)
}.

(** One entry of the [styles] dictionary of a textbox. *)
Record style : Type := {
  st_fontFamily : option string;
  st_fontSize : F;
  st_fontWeight : string;
  st_fontStyle : string;
  st_underline : option bool;
  st_fill : string;
  st_textAlign : string
}.

(** The values stored under the keys of an object dictionary.  [VStyles]
    is the [styles] dictionary, keyed by [str(offset)], kept as the
    offset. *)
Inductive value : Type :=
| VNone
| VBool (b : bool)
| VNum (x : F)
| VStr (s : string)
| VGradient (g : gradient)
| VPath (p : list path_cmd)
| VClip (c : clip_path)
| VShadow (s : shadow)
| VStyles (m : gmap nat style).

(** An object of a slide: its dictionary, and under the key [objects] the
    children of a group. *)
Inductive scene_object : Type :=
| SceneObject (props : gmap string value) (objects : option (list scene_object)).

Definition props (o : scene_object) : gmap string value :=
  let 'SceneObject d _ := o in d.
Definition objects (o : scene_object) : option (list scene_object) :=
  let 'SceneObject _ c := o in c.

(** [v == s] for a string literal [s] *)
Definition is_str (v : value) (s : string) : bool :=
  match v with
  | VStr t => String.eqb t s
  | _ => false
  end.

(** The truth value of a dictionary: it has a key. *)
Definition truthy (o : scene_object) : bool :=
  negb (bool_decide (props o = ∅)) || bool_decide (is_Some (objects o)).

(** One slide of the output (and of the input of the way back). *)
Record slide_data : Type := {
  sl_objects : list scene_object;
  sl_width : F;
  sl_height : F;
  sl_slideNumber : Z;
  sl_background : option (gmap string value)
}.

End Values.

Arguments path_cmd : clear implicits.
Arguments shadow : clear implicits.
Arguments clip_path : clear implicits.
Arguments coords : clear implicits.
Arguments gradient : clear implicits.
Arguments style : clear implicits.
Arguments value : clear implicits.
Arguments scene_object : clear implicits.
Arguments slide_data : clear implicits.

End Fabric.

(** ** color_handler.py *)

Module ColorHandler.
Import Pptx.

(** The built-in palette [_extract_theme_colors] starts from. *)
Definition default_theme_colors : gmap string string :=
  list_to_map [
    ("BACKGROUND_1", "#FFFFFF"); ("BACKGROUND_2", "#F2F2F2");
    ("TEXT_1", "#000000"); ("TEXT_2", "#666666");
    ("ACCENT_1", "#4472C4"); ("ACCENT_2", "#ED7D31");
    ("ACCENT_3", "#A5A5A5"); ("ACCENT_4", "#FFC000");
    ("ACCENT_5", "#5B9BD5"); ("ACCENT_6", "#70AD47") ].

Definition color_mappings : list (string * string) :=
  [ ("dk1", "TEXT_1"); ("lt1", "BACKGROUND_1"); ("dk2", "TEXT_2");
    ("lt2", "BACKGROUND_2"); ("accent1", "ACCENT_1"); ("accent2", "ACCENT_2");
    ("accent3", "ACCENT_3"); ("accent4", "ACCENT_4"); ("accent5", "ACCENT_5");
    ("accent6", "ACCENT_6") ].

(** [_extract_color_from_element(self, element)].  [self_theme_colors] is
    the attribute [self.theme_colors]: [None] until [__init__] has assigned
    it, so reading it before raises [AttributeError]. *)
Definition _extract_color_from_element
    (self_theme_colors : option (gmap string string))
    (element : Xml.element) : option string :=
  Py.try_except
    (match Xml.find "a:srgbClr" element with
     | Some srgb => Ok (Some ("#" +:+ Py.fmt_opt (Xml.get "val" srgb)))
     | None =>
     match Xml.find "a:sysClr" element with
     | Some sys_clr =>
         Ok (Some ("#" +:+ Py.fmt_opt
                     (match Xml.get "lastClr" sys_clr with
                      | Some c => Some c
                      | None => Xml.get "val" sys_clr
                      end)))
     | None =>
     match Xml.find "a:schemeClr" element with
     | Some scheme_clr =>
         let val := Xml.get "val" scheme_clr in
         theme_colors ← Py.deref self_theme_colors;
         v ← Py.deref val;
         Ok (theme_colors !! Py.upper v)
     | None => Ok None
     end end end)
    None.

(** The truth value of an optional string. *)
Definition str_truthy (c : option string) : bool :=
  match c with
  | Some s => negb (String.eqb s "")
  | None => false
  end.

(** [_extract_theme_colors(self)], called by [__init__] before
    [self.theme_colors] exists.  [theme_root] is the root element of the
    theme of the first slide's layout, [None] when one of the guards on the
    way to it fails. *)
Definition _extract_theme_colors (theme_root : option Xml.element) : gmap string string :=
  match theme_root with
  | None => default_theme_colors
  | Some root =>
      match Xml.find "a:clrScheme" root with
      | None => default_theme_colors
      | Some clr_scheme =>
          fold_left
            (fun theme_colors '(elem_name, theme_name) =>
               match Xml.find ("a:" +:+ elem_name) clr_scheme with
               | Some elem =>
                   let color := _extract_color_from_element None elem in
                   if str_truthy color
                   then <[theme_name := default "" color]> theme_colors
                   else theme_colors
               | None => theme_colors
               end)
            color_mappings default_theme_colors
      end
  end.

(** [f'#{rgb[0]:02x}{rgb[1]:02x}{rgb[2]:02x}'] *)
Definition hex_color (c : Z * Z * Z) : string :=
  let '(r, g, b) := c in
  "#" +:+ Py.fmt_02x r +:+ Py.fmt_02x g +:+ Py.fmt_02x b.

(** [get_shape_color(self, shape)], on the attribute [fill] of its
    argument (a shape, a line or a slide background). *)
Definition get_shape_color (theme_colors : gmap string string) (fill : fill_attr) : string :=
  Py.try_except
    (match fill with
     | None => Ok "transparent"
     | Some None => Ok "transparent"
     | Some (Some fill) =>
         if bool_decide (fill_type fill = Some BACKGROUND) then Ok "transparent"
         else
           let after_solid :=
             if bool_decide (fill_type fill = Some GRADIENT) then Ok "gradient"
             else Ok "transparent" in
           if bool_decide (fill_type fill = Some SOLID) then
             match fore_color fill with
             | Some color =>
                 match rgb color with
                 | Some c => Ok (hex_color c)
                 | None =>
                     match theme_color color with
                     | Some theme_color =>
                         (* the debug print subscripts the table first *)
                         _ ← Py.subscript (theme_colors !! theme_color);
                         match theme_colors !! theme_color with
                         | Some c => Ok c
                         | None => Ok "transparent"
                         end
                     | None => after_solid
                     end
                 end
             | None => after_solid
             end
           else after_solid
     end)
    "transparent".

(** [get_text_color(self, run)], on the attribute [color] of the font of
    the run: [None] when the run has no font or the font no color. *)
Definition get_text_color (theme_colors : gmap string string) (color : option ColorFormat)
    : string :=
  match color with
  | Some color =>
      match rgb color with
      | Some c => hex_color c
      | None =>
          match theme_color color with
          | Some theme_color =>
              match theme_colors !! theme_color with
              | Some c => c
              | None => "#000000"
              end
          | None => "#000000"
          end
      end
  | None => "#000000"
  end.

End ColorHandler.

(** ** advanced_shape_handler.py *)

Module AdvancedShapeHandler.
Import Fabric.

(** The names the top level of the module binds (its imports and its
    class). *)
Definition module_globals : list string :=
  ["ET"; "ZipFile"; "io"; "base64"; "math"; "AdvancedShapeHandler"].

Section Handler.
Context {F : Type} `{PyFloat F}.

(** The members the code reads of the object it calls [Math]. *)
Record MathObj : Type := {
  PI : F;
  cos : F -> F;
  sin : F -> F
}.

(** The object a binding of the global name [Math] would hold; the code
    that follows the lookup of the name is written with it. *)
Variable Math : MathObj.

(** The [gradient] dictionary: keys type, angle, stops; a stop is the pair
    of its offset and its color. *)
Record gradient_props : Type := {
  gp_type : string;
  gp_angle : F;
  gp_stops : list (F * string)
}.

(** A member of the [effects] list, by its key [type]: shadow, glow or
    soft-edge. *)
Inductive effect : Type :=
| Shadow (color : string) (opacity blur offset_x offset_y : F)
| Glow (color : string) (opacity radius : F)
| SoftEdge (radius : F).

(** The [custom_geometry] dictionary: keys paths, rect (l, t, r, b). *)
Record custom_geometry : Type := {
  cg_paths : list (list (path_cmd F));
  cg_rect : option (F * F * F * F)
}.

(** The dictionary of [extract_shape_properties]; its keys shadow,
    reflection, glow and soft_edges stay [None] and are never read. *)
Record shape_props : Type := {
  sp_effects : list effect;
  sp_gradient : option gradient_props;
  sp_custom_geometry : option custom_geometry
}.

(** [int(e.get(name, default)) / divisor] *)
Definition scaled_attr (name dflt : string) (divisor : Z) (e : Xml.element) : result F :=
  n ← Py.int (Xml.get_or name dflt e);
  int_truediv n divisor.

(** [_get_effect_color(self, effect_elem)] *)
Definition _get_effect_color (effect_elem : Xml.element) : string :=
  match Xml.find "a:srgbClr" effect_elem with
  | Some srgb_clr => "#" +:+ Py.fmt_opt (Xml.get "val" srgb_clr)
  | None => "#000000"
  end.

(** One turn of the loop over the gradient stops. *)
Definition gradient_stop (stops : list (F * string)) (gs : Xml.element)
    : result (list (F * string)) :=
  pos ← scaled_attr "pos" "0" 100000 gs;
  match Xml.find "a:srgbClr" gs with
  | Some srgb_clr => Ok (stops ++ [(pos, "#" +:+ Py.fmt_opt (Xml.get "val" srgb_clr))])
  | None => Ok stops
  end.

Fixpoint for_each {A B} (body : B -> A -> result B) (l : list A) (acc : B) : result B :=
  match l with
  | [] => Ok acc
  | a :: l' => acc' ← body acc a; for_each body l' acc'
  end.

(** [_extract_gradient(self, grad_fill)] *)
Definition _extract_gradient (grad_fill : Xml.element) : option gradient_props :=
  Py.try_except
    ('(type, angle) ←
       match Xml.find "a:lin" grad_fill with
       | Some lin =>
           angle ← scaled_attr "ang" "0" 60000 lin;
           Ok ("linear", angle)
       | None =>
           match Xml.find "a:path" grad_fill with
           | Some _ => Ok ("radial", of_int 0)
           | None => Ok ("linear", of_int 0)
           end
       end;
     stops ← for_each gradient_stop (Xml.findall "a:gs" grad_fill) [];
     Ok (Some {| gp_type := type; gp_angle := angle; gp_stops := stops |}))
    None.

(** The point of a path command: [cmd.find('.//a:pt')], then its x and y. *)
Definition point (pt : option Xml.element) : result (F * F) :=
  pt ← Py.deref pt;
  x ← scaled_attr "x" "0" 100000 pt;
  y ← scaled_attr "y" "0" 100000 pt;
  Ok (x, y).

(** One turn of the loop over the commands of a path. *)
Definition path_command (path_data : list (path_cmd F)) (cmd : Xml.element)
    : result (list (path_cmd F)) :=
  let tag := Xml.local_name cmd in
  if String.eqb tag "moveTo" then
    '(x, y) ← point (Xml.find "a:pt" cmd);
    Ok (path_data ++ [PM x y])
  else if String.eqb tag "lnTo" then
    '(x, y) ← point (Xml.find "a:pt" cmd);
    Ok (path_data ++ [PL x y])
  else if String.eqb tag "cubicBezTo" then
    match Xml.findall "a:pt" cmd with
    | [p0; p1; p2] =>
        '(x1, y1) ← point (Some p0);
        '(x2, y2) ← point (Some p1);
        '(x3, y3) ← point (Some p2);
        Ok (path_data ++ [PC x1 y1 x2 y2 x3 y3])
    | _ => Ok path_data
    end
  else if String.eqb tag "arcTo" then
    wR ← scaled_attr "wR" "0" 100000 cmd;
    hR ← scaled_attr "hR" "0" 100000 cmd;
    stAng ← scaled_attr "stAng" "0" 60000 cmd;
    swAng ← scaled_attr "swAng" "0" 60000 cmd;
    Ok (path_data ++ [PA wR hR stAng (fgtb swAng (of_int 180)) (fgtb swAng (of_int 0))])
  else if String.eqb tag "close" then
    Ok (path_data ++ [PZ])
  else Ok path_data.

(** [_extract_custom_geometry(self, custom_geom)] *)
Definition _extract_custom_geometry (custom_geom : Xml.element) : option custom_geometry :=
  Py.try_except
    (rect ←
       match Xml.find "a:rect" custom_geom with
       | Some rect =>
           l ← scaled_attr "l" "0" 100000 rect;
           t ← scaled_attr "t" "0" 100000 rect;
           r ← scaled_attr "r" "0" 100000 rect;
           b ← scaled_attr "b" "0" 100000 rect;
           Ok (Some (l, t, r, b))
       | None => Ok None
       end;
     paths ←
       match Xml.find "a:pathLst" custom_geom with
       | Some path_list =>
           for_each
             (fun paths path =>
                path_data ← for_each path_command (Xml.children path) [];
                Ok (match path_data with [] => paths | _ => paths ++ [path_data] end))
             (Xml.findall "a:path" path_list) []
       | None => Ok []
       end;
     Ok (Some {| cg_paths := paths; cg_rect := rect |}))
    None.

(** [_extract_effects(self, effects)] *)
Definition _extract_effects (effects : Xml.element) : list effect :=
  Py.try_except
    (effect_list ←
       match Xml.find "a:outerShdw" effects with
       | Some shadow =>
           let color := _get_effect_color shadow in
           opacity ← scaled_attr "alpha" "100000" 100000 shadow;
           blur ← scaled_attr "blurRad" "0" 12700 shadow;
           x ← scaled_attr "dx" "0" 12700 shadow;
           y ← scaled_attr "dy" "0" 12700 shadow;
           Ok [Shadow color opacity blur x y]
       | None => Ok []
       end;
     effect_list ←
       match Xml.find "a:glow" effects with
       | Some glow =>
           let color := _get_effect_color glow in
           opacity ← scaled_attr "alpha" "100000" 100000 glow;
           radius ← scaled_attr "rad" "0" 12700 glow;
           Ok (effect_list ++ [Glow color opacity radius])
       | None => Ok effect_list
       end;
     match Xml.find "a:softEdge" effects with
     | Some soft =>
         radius ← scaled_attr "rad" "0" 12700 soft;
         Ok (effect_list ++ [SoftEdge radius])
     | None => Ok effect_list
     end)
    [].

(** [extract_shape_properties(self, shape)], on the attribute [element] of
    the shape ([None] when the shape has none). *)
Definition extract_shape_properties (element : option Xml.element) : option shape_props :=
  match element with
  | None => None
  | Some element =>
      match Xml.find "a:spPr" element with
      | None => None
      | Some sp_pr =>
          Some {|
            sp_gradient :=
              match Xml.find "a:gradFill" sp_pr with
              | Some grad_fill => _extract_gradient grad_fill
              | None => None
              end;
            sp_custom_geometry :=
              match Xml.find "a:custGeom" sp_pr with
              | Some custom_geom => _extract_custom_geometry custom_geom
              | None => None
              end;
            sp_effects :=
              match Xml.find "a:effectLst" sp_pr with
              | Some effects => _extract_effects effects
              | None => []
              end
          |}
      end
  end.

(** [d[k] = v] on a dictionary kept as the list of its items. *)
Fixpoint dict_set {K V} `{EqDecision K} (k : K) (v : V) (d : list (K * V)) : list (K * V) :=
  match d with
  | [] => [(k, v)]
  | (k', v') :: d' => if decide (k' = k) then (k, v) :: d' else (k', v') :: dict_set k v d'
  end.

(** The float the literal [0.5] denotes, and [0.1]: a quotient is rounded
    to the nearest float as a literal is. *)
Definition half : F := fdiv (of_int 1) (of_int 2).
Definition tenth : F := fdiv (of_int 1) (of_int 10).

(** The body of the loop over the effects: each kind assigns the key
    [shadow]. *)
Definition convert_effect (fabric_props : gmap string (value F)) (effect : effect)
    : gmap string (value F) :=
  match effect with
  | Shadow color opacity blur x y =>
      <["shadow" := VShadow {| sh_color := color; sh_blur := blur; sh_offsetX := x;
                              sh_offsetY := y; sh_opacity := opacity |}]> fabric_props
  | Glow color opacity radius =>
      <["shadow" := VShadow {| sh_color := color; sh_blur := fmul radius (of_int 2);
                              sh_offsetX := of_int 0; sh_offsetY := of_int 0;
                              sh_opacity := opacity |}]> fabric_props
  | SoftEdge radius =>
      <["shadow" := VShadow {| sh_color := "#000000"; sh_blur := radius;
                              sh_offsetX := of_int 0; sh_offsetY := of_int 0;
                              sh_opacity := tenth |}]> fabric_props
  end.

(** [convert_to_fabric(self, shape_props)] *)
Definition convert_to_fabric (shape_props : option shape_props) : gmap string (value F) :=
  Py.try_except
    (match shape_props with
     | None => Ok ∅
     | Some shape_props =>
         let fabric_props : gmap string (value F) := ∅ in
         fabric_props ←
           match sp_gradient shape_props with
           | Some grad =>
               let fill := {|
                 g_type := gp_type grad;
                 g_coords :=
                   if String.eqb (gp_type grad) "linear"
                   then LinearCoords (of_int 0) (of_int 0) (of_int 0) (of_int 1)
                   else RadialCoords half half (of_int 0) half half half;
                 g_colorStops :=
                   fold_left (fun d '(offset, color) => dict_set offset color d)
                             (gp_stops grad) []
               |} in
               if String.eqb (gp_type grad) "linear" then
                 _ ← Py.global module_globals "Math";
                 let angle := fdiv (fmul (gp_angle grad) (PI Math)) (of_int 180) in
                 let fill := {|
                   g_type := g_type fill;
                   g_coords :=
                     LinearCoords (fsub half (fmul half (cos Math angle)))
                                  (fsub half (fmul half (sin Math angle)))
                                  (fadd half (fmul half (cos Math angle)))
                                  (fadd half (fmul half (sin Math angle)));
                   g_colorStops := g_colorStops fill
                 |} in
                 Ok (<["fill" := VGradient fill]> fabric_props)
               else Ok (<["fill" := VGradient fill]> fabric_props)
           | None => Ok fabric_props
           end;
         let fabric_props :=
           match sp_custom_geometry shape_props with
           | Some geom =>
               let fabric_props :=
                 match cg_paths geom with
                 | first :: _ => <["path" := VPath first]> fabric_props
                 | [] => fabric_props
                 end in
               match cg_rect geom with
               | Some (l, t, r, b) =>
                   <["clipPath" := VClip {| cp_left := l; cp_top := t;
                                           cp_width := fsub r l;
                                           cp_height := fsub b t |}]> fabric_props
               | None => fabric_props
               end
           | None => fabric_props
           end in
         Ok (fold_left convert_effect (sp_effects shape_props) fabric_props)
     end)
    ∅.

End Handler.

Arguments MathObj : clear implicits.
Arguments gradient_props : clear implicits.
Arguments effect : clear implicits.
Arguments custom_geometry : clear implicits.
Arguments shape_props : clear implicits.

End AdvancedShapeHandler.

(** ** Python sets

    [set_iter l] is [list(set(l))]: the distinct members of [l] in the
    order the set iterates them.  The language fixes no order, so the class
    asks only that each member comes once. *)

Class PySet (A : Type) `{EqDecision A} := {
  set_iter : list A -> list A;
  set_iter_NoDup : forall l, NoDup (set_iter l);
  set_iter_elem : forall l x, x ∈ set_iter l <-> x ∈ l
}.

(** An order every type admits. *)
#[global, refine] Instance any_order {A} `{EqDecision A} : PySet A | 100 :=
  {| set_iter := remove_dups |}.
Proof.
  - apply NoDup_remove_dups.
  - intros l x. apply elem_of_remove_dups.
Defined.

(** CPython keeps a set of at most four members in a table of eight slots
    ([set_add_entry] of setobject.c, where [LINEAR_PROBES] exceeds the mask
    and no neighbour is tried).  A key of hash [h] is looked for at slot
    [h mod 8], then along [i := (5 * i + 1 + perturb) mod 8], [perturb]
    being [h] shifted right by [PERTURB_SHIFT = 5] before each step, and
    goes to the first free slot; the table is iterated from slot 0 upward.
    The hash of a float that is a whole number [n], [0 <= n < 2^61 - 1], is
    [n].  With a fifth member the table grows, and a float that is no such
    number hashes otherwise: there the order below is that of the last
    occurrences. *)
Module SmallTable.
Section Order.
Context {F : Type} `{PyFloat F}.

Definition hash (x : F) : option Z :=
  match to_int x with
  | Ok n => if bool_decide (of_int n = x) && (0 <=? n) && (n <? 2 ^ 61 - 1)
            then Some n else None
  | Raise _ => None
  end.

Fixpoint free_slot (fuel : nat) (table : list (option F)) (i perturb : Z) : option nat :=
  match fuel with
  | O => None
  | S fuel =>
      match table !! Z.to_nat i with
      | Some None => Some (Z.to_nat i)
      | _ => let perturb := Z.shiftr perturb 5 in
             free_slot fuel table ((i * 5 + 1 + perturb) mod 8) perturb
      end
  end.

(** [set_add_key]: a key the table holds is met on its way before any free
    slot, and nothing is added. *)
Definition add (table : list (option F)) (x : F) : option (list (option F)) :=
  if bool_decide (Some x ∈ table) then Some table
  else
    match hash x with
    | Some h =>
        match free_slot 24 table (h mod 8) h with
        | Some i => Some (<[i := Some x]> table)
        | None => None
        end
    | None => None
    end.

Definition fill (l : list F) : option (list (option F)) :=
  foldl (fun table x => match table with
                        | Some table => add table x
                        | None => None
                        end)
        (Some (replicate 8 None)) l.

Definition order (l : list F) : list F :=
  match (if bool_decide (length (remove_dups l) <= 4)%nat then fill l else None) with
  | Some table => omap id table
  | None => remove_dups l
  end.

End Order.
End SmallTable.

(** [l.count(x)] *)
Definition count {A} `{EqDecision A} (x : A) (l : list A) : nat :=
  length (filter (fun y => y = x) l).

(** [max(l, key=key)]: the first member whose key no other exceeds;
    [ValueError] on an empty sequence. *)
Fixpoint max_from {A} (key : A -> nat) (best : A) (l : list A) : A :=
  match l with
  | [] => best
  | x :: l' => if (key best <? key x)%nat then max_from key x l' else max_from key best l'
  end.
Definition py_max {A} (key : A -> nat) (l : list A) : result A :=
  match l with
  | [] => Raise Py.ValueError
  | x :: l' => Ok (max_from key x l')
  end.

(** [max(set(l), key=l.count)] *)
Definition most_common {A} `{PySet A} (l : list A) : result A :=
  py_max (fun x => count x l) (set_iter l).

(** ** text_handler.py *)

Module TextHandler.
Import Fabric.

Section Handler.
Context {F : Type} `{PyFloat F}.
Context {set_F : PySet F} {set_name : PySet (option string)} {set_str : PySet string}.

(** The [font] dictionary of a run.  [bold], [italic] and [underline] hold
    what python-pptx returned, [None] included. *)
Record font_props : Type := {
  f_name : option string;
  f_size : F;
  f_bold : option bool;
  f_italic : option bool;
  f_underline : option bool;
  f_color : string;
  f_strike : bool;
  f_subscript : bool;
  f_superscript : bool
}.

Record run_props : Type := {
  r_text : string;
  r_font : font_props
}.

Record para_props : Type := {
  p_text : string;
  p_align : string;
  p_spacing_before : F;
  p_spacing_after : F;
  p_line_spacing : option F;
  p_runs : list run_props
}.

(** [text_props['paragraphs']] *)
Definition text_props : Type := list para_props.

#[global] Instance font_props_eq_dec : EqDecision font_props.
Proof. solve_decision. Defined.
#[global] Instance run_props_eq_dec : EqDecision run_props.
Proof. solve_decision. Defined.
#[global] Instance para_props_eq_dec : EqDecision para_props.
Proof. solve_decision. Defined.

(** The truth value of an optional boolean. *)
Definition opt_truthy (b : option bool) : bool := default false b.

(** The local variables of [convert_to_fabric_text] that the loops
    change. *)
Record locals : Type := {
  text : string;
  styles : gmap nat (style F);
  font_sizes : list F;
  font_families : list (option string);
  colors : list string;
  alignments : list string;
  current_index : nat
}.

(** The body of [for run in paragraph['runs']]. *)
Definition run_body (align : string) (st : locals) (run : run_props) : locals :=
  let text_ := r_text run in
  if negb (String.eqb text_ "") then
    let style_ := {|
      st_fontFamily := f_name (r_font run);
      st_fontSize := f_size (r_font run);
      st_fontWeight := if opt_truthy (f_bold (r_font run)) then "bold" else "normal";
      st_fontStyle := if opt_truthy (f_italic (r_font run)) then "italic" else "normal";
      st_underline := f_underline (r_font run);
      st_fill := f_color (r_font run);
      st_textAlign := align
    |} in
    {| text := text st +:+ text_;
       font_sizes := font_sizes st ++ [f_size (r_font run)];
       font_families := font_families st ++ [f_name (r_font run)];
       colors := colors st ++ [f_color (r_font run)];
       styles :=
         fold_left (fun m i => <[(current_index st + i)%nat := style_]> m)
                   (seq 0 (String.length text_)) (styles st);
       alignments := alignments st;
       current_index := (current_index st + String.length text_)%nat |}
  else st.

(** The body of [for paragraph in text_props['paragraphs']]; [last_] is
    [text_props['paragraphs'][-1]]. *)
Definition paragraph_body (last_ : option para_props) (st : locals)
    (paragraph : para_props) : locals :=
  let st := {| text := text st; styles := styles st; font_sizes := font_sizes st;
               font_families := font_families st; colors := colors st;
               alignments := alignments st ++ [p_align paragraph];
               current_index := current_index st |} in
  let st := fold_left (run_body (p_align paragraph)) (p_runs paragraph) st in
  if bool_decide (Some paragraph ≠ last_) then
    {| text := text st +:+ String "010" "";
       styles := styles st; font_sizes := font_sizes st;
       font_families := font_families st; colors := colors st;
       alignments := alignments st;
       current_index := (current_index st + 1)%nat |}
  else st.

Definition initial_locals : locals :=
  {| text := ""; styles := ∅; font_sizes := []; font_families := [];
     colors := []; alignments := []; current_index := 0%nat |}.

(** The two loops. *)
Definition walk (paragraphs : text_props) : locals :=
  fold_left (paragraph_body (last paragraphs)) paragraphs initial_locals.

Definition name_value (n : option string) : value F :=
  match n with
  | Some s => VStr s
  | None => VNone
  end.

(** [if l: fabric_text[key] = max(set(l), key=l.count)] *)
Definition set_most_common {A} `{PySet A} (key : string) (inj : A -> value F)
    (l : list A) (fabric_text : gmap string (value F)) : result (gmap string (value F)) :=
  match l with
  | [] => Ok fabric_text
  | _ => v ← most_common l; Ok (<[key := inj v]> fabric_text)
  end.

(** [convert_to_fabric_text(self, text_props)] *)
Definition convert_to_fabric_text (paragraphs : text_props) : option (gmap string (value F)) :=
  Py.try_except
    (let st := walk paragraphs in
     let fabric_text : gmap string (value F) :=
       <["text" := VStr (text st)]> (<["styles" := VStyles (styles st)]> (
       list_to_map [
         ("type", VStr "textbox"); ("text", VStr ""); ("styles", VStyles ∅);
         ("fontSize", VNum (of_int 12)); ("fontFamily", VStr "Arial");
         ("textAlign", VStr "left"); ("fill", VStr "#000000");
         ("originX", VStr "left"); ("originY", VStr "top") ])) in
     fabric_text ← set_most_common "fontSize" VNum (font_sizes st) fabric_text;
     fabric_text ← set_most_common "fontFamily" name_value (font_families st) fabric_text;
     fabric_text ← set_most_common "fill" VStr (colors st) fabric_text;
     fabric_text ← set_most_common "textAlign" VStr (alignments st) fabric_text;
     Ok (Some fabric_text))
    None.

End Handler.

Arguments font_props : clear implicits.
Arguments run_props : clear implicits.
Arguments para_props : clear implicits.
Arguments text_props : clear implicits.
Arguments locals : clear implicits.

End TextHandler.

(** ** shape_handler.py *)

Module ShapeHandler.
Import Pptx Fabric.

Section Handler.
Context {F : Type} `{PyFloat F}.
Context {set_F : PySet F} {set_name : PySet (option string)} {set_str : PySet string}.
Variable Math : AdvancedShapeHandler.MathObj F.

(** What the code reads from one shape.  The geometry is in EMU;
    [sh_rotation] is [None] when the shape has no attribute [rotation];
    [sh_text_props] is the value of [get_text_properties(shape)] and
    [sh_path_data] the value of [_get_path_data(shape)], two functions that
    return in every case. *)
Record shape_info : Type := {
  sh_shape_type : MSO_SHAPE_TYPE;
  sh_left : Z;
  sh_top : Z;
  sh_width : Z;
  sh_height : Z;
  sh_rotation : option F;
  sh_element : option Xml.element;
  sh_fill : fill_attr;
  sh_line : option LineFormat;
  sh_auto_shape_type : option MSO_SHAPE;
  sh_image : option Image;
  sh_text_props : TextHandler.text_props F;
  sh_path_data : option (list (path_cmd F))
}.

(** A shape and, for a group, its member shapes. *)
Inductive shape : Type :=
| Shape (info : shape_info) (shapes : list shape).

Definition info (s : shape) : shape_info := let 'Shape i _ := s in i.
Definition shapes (s : shape) : list shape := let 'Shape _ l := s in l.

Local Abbreviation dict := (gmap string (value F)).

(** [n / 12700] on an int [n] *)
Definition points (n : Z) : F := fdiv (of_int n) (of_int 12700).

(** The truth value of an entry read with [d.get(key)]. *)
Definition value_truthy (v : option (value F)) : bool :=
  match v with
  | None | Some VNone => false
  | Some (VBool b) => b
  | Some (VNum x) => negb (bool_decide (x = of_int 0))
  | Some (VStr s) => negb (String.eqb s "")
  | Some (VPath p) => negb (bool_decide (p = []))
  | Some (VStyles m) => negb (bool_decide (m = ∅))
  | Some _ => true
  end.

(** [_get_base_properties(self, shape)] *)
Definition _get_base_properties (shape : shape_info) : dict :=
  list_to_map [
    ("left", VNum (points (sh_left shape)));
    ("top", VNum (points (sh_top shape)));
    ("width", VNum (points (sh_width shape)));
    ("height", VNum (points (sh_height shape)));
    ("rotation", VNum (default (of_int 0) (sh_rotation shape))) ].

(** [_get_line_properties(self, shape)] *)
Definition _get_line_properties (theme_colors : gmap string string) (shape : shape_info) : dict :=
  match sh_line shape with
  | Some line =>
      let props : dict :=
        if has_color line then
          let color := ColorHandler.get_shape_color theme_colors (line_fill line) in
          if negb (String.eqb color "") then {[ "stroke" := VStr color ]} else ∅
        else ∅ in
      match line_width line with
      | Some w => <["strokeWidth" := VNum (points w)]> props
      | None => props
      end
  | None => ∅
  end.

(** The two defaults [_process_autoshape] and [_process_line] put into the
    line properties. *)
Definition line_defaults (line_props : dict) : dict :=
  let line_props :=
    if value_truthy (line_props !! "stroke") then line_props
    else <["stroke" := VStr "#000000"]> line_props in
  if value_truthy (line_props !! "strokeWidth") then line_props
  else <["strokeWidth" := VNum (of_int 1)]> line_props.

(** [_process_group(self, group_shape, base_props)]; [process_shape] is the
    method it calls on each member. *)
Definition _process_group (process_shape : shape -> option (scene_object F))
    (group_shapes : list shape) (base_props : dict) : option (scene_object F) :=
  let shapes_data :=
    (fix loop (l : list shape) : list (scene_object F) :=
       match l with
       | [] => []
       | shape :: l' =>
           match process_shape shape with
           | Some shape_data =>
               if truthy shape_data then shape_data :: loop l' else loop l'
           | None => loop l'
           end
       end) group_shapes in
  match shapes_data with
  | [] => None
  | _ => Some (SceneObject (<["type" := VStr "group"]> base_props) (Some shapes_data))
  end.

(** The [opacity] of a picture: 1 unless the markup has an [alphaModFix]
    with a non-empty [amt]. *)
Definition picture_opacity (shape : shape_info) : result F :=
  match sh_element shape with
  | Some element =>
      match Xml.find "a:alphaModFix" element with
      | Some alpha_mod =>
          match Xml.get "amt" alpha_mod with
          | Some amt =>
              if negb (String.eqb amt "")
              then n ← Py.int amt; int_truediv n 100000
              else Ok (of_int 1)
          | None => Ok (of_int 1)
          end
      | None => Ok (of_int 1)
      end
  | None => Ok (of_int 1)
  end.

(** [_process_picture(self, shape, base_props)] *)
Definition _process_picture (shape : shape_info) (base_props : dict) : option (scene_object F) :=
  Py.try_except
    (match sh_image shape with
     | Some image =>
         let image_data := blob_b64 image in
         let image_type := Py.last_segment "/" (content_type image) in
         opacity ← picture_opacity shape;
         Ok (Some (SceneObject
           (<["crossOrigin" := VStr "anonymous"]> (
            <["opacity" := VNum opacity]> (
            <["src" := VStr ("data:image/" +:+ image_type +:+ ";base64," +:+ image_data)]> (
            <["type" := VStr "image"]> base_props))))
           None))
     | None => Ok None
     end)
    None.

(** [_process_textbox(self, shape, base_props)] *)
Definition _process_textbox (theme_colors : gmap string string) (shape : shape_info)
    (base_props : dict) : option (scene_object F) :=
  match TextHandler.convert_to_fabric_text (sh_text_props shape) with
  | Some fabric_text =>
      if negb (bool_decide (fabric_text = ∅)) then
        Some (SceneObject
          (<["backgroundColor" := VStr (ColorHandler.get_shape_color theme_colors (sh_fill shape))]>
             (fabric_text ∪ base_props))
          None)
      else None
  | None => None
  end.

(** [_process_autoshape(self, shape, base_props)] *)
Definition _process_autoshape (theme_colors : gmap string string) (shape : shape_info)
    (base_props : dict) : option (scene_object F) :=
  Py.try_except
    (let shape_type :=
       if bool_decide (sh_auto_shape_type shape = Some ISOSCELES_TRIANGLE)
       then "triangle" else "rect" in
     let shape_data : dict := <["type" := VStr shape_type]> base_props in
     let fill_color := ColorHandler.get_shape_color theme_colors (sh_fill shape) in
     let shape_data :=
       if negb (String.eqb fill_color "")
       then <["fill" := VStr fill_color]> shape_data else shape_data in
     let line_props := line_defaults (_get_line_properties theme_colors shape) in
     let shape_data := line_props ∪ shape_data in
     if String.eqb shape_type "triangle" then
       rotation ←
         match shape_data !! "rotation" with
         | None => Ok (of_int 0)
         | Some (VNum r) => Ok r
         | Some _ => Raise Py.TypeError
         end;
       Ok (Some (SceneObject
         (<["angle" := VNum (fmod (fadd rotation (of_int 180)) (of_int 360))]> shape_data)
         None))
     else Ok (Some (SceneObject shape_data None)))
    None.

(** [_process_freeform(self, shape, base_props)] *)
Definition _process_freeform (theme_colors : gmap string string) (shape : shape_info)
    (base_props : dict) : option (scene_object F) :=
  match sh_path_data shape with
  | Some (cmd :: cmds) =>
      let shape_data : dict :=
        <["path" := VPath (cmd :: cmds)]> (<["type" := VStr "path"]> base_props) in
      let fill_color := ColorHandler.get_shape_color theme_colors (sh_fill shape) in
      let shape_data :=
        if negb (String.eqb fill_color "")
        then <["fill" := VStr fill_color]> shape_data else shape_data in
      Some (SceneObject (_get_line_properties theme_colors shape ∪ shape_data) None)
  | _ => None
  end.

(** [_process_line(self, shape, base_props)] *)
Definition _process_line (theme_colors : gmap string string) (shape : shape_info)
    (base_props : dict) : option (scene_object F) :=
  let start_x := points (sh_left shape) in
  let start_y := points (sh_top shape) in
  let end_x := points (sh_left shape + sh_width shape) in
  let end_y := points (sh_top shape + sh_height shape) in
  let path_data := [PM start_x start_y; PL end_x end_y] in
  let shape_data : dict :=
    <["fill" := VStr "transparent"]> (
    <["path" := VPath path_data]> (
    <["type" := VStr "path"]> base_props)) in
  let line_props := line_defaults (_get_line_properties theme_colors shape) in
  Some (SceneObject (line_props ∪ shape_data) None).

(** [process_shape(self, shape)] *)
Fixpoint process_shape (theme_colors : gmap string string) (shape : shape)
    : option (scene_object F) :=
  match shape with
  | Shape shape group_shapes =>
      let base_props := _get_base_properties shape in
      let base_props :=
        match AdvancedShapeHandler.extract_shape_properties (sh_element shape) with
        | Some advanced_props =>
            AdvancedShapeHandler.convert_to_fabric Math (Some advanced_props) ∪ base_props
        | None => base_props
        end in
      match sh_shape_type shape with
      | GROUP => _process_group (process_shape theme_colors) group_shapes base_props
      | PICTURE => _process_picture shape base_props
      | TEXT_BOX => _process_textbox theme_colors shape base_props
      | AUTO_SHAPE => _process_autoshape theme_colors shape base_props
      | FREEFORM => _process_freeform theme_colors shape base_props
      | LINE => _process_line theme_colors shape base_props
      | OTHER_SHAPE_TYPE => None
      end
  end.

(** *** The path of a freeform *)

(** [float(pt.get(name)) / 12700]: [float(None)] is a [TypeError]. *)
Definition coordinate (name : string) (pt : Xml.element) : result F :=
  match Xml.get name pt with
  | Some s => x ← of_str s; Ok (fdiv x (of_int 12700))
  | None => Raise Py.TypeError
  end.

(** The point of a command: [child.find('.//{...}pt')], then its x and
    y. *)
Definition vertex (pt : option Xml.element) : result (F * F) :=
  pt ← Py.deref pt;
  x ← coordinate "x" pt;
  y ← coordinate "y" pt;
  Ok (x, y).

(** One turn of [for child in path_elem]. *)
Definition path_child (commands : list (path_cmd F)) (child : Xml.element)
    : result (list (path_cmd F)) :=
  let tag := Xml.local_name child in
  if String.eqb tag "moveTo" then
    '(x, y) ← vertex (Xml.find "a:pt" child);
    Ok (commands ++ [PM x y])
  else if String.eqb tag "lnTo" then
    '(x, y) ← vertex (Xml.find "a:pt" child);
    Ok (commands ++ [PL x y])
  else if String.eqb tag "cubicBezTo" then
    match Xml.findall "a:pt" child with
    | [p0; p1; p2] =>
        '(x1, y1) ← vertex (Some p0);
        '(x2, y2) ← vertex (Some p1);
        '(x3, y3) ← vertex (Some p2);
        Ok (commands ++ [PC x1 y1 x2 y2 x3 y3])
    | _ => Ok commands
    end
  else if String.eqb tag "close" then
    Ok (commands ++ [PZ])
  else Ok commands.

(** [_extract_path_commands(self, path_elem)]: the commands of the string
    it joins, or [None]. *)
Definition _extract_path_commands (path_elem : Xml.element) : option (list (path_cmd F)) :=
  Py.try_except
    (commands ← AdvancedShapeHandler.for_each path_child (Xml.children path_elem) [];
     Ok (Some commands))
    None.

(** [_get_path_data(self, shape)], on the attribute [element] of the
    shape. *)
Definition _get_path_data (element : option Xml.element) : option (list (path_cmd F)) :=
  match element with
  | Some element =>
      match Xml.find "a:path" element with
      | Some path_elem => _extract_path_commands path_elem
      | None => None
      end
  | None => None
  end.

End Handler.

Arguments shape_info : clear implicits.
Arguments shape : clear implicits.

End ShapeHandler.

(** ** The regular expressions of the preprocessing *)

Module Re.

(** The pieces the patterns of the program are made of: a character, and
    one or more characters other than a given one ([[^c]+]). *)
Inductive item : Set :=
| Lit (c : ascii)
| PlusNot (c : ascii).

(** The match of a pattern at the start of a string, as the backtracking
    matcher finds it: the number of characters matched.  A repetition takes
    as many characters as it can and gives them back one by one while the
    rest of the pattern does not match. *)
Fixpoint match_ (pattern : list item) : string -> option nat :=
  match pattern with
  | [] => fun _ => Some 0%nat
  | Lit c :: rest =>
      fun s =>
        match s with
        | String a s' => if Ascii.eqb a c then S <$> match_ rest s' else None
        | EmptyString => None
        end
  | PlusNot c :: rest =>
      fix more (s : string) : option nat :=
        match s with
        | String a s' =>
            if Ascii.eqb a c then None
            else match more s' with
                 | Some n => Some (S n)
                 | None => S <$> match_ rest s'
                 end
        | EmptyString => None
        end
  end.

(** [re.sub(pattern, repl, s)] with a function [repl] of the matched text,
    for a pattern that matches no empty string: the matches are found from
    the left and do not overlap; [skip] is the number of characters of a
    match still to pass. *)
Fixpoint sub_from (pattern : list item) (repl : string -> string) (skip : nat) (s : string)
    : string :=
  match s with
  | String a s' =>
      match skip with
      | S skip' => sub_from pattern repl skip' s'
      | O =>
          match match_ pattern s with
          | Some (S n) => repl (String.substring 0 (S n) s) +:+ sub_from pattern repl n s'
          | _ => String a (sub_from pattern repl 0 s')
          end
      end
  | EmptyString => EmptyString
  end.

Definition sub (pattern : list item) (repl : string -> string) (s : string) : string :=
  sub_from pattern repl 0 s.

End Re.

(** ** pptx_fabric_converter.py *)

Module Converter.
Import Pptx Fabric.

(** The names the top level of the module binds. *)
Definition module_globals : list string :=
  ["Presentation"; "Pt"; "Inches"; "MSO_SHAPE_TYPE"; "RGBColor"; "json";
   "base64"; "re"; "io"; "zipfile"; "tempfile"; "shutil"; "os";
   "ColorHandler"; "TextHandler"; "ShapeHandler"; "PPTXFabricConverter"].

(** *** Colors *)

Definition is_digit (a : ascii) : bool :=
  let n := nat_of_ascii a in ((48 <=? n)%nat && (n <=? 57)%nat)%bool.

(** [re.findall(r'\d+', s)]: the maximal runs of digits ([cur] is the run
    being read, reversed). *)
Fixpoint digit_runs (cur : list ascii) (s : string) : list string :=
  match s with
  | EmptyString =>
      match cur with [] => [] | _ => [string_of_list_ascii (rev cur)] end
  | String a s' =>
      if is_digit a then digit_runs (a :: cur) s'
      else match cur with
           | [] => digit_runs [] s'
           | _ => string_of_list_ascii (rev cur) :: digit_runs [] s'
           end
  end.

Fixpoint map_result {A B} (f : A -> result B) (l : list A) : result (list B) :=
  match l with
  | [] => Ok []
  | a :: l' => b ← f a; bs ← map_result f l'; Ok (b :: bs)
  end.

(** [RGBColor] on the members of the tuple: three integers between 0 and
    255. *)
Definition RGBColor (color : list Z) : result (Z * Z * Z) :=
  match color with
  | [r; g; b] =>
      if forallb (fun v => (0 <=? v) && (v <=? 255)) [r; g; b]
      then Ok (r, g, b) else Raise Py.ValueError
  | _ => Raise Py.TypeError
  end.

(** *** The namespace fix *)

Definition quote : ascii := "034"%char.
Definition backslash : ascii := "092"%char.

(** [r'xmlns:[^=]+=Q[^Q]+\\Q'], with Q the double quote. *)
Definition namespace_pattern : list Re.item :=
  [Re.Lit "x"; Re.Lit "m"; Re.Lit "l"; Re.Lit "n"; Re.Lit "s"; Re.Lit ":";
   Re.PlusNot "="; Re.Lit "="; Re.Lit quote; Re.PlusNot quote;
   Re.Lit backslash; Re.Lit quote]%char.

(** The dictionary [namespace_fixes], in the order of its literal. *)
Definition namespace_fixes : list (string * string) :=
  [ ("http://schemas.microsoft.com/office/drawing/2014/main" +:+ String backslash "",
     "http://schemas.microsoft.com/office/drawing/2014/main");
    ("http://schemas.microsoft.com/office/powerpoint/2010/main" +:+ String backslash "",
     "http://schemas.microsoft.com/office/powerpoint/2010/main");
    ("http://schemas.microsoft.com/office/word/2010/wordprocessingDrawing"
       +:+ String backslash "",
     "http://schemas.microsoft.com/office/word/2010/wordprocessingDrawing") ].

(** [_fix_invalid_namespace_uri(self, xml_content)] *)
Definition _fix_invalid_namespace_uri (xml_content : string) : string :=
  let xml_content :=
    Re.sub namespace_pattern (fun m => Py.but_last m +:+ String quote "") xml_content in
  fold_left (fun xml_content '(invalid, valid) => Py.replace invalid valid xml_content)
            namespace_fixes xml_content.

Section Builder.
Context {F : Type} `{PyFloat F}.
Context {set_F : PySet F} {set_name : PySet (option string)} {set_str : PySet string}.
Variable Math : AdvancedShapeHandler.MathObj F.

Local Abbreviation dict := (gmap string (value F)).

(** [_parse_color(self, color)]: the tuple, or [None]. *)
Definition _parse_color (color : value F) : option (list Z) :=
  Py.try_except
    (match color with
     | VStr color =>
         if Py.startswith "#" color then
           let color := Py.lstrip "#" color in
           t ← map_result (fun i => Py.int_base 16 (Py.slice2 i color)) [0; 2; 4]%nat;
           Ok (Some t)
         else if Py.startswith "rgb" color then
           t ← map_result Py.int (digit_runs [] color);
           Ok (Some t)
         else Ok None
     | _ => Ok None
     end)
    None.

(** The truth value of what [_parse_color] returned. *)
Definition color_truthy (c : option (list Z)) : bool :=
  match c with
  | Some (_ :: _) => true
  | _ => false
  end.

(** *** The document being built *)

(** The fill of a shape, a line or a background: as created, or after
    [solid()], with the color assigned to [fore_color.rgb] if any. *)
Inductive doc_fill : Type :=
| AsCreated
| Solid (color : option (Z * Z * Z)).

Inductive doc_kind : Type :=
| TextBox
| AutoShape (auto_shape_type : MSO_SHAPE)
| Freeform
| Picture (payload : string).

(** The run [_set_text_properties] adds to the first paragraph. *)
Record doc_run : Type := {
  run_text : string;
  run_size : option Z;
  run_name : option (option string);
  run_color : option (Z * Z * Z);
  run_bold : option bool;
  run_italic : option bool
}.

Record doc_shape : Type := {
  ds_kind : doc_kind;
  ds_left : Z;
  ds_top : Z;
  ds_width : Z;
  ds_height : Z;
  ds_rotation : option F;
  ds_fill : doc_fill;
  ds_line_color : option (Z * Z * Z);
  ds_line_width : option Z;
  ds_run : option doc_run;
  ds_alignment : option string
}.

Record doc_slide : Type := {
  dsl_background : doc_fill;
  dsl_shapes : list doc_shape
}.

Record document : Type := {
  doc_slide_width : Z;
  doc_slide_height : Z;
  doc_slides : list doc_slide
}.

(** [Presentation()]: the default template of python-pptx, no slide yet. *)
Definition default_presentation : document :=
  {| doc_slide_width := 9144000; doc_slide_height := 6858000; doc_slides := [] |}.

(** The statements of a [try] block change the object one after the
    other; when one raises, the handler prints and the object keeps what
    the statements before did. *)
Fixpoint run_steps {S} (steps : list (S -> result S)) (s : S) : S :=
  match steps with
  | [] => s
  | step :: steps' =>
      match step s with
      | Ok s' => run_steps steps' s'
      | Raise _ => s
      end
  end.

(** A number read from the object: [TypeError] for anything else. *)
Definition number (v : value F) : result F :=
  match v with
  | VNum x => Ok x
  | VBool b => Ok (of_int (if b then 1 else 0))
  | _ => Raise Py.TypeError
  end.

(** [float(v)] *)
Definition float_ (v : value F) : result F :=
  match v with
  | VNum x => Ok x
  | VBool b => Ok (of_int (if b then 1 else 0))
  | VStr s => of_str s
  | _ => Raise Py.TypeError
  end.

(** [Inches(x)] and [Pt(x)] of [pptx.util] *)
Definition Inches (inches : F) : result Z := to_int (fmul inches (of_int 914400)).
Definition Pt (points : F) : result Z := to_int (fmul points (of_int 12700)).

(** [font.size = emu]: python-pptx writes the size in hundredths of a
    point, [emu // 127], and refuses one outside 100..400000. *)
Definition font_size (emu : Z) : result Z :=
  if (100 <=? emu / 127) && (emu / 127 <=? 400000) then Ok emu else Raise Py.ValueError.

(** [Inches(obj[key] / 72)] *)
Definition inches_of (obj : dict) (key : string) : result Z :=
  v ← Py.subscript (obj !! key);
  x ← number v;
  Inches (fdiv x (of_int 72)).

Definition new_shape (kind : doc_kind) (l t w h : Z) : doc_shape :=
  {| ds_kind := kind; ds_left := l; ds_top := t; ds_width := w; ds_height := h;
     ds_rotation := None; ds_fill := AsCreated; ds_line_color := None;
     ds_line_width := None; ds_run := None; ds_alignment := None |}.

Definition with_fill (f : doc_fill) (s : doc_shape) : doc_shape :=
  {| ds_kind := ds_kind s; ds_left := ds_left s; ds_top := ds_top s;
     ds_width := ds_width s; ds_height := ds_height s; ds_rotation := ds_rotation s;
     ds_fill := f; ds_line_color := ds_line_color s;
     ds_line_width := ds_line_width s; ds_run := ds_run s;
     ds_alignment := ds_alignment s |}.

Definition with_line (c : option (Z * Z * Z)) (w : option Z) (s : doc_shape) : doc_shape :=
  {| ds_kind := ds_kind s; ds_left := ds_left s; ds_top := ds_top s;
     ds_width := ds_width s; ds_height := ds_height s; ds_rotation := ds_rotation s;
     ds_fill := ds_fill s; ds_line_color := c; ds_line_width := w;
     ds_run := ds_run s; ds_alignment := ds_alignment s |}.

Definition with_rotation (r : F) (s : doc_shape) : doc_shape :=
  {| ds_kind := ds_kind s; ds_left := ds_left s; ds_top := ds_top s;
     ds_width := ds_width s; ds_height := ds_height s; ds_rotation := Some r;
     ds_fill := ds_fill s; ds_line_color := ds_line_color s;
     ds_line_width := ds_line_width s; ds_run := ds_run s;
     ds_alignment := ds_alignment s |}.

Definition with_text (r : option doc_run) (a : option string) (s : doc_shape) : doc_shape :=
  {| ds_kind := ds_kind s; ds_left := ds_left s; ds_top := ds_top s;
     ds_width := ds_width s; ds_height := ds_height s; ds_rotation := ds_rotation s;
     ds_fill := ds_fill s; ds_line_color := ds_line_color s;
     ds_line_width := ds_line_width s; ds_run := r; ds_alignment := a |}.

(** [if key in obj: <steps on obj[key]>] *)
Definition when_key {S} (obj : dict) (key : string)
    (steps : value F -> list (S -> result S)) : list (S -> result S) :=
  match obj !! key with
  | Some v => steps v
  | None => []
  end.

(** [if color: fill.solid(); fill.fore_color.rgb = RGBColor(...)] *)
Definition fill_steps (color : option (list Z)) : list (doc_fill -> result doc_fill) :=
  if color_truthy color then
    [ fun f => Ok (match f with AsCreated => Solid None | Solid c => Solid c end);
      fun _ => c ← RGBColor (default [] color); Ok (Solid (Some c)) ]
  else [].

(** [_set_shape_properties(self, shape, obj)] *)
Definition _set_shape_properties (shape : doc_shape) (obj : dict) : doc_shape :=
  run_steps
    (when_key obj "fill" (fun v =>
       map (fun step s => f ← step (ds_fill s); Ok (with_fill f s))
           (fill_steps (_parse_color v)))
     ++
     when_key obj "stroke" (fun v =>
       let color := _parse_color v in
       (if color_truthy color then
          [ fun s => c ← RGBColor (default [] color);
                     Ok (with_line (Some c) (ds_line_width s) s) ]
        else [])
       ++
       when_key obj "strokeWidth" (fun w =>
         [ fun s => x ← number w; e ← Pt x;
                    Ok (with_line (ds_line_color s) (Some e) s) ])))
    shape.

(** [_get_alignment(self, align)]: the member of [PP_ALIGN], by its name. *)
Definition _get_alignment (align : value F) : result string :=
  match align with
  | VStr align =>
      let a := Py.lower align in
      if String.eqb a "center" then Ok "CENTER"
      else if String.eqb a "right" then Ok "RIGHT"
      else if String.eqb a "justify" then Ok "JUSTIFY"
      else Ok "LEFT"
  | _ => Raise Py.AttributeError
  end.

Definition set_run (f : doc_run -> result doc_run) (s : doc_shape) : result doc_shape :=
  r ← Py.deref (ds_run s);
  r' ← f r;
  Ok (with_text (Some r') (ds_alignment s) s).

(** [_set_text_properties(self, text_frame, obj)] *)
Definition _set_text_properties (shape : doc_shape) (obj : dict) : doc_shape :=
  match obj !! "text" with
  | None => shape
  | Some text =>
      run_steps
        ([ fun s =>
             Ok (with_text (Some {| run_text := ""; run_size := None; run_name := None;
                                    run_color := None; run_bold := None;
                                    run_italic := None |})
                           (ds_alignment s) s);
           set_run (fun r =>
             match text with
             | VStr t =>
                 Ok {| run_text := t; run_size := run_size r; run_name := run_name r;
                       run_color := run_color r; run_bold := run_bold r;
                       run_italic := run_italic r |}
             | _ => Raise Py.TypeError
             end) ]
         ++ when_key obj "fontSize" (fun v =>
              [ set_run (fun r =>
                  x ← number v; e ← Pt x; e ← font_size e;
                  Ok {| run_text := run_text r; run_size := Some e; run_name := run_name r;
                        run_color := run_color r; run_bold := run_bold r;
                        run_italic := run_italic r |}) ])
         ++ when_key obj "fontFamily" (fun v =>
              [ set_run (fun r =>
                  n ← match v with
                      | VStr n => Ok (Some n)
                      | VNone => Ok None
                      | _ => Raise Py.TypeError
                      end;
                  Ok {| run_text := run_text r; run_size := run_size r; run_name := Some n;
                        run_color := run_color r; run_bold := run_bold r;
                        run_italic := run_italic r |}) ])
         ++ when_key obj "fill" (fun v =>
              let color := _parse_color v in
              if color_truthy color then
                [ set_run (fun r =>
                    c ← RGBColor (default [] color);
                    Ok {| run_text := run_text r; run_size := run_size r;
                          run_name := run_name r; run_color := Some c;
                          run_bold := run_bold r; run_italic := run_italic r |}) ]
              else [])
         ++ when_key obj "fontWeight" (fun v =>
              [ set_run (fun r =>
                  Ok {| run_text := run_text r; run_size := run_size r;
                        run_name := run_name r; run_color := run_color r;
                        run_bold := Some (match v with VStr w => String.eqb w "bold" | _ => false end);
                        run_italic := run_italic r |}) ])
         ++ when_key obj "fontStyle" (fun v =>
              [ set_run (fun r =>
                  Ok {| run_text := run_text r; run_size := run_size r;
                        run_name := run_name r; run_color := run_color r;
                        run_bold := run_bold r;
                        run_italic := Some (match v with VStr w => String.eqb w "italic" | _ => false end) |}) ])
         ++ when_key obj "textAlign" (fun v =>
              [ fun s => a ← _get_alignment v; Ok (with_text (ds_run s) (Some a) s) ]))
        shape
  end.

(** [if shape and "angle" in obj: shape.rotation = float(obj["angle"])] *)
Definition set_rotation (obj : dict) (shape : doc_shape) : doc_shape :=
  run_steps
    (when_key obj "angle" (fun v => [ fun s => r ← float_ v; Ok (with_rotation r s) ]))
    shape.

(** The four geometry arguments of a call that adds a shape. *)
Definition geometry (obj : dict) : result (Z * Z * Z * Z) :=
  l ← inches_of obj "left";
  t ← inches_of obj "top";
  w ← inches_of obj "width";
  h ← inches_of obj "height";
  Ok (l, t, w, h).

(** [_create_shape_from_fabric(self, slide, obj)]: the shape the call adds
    to the slide, in the state the call leaves it in; [None] when it adds
    none.  In the branch of an image the payload is taken to be the base64
    text of an image python-pptx reads: on another payload [b64decode] or
    [add_picture] raises, and the call adds no shape. *)
Definition _create_shape_from_fabric (obj : dict) : option doc_shape :=
  Py.try_except
    (type ← Py.subscript (obj !! "type");
     match type with
     | VStr type =>
         if String.eqb type "textbox" then
           '(l, t, w, h) ← geometry obj;
           let shape := new_shape TextBox l t w h in
           Ok (Some (set_rotation obj (_set_text_properties shape obj)))
         else if String.eqb type "rect" then
           _ ← Py.global module_globals "MSO_SHAPE";
           '(l, t, w, h) ← geometry obj;
           let shape := new_shape (AutoShape RECTANGLE) l t w h in
           Ok (Some (set_rotation obj (_set_shape_properties shape obj)))
         else if String.eqb type "path" then
           _ ← Py.global module_globals "MSO_SHAPE";
           '(l, t, w, h) ← geometry obj;
           let shape := new_shape Freeform l t w h in
           Ok (Some (set_rotation obj (_set_shape_properties shape obj)))
         else if String.eqb type "image" then
           match obj !! "src" with
           | Some (VStr src) =>
               if Py.startswith "data:image" src then
                 payload ← Py.subscript (Py.after_comma src);
                 '(l, t, w, h) ← geometry obj;
                 Ok (Some (set_rotation obj (new_shape (Picture payload) l t w h)))
               else Ok None
           | Some _ => Raise Py.AttributeError
           | None => Ok None
           end
         else Ok None
     | _ => Ok None
     end)
    None.

(** [_set_slide_background(self, slide, background)] *)
Definition _set_slide_background (fill : doc_fill) (background : option dict) : doc_fill :=
  match background with
  | Some background =>
      if negb (bool_decide (background = ∅)) then
        run_steps (when_key background "fill" (fun v => fill_steps (_parse_color v))) fill
      else fill
  | None => fill
  end.

(** The slide [fabric_to_pptx] adds for one entry of its input. *)
Definition build_slide (slide_data : slide_data F) : doc_slide :=
  {| dsl_background := _set_slide_background AsCreated (sl_background slide_data);
     dsl_shapes :=
       omap (fun o => _create_shape_from_fabric (props o)) (sl_objects slide_data) |}.

(** [fabric_to_pptx(self, fabric_data, template_pptx=None)], the template
    being the document [Presentation(template_pptx)] opens. *)
Definition fabric_to_pptx (fabric_data : list (slide_data F)) (template_pptx : option document)
    : result document :=
  prs ←
    match template_pptx with
    | Some prs => Ok prs
    | None =>
        first ← match fabric_data with
                | first :: _ => Ok first
                | [] => Raise Py.IndexError
                end;
        w ← to_int (fmul (sl_width first) (of_int 12700));
        h ← to_int (fmul (sl_height first) (of_int 12700));
        Ok {| doc_slide_width := w; doc_slide_height := h;
              doc_slides := doc_slides default_presentation |}
    end;
  Ok {| doc_slide_width := doc_slide_width prs;
        doc_slide_height := doc_slide_height prs;
        doc_slides := doc_slides prs ++ map build_slide fabric_data |}.

(** *** The way forward *)

(** What the code reads from a slide: [sl_background_fill] is [Some] when
    [hasattr(slide, 'background') and slide.background.fill] holds. *)
Record slide : Type := {
  sl_background_fill : option FillFormat;
  sl_shapes : list (ShapeHandler.shape F)
}.

(** The opened presentation; [theme_root] as in
    [ColorHandler._extract_theme_colors].  The presentation is one with a
    slide size: without one python-pptx gives [None] for the width and the
    height, and their division raises. *)
Record presentation : Type := {
  slide_width : Z;
  slide_height : Z;
  slides : list slide;
  theme_root : option Xml.element
}.

(** [_get_slide_background(self, slide, color_handler)] *)
Definition _get_slide_background (theme_colors : gmap string string) (slide : slide)
    : option dict :=
  match sl_background_fill slide with
  | Some fill =>
      let fill_color := ColorHandler.get_shape_color theme_colors (Some (Some fill)) in
      if negb (String.eqb fill_color "") then
        Some (list_to_map [
          ("type", VStr "rect"); ("left", VNum (of_int 0)); ("top", VNum (of_int 0));
          ("width", VStr "100%"); ("height", VStr "100%");
          ("fill", VStr fill_color); ("selectable", VBool false) ])
      else None
  | None => None
  end.

(** The body of [for shape in slide.shapes]. *)
Definition add_shape_data (theme_colors : gmap string string)
    (objects_ : list (scene_object F)) (shape : ShapeHandler.shape F)
    : result (list (scene_object F)) :=
  match ShapeHandler.process_shape Math theme_colors shape with
  | Some shape_data =>
      if truthy shape_data then
        type ← Py.subscript (props shape_data !! "type");
        if is_str type "group" then
          members ← Py.subscript (objects shape_data);
          Ok (objects_ ++ members)
        else Ok (objects_ ++ [shape_data])
      else Ok objects_
  | None => Ok objects_
  end.

(** [pptx_to_fabric(self, pptx_file)], from the presentation python-pptx
    opens on the preprocessed file.  The reads of the debug prints in the
    loop ([shape.shape_type], [shape.name], [shape.text]) are taken to
    succeed: the result is that of a call in which none of them raises. *)
Definition pptx_to_fabric (prs : presentation) : result (list (slide_data F)) :=
  let theme_colors := ColorHandler._extract_theme_colors (theme_root prs) in
  map_result
    (fun '(slide_index, slide) =>
       objects_ ← AdvancedShapeHandler.for_each (add_shape_data theme_colors) (sl_shapes slide) [];
       Ok {| sl_objects := objects_;
             sl_width := fdiv (of_int (slide_width prs)) (of_int 12700);
             sl_height := fdiv (of_int (slide_height prs)) (of_int 12700);
             sl_slideNumber := Z.of_nat slide_index + 1;
             sl_background := _get_slide_background theme_colors slide |})
    (imap pair (slides prs)).

End Builder.

Arguments doc_shape : clear implicits.
Arguments doc_slide : clear implicits.
Arguments document : clear implicits.
Arguments slide : clear implicits.
Arguments presentation : clear implicits.

End Converter.

(** ** pptx_to_json.py *)

Module PptxToJson.
Import Pptx Fabric.

(** [fix_invalid_namespace_uri(xml_content)] *)
Definition fix_invalid_namespace_uri (xml_content : string) : string :=
  let xml_content :=
    Re.sub Converter.namespace_pattern (fun m => Py.but_last m +:+ String Converter.quote "")
           xml_content in
  Py.replace
    ("http://schemas.microsoft.com/office/drawing/2014/main" +:+ String Converter.backslash "")
    "http://schemas.microsoft.com/office/drawing/2014/main" xml_content.

Section Builder.
Context {F : Type} `{PyFloat F}.
Context {set_F : PySet F} {set_name : PySet (option string)} {set_str : PySet string}.
Variable Math : AdvancedShapeHandler.MathObj F.
Local Abbreviation dict := (gmap string (value F)).

(** One slide of the output of [pptx_to_fabric_json]. *)
Record json_slide : Type := {
  js_objects : list (scene_object F);
  js_width : F;
  js_height : F;
  js_slideNumber : Z
}.

(** [pptx_to_fabric_json(pptx_file)], from the presentation python-pptx
    opens on the preprocessed file.  The loop over the shapes of a slide is
    that of [PPTXFabricConverter.pptx_to_fabric], on [slide_objects]. *)
Definition pptx_to_fabric_json (prs : Converter.presentation F) : result (list json_slide) :=
  let theme_colors := ColorHandler._extract_theme_colors (Converter.theme_root prs) in
  Converter.map_result
    (fun '(slide_index, slide) =>
       let slide_objects :=
         match Converter.sl_background_fill slide with
         | Some fill =>
             let bg_color := ColorHandler.get_shape_color theme_colors (Some (Some fill)) in
             if negb (String.eqb bg_color "") then
               [ SceneObject
                   (list_to_map [
                      ("type", VStr "rect"); ("left", VNum (of_int 0));
                      ("top", VNum (of_int 0));
                      ("width", VNum (fdiv (of_int (Converter.slide_width prs)) (of_int 12700)));
                      ("height",
                       VNum (fdiv (of_int (Converter.slide_height prs)) (of_int 12700)));
                      ("fill", VStr bg_color); ("selectable", VBool false) ])
                   None ]
             else []
         | None => []
         end in
       slide_objects ←
         AdvancedShapeHandler.for_each (Converter.add_shape_data Math theme_colors)
           (Converter.sl_shapes slide) slide_objects;
       Ok {| js_objects := slide_objects;
             js_width := fdiv (of_int (Converter.slide_width prs)) (of_int 12700);
             js_height := fdiv (of_int (Converter.slide_height prs)) (of_int 12700);
             js_slideNumber := Z.of_nat slide_index + 1 |})
    (imap pair (Converter.slides prs)).

End Builder.

Arguments json_slide : clear implicits.

End PptxToJson.

(** * Properties *)

(** ** Colors on the way back *)

Section ParseColor.
Context {F : Type} `{PyFloat F}.
Import Fabric Converter.
Local Abbreviation dict := (gmap string (value F)).

(** What [fmt_02x] writes for a byte reads back as the byte. *)
Definition byte_reads_back (r : Z) : bool :=
  match Py.fmt_02x r with
  | String a (String b EmptyString) =>
      negb (Ascii.eqb a "#") &&
      match Py.int_base 16 (String a (String b EmptyString)) with
      | Ok z => z =? r
      | Raise _ => false
      end
  | _ => false
  end.

Lemma all_bytes_read_back :
  forallb byte_reads_back (map Z.of_nat (seq 0 256)) = true.
Proof. vm_compute. reflexivity. Qed.

Lemma fmt_02x_byte (r : Z) :
  0 <= r <= 255 ->
  exists a b, Py.fmt_02x r = String a (String b EmptyString)
              /\ Ascii.eqb a "#" = false
              /\ Py.int_base 16 (String a (String b EmptyString)) = Ok r.
Proof.
  intros Hr.
  assert (Hin : In r (map Z.of_nat (seq 0 256))).
  { apply in_map_iff. exists (Z.to_nat r). split; [lia |].
    apply in_seq. lia. }
  pose proof (proj1 (forallb_forall _ _) all_bytes_read_back r Hin) as Hc.
  unfold byte_reads_back in Hc.
  destruct (Py.fmt_02x r) as [| a [| b [| ? ?]]]; try discriminate.
  apply andb_prop in Hc as [Ha Hc].
  exists a, b. split; [reflexivity |]. split.
  - now apply negb_true_iff in Ha.
  - destruct (Py.int_base 16 (String a (String b EmptyString))); [| discriminate].
    apply Z.eqb_eq in Hc. now subst.
Qed.

Lemma parse_hex_color (r g b : Z) :
  0 <= r <= 255 -> 0 <= g <= 255 -> 0 <= b <= 255 ->
  _parse_color (VStr (ColorHandler.hex_color (r, g, b)) : Fabric.value F) = Some [r; g; b].
Proof.
  intros Hr Hg Hb.
  destruct (fmt_02x_byte r Hr) as (r1 & r2 & Er & Nr & Ir).
  destruct (fmt_02x_byte g Hg) as (g1 & g2 & Eg & _ & Ig).
  destruct (fmt_02x_byte b Hb) as (b1 & b2 & Eb & _ & Ib).
  unfold _parse_color, ColorHandler.hex_color. rewrite Er, Eg, Eb.
  change ("#" +:+ String r1 (String r2 "") +:+ String g1 (String g2 "")
          +:+ String b1 (String b2 ""))
    with (String "#" (String r1 (String r2 (String g1 (String g2
            (String b1 (String b2 ""))))))).
  cbn -[Py.int_base]. rewrite Nr. cbn -[Py.int_base].
  rewrite Ir, Ig, Ib. reflexivity.
Qed.

Lemma run_steps_preserves {S A} (proj : S -> A) (steps : list (S -> result S)) (s : S) :
  Forall (fun step => forall s s', step s = Ok s' -> proj s' = proj s) steps ->
  proj (run_steps steps s) = proj s.
Proof.
  intros Hall. revert s. induction Hall as [| step steps Hstep _ IH]; intros s.
  - reflexivity.
  - simpl. destruct (step s) as [s' |] eqn:E; [| reflexivity].
    rewrite IH. eauto.
Qed.

Lemma parse_other_string (s : string) :
  Py.startswith "#" s = false -> Py.startswith "rgb" s = false ->
  _parse_color (VStr s : Fabric.value F) = None.
Proof. intros H1 H2. unfold _parse_color. rewrite H1, H2. reflexivity. Qed.

Lemma stroke_steps_keep_fill (obj : dict) :
  Forall (fun step : doc_shape F -> result (doc_shape F) =>
            forall s s', step s = Ok s' -> ds_fill s' = ds_fill s)
    (when_key obj "stroke" (fun v =>
       let color := _parse_color v in
       (if color_truthy color then
          [ fun s => c ← RGBColor (default [] color);
                     Ok (with_line (Some c) (ds_line_width s) s) ]
        else [])
       ++
       when_key obj "strokeWidth" (fun w =>
         [ fun s => x ← number w; e ← Pt x;
                    Ok (with_line (ds_line_color s) (Some e) s) ]))).
Proof.
  unfold when_key. destruct (obj !! "stroke") as [v |]; [| constructor].
  apply Forall_app. split.
  - destruct (color_truthy (_parse_color v)); repeat constructor.
    intros s s' E. destruct (RGBColor _); simpl in E; [| discriminate].
    now injection E as <-.
  - destruct (obj !! "strokeWidth") as [w |]; repeat constructor.
    intros s s' E. destruct (number w) as [x |]; simpl in E; [| discriminate].
    destruct (Pt x); simpl in E; [| discriminate].
    now injection E as <-.
Qed.

(** C10: the hex text the forward converter writes for a color of three
    bytes is read back by [_parse_color] as the three bytes; on a string
    that starts with neither [#] nor [rgb], the sentinels [transparent] and
    [gradient] among them, [_parse_color] returns [None] and
    [_set_shape_properties] leaves the fill of the shape as it was. *)
Theorem C10_parse_color_round_trip :
  (forall r g b : Z,
     0 <= r <= 255 -> 0 <= g <= 255 -> 0 <= b <= 255 ->
     _parse_color (VStr (ColorHandler.hex_color (r, g, b)) : Fabric.value F)
     = Some [r; g; b])
  /\ (forall s : string,
        Py.startswith "#" s = false -> Py.startswith "rgb" s = false ->
        _parse_color (VStr s : Fabric.value F) = None
        /\ forall (shape : doc_shape F) (obj : dict),
             obj !! "fill" = Some (VStr s) ->
             ds_fill (_set_shape_properties shape obj) = ds_fill shape)
  /\ Py.startswith "#" "transparent" = false /\ Py.startswith "rgb" "transparent" = false
  /\ Py.startswith "#" "gradient" = false /\ Py.startswith "rgb" "gradient" = false.
Proof.
  split; [exact parse_hex_color |].
  split; [| repeat split; reflexivity].
  intros s H1 H2. split; [now apply parse_other_string |].
  intros shape obj Hfill. unfold _set_shape_properties.
  apply run_steps_preserves. apply Forall_app. split.
  - unfold when_key. rewrite Hfill, (parse_other_string s H1 H2). constructor.
  - apply stroke_steps_keep_fill.
Qed.

End ParseColor.

Lemma C10_witness :
  Converter._parse_color
    (Fabric.VStr (ColorHandler.hex_color (255, 0, 10)) : Fabric.value float)
  = Some [255; 0; 10]
  /\ Converter._parse_color (Fabric.VStr "transparent" : Fabric.value float) = None.
Proof.
  split.
  - apply (proj1 (@C10_parse_color_round_trip float binary64)); lia.
  - apply (proj1 (proj2 (@C10_parse_color_round_trip float binary64))
             "transparent" eq_refl eq_refl).
Defined.


(** ** Lengths: forward and back *)

Section UnitRoundTrip.
Context {F : Type} `{StdModel F}.
Import Fabric Converter.
Local Abbreviation dict := (gmap string (value F)).












Definition geom (s : doc_shape F) : doc_kind * Z * Z * Z * Z :=
  (ds_kind s, ds_left s, ds_top s, ds_width s, ds_height s).

Definition keeps_geom (step : doc_shape F -> result (doc_shape F)) : Prop :=
  forall s s', step s = Ok s' -> geom s' = geom s.

Lemma set_run_keeps_geom (f : doc_run -> result doc_run) : keeps_geom (set_run f).
Proof.
  intros s s' E. unfold set_run in E.
  destruct (ds_run s) as [r |]; simpl in E; [| discriminate].
  destruct (f r); simpl in E; [| discriminate].
  now injection E as <-.
Qed.

Lemma when_key_Forall {S} (P : (S -> result S) -> Prop) (obj : dict) (key : string)
    (steps : value F -> list (S -> result S)) :
  (forall v, Forall P (steps v)) -> Forall P (when_key obj key steps).
Proof. intros Hs. unfold when_key. destruct (obj !! key); [apply Hs | constructor]. Qed.

Lemma _set_text_properties_geom (shape : doc_shape F) (obj : dict) :
  geom (_set_text_properties shape obj) = geom shape.
Proof.
  unfold _set_text_properties. destruct (obj !! "text") as [text |]; [| reflexivity].
  apply run_steps_preserves.
  repeat (apply Forall_app; split);
    try (apply when_key_Forall; intros v);
    repeat first [ apply set_run_keeps_geom | constructor ].
  - intros s s' E. now injection E as <-.
  - destruct (color_truthy (_parse_color v));
      repeat first [ apply set_run_keeps_geom | constructor ].
  - intros s s' E. destruct (_get_alignment v); simpl in E; [| discriminate].
    now injection E as <-.
Qed.

Lemma set_rotation_geom (shape : doc_shape F) (obj : dict) :
  geom (set_rotation obj shape) = geom shape.
Proof.
  unfold set_rotation. apply run_steps_preserves, when_key_Forall.
  intros v. repeat constructor. intros s s' E.
  destruct (float_ v); simpl in E; [| discriminate]. now injection E as <-.
Qed.



End UnitRoundTrip.




(** In binary64 the length 27 comes back as 26: the bound of one unit is
    reached. *)
Example binary64_round_trip_27 :
  Converter.Inches (fdiv (ShapeHandler.points 27 : float) (of_int 72)) = Ok 26.
Proof. vm_compute. reflexivity. Qed.


(** ** Groups *)

Section Groups.
Context {F : Type} `{PyFloat F}.
Context {set_F : PySet F} {set_name : PySet (option string)} {set_str : PySet string}.
Variable Math : AdvancedShapeHandler.MathObj F.
Variable theme_colors : gmap string string.
Import Pptx Fabric ShapeHandler.
Local Abbreviation dict := (gmap string (value F)).


(** The kind of an object, when its [type] is a string. *)
Definition kind (o : scene_object F) : option string :=
  match props o !! "type" with
  | Some (VStr t) => Some t
  | _ => None
  end.

(** An object that is not a group: it has a kind other than [group] and no
    key [objects]. *)
Definition plain (o : scene_object F) : Prop :=
  (exists t, kind o = Some t /\ t <> "group") /\ objects o = None.

Lemma lookup_fill_step (c : string) (d : dict) (k : string) :
  k <> "fill" ->
  (if negb (String.eqb c "") then <["fill" := VStr c]> d else d) !! k = d !! k.
Proof. intros Hk. case_match; by simplify_map_eq. Qed.

Lemma line_props_type (shape : shape_info F) :
  _get_line_properties theme_colors shape !! "type" = None.
Proof.
  unfold _get_line_properties. destruct (sh_line shape) as [line |]; [| apply lookup_empty].
  destruct (line_width line); destruct (has_color line); simpl;
    repeat case_match.
  all: by simplify_map_eq.
Qed.

Lemma line_defaults_type (d : dict) :
  d !! "type" = None -> line_defaults d !! "type" = None.
Proof.
  intros Hd. unfold line_defaults. repeat case_match.
  all: by simplify_map_eq.
Qed.

Lemma convert_to_fabric_text_type (ps : TextHandler.text_props F) (ft : gmap string (value F)) :
  TextHandler.convert_to_fabric_text ps = Some ft -> ft !! "type" = Some (VStr "textbox").
Proof.
  unfold TextHandler.convert_to_fabric_text.
  set (st := TextHandler.walk ps). set (d0 := <["text" := _]> _).
  assert (H0 : d0 !! "type" = Some (VStr "textbox")) by (subst d0; by simplify_map_eq).
  clearbody d0.
  assert (Hstep : forall A (EA : EqDecision A) (SA : PySet A) key inj (l : list A) (d d' : gmap string (value F)),
             key <> "type" -> d !! "type" = Some (VStr "textbox") ->
             TextHandler.set_most_common key inj l d = Ok d' ->
             d' !! "type" = Some (VStr "textbox")).
  { intros A EA SA key inj l d d' Hk Hd E. unfold TextHandler.set_most_common in E.
    destruct l; [by injection E as <- |].
    destruct (most_common _); simpl in E; [| discriminate].
    injection E as <-. by rewrite lookup_insert_ne. }
  intros E.
  destruct (TextHandler.set_most_common "fontSize" _ _ d0) as [d1 |] eqn:E1; [| discriminate].
  simpl in E.
  destruct (TextHandler.set_most_common "fontFamily" _ _ d1) as [d2 |] eqn:E2; [| discriminate].
  simpl in E.
  destruct (TextHandler.set_most_common "fill" _ _ d2) as [d3 |] eqn:E3; [| discriminate].
  simpl in E.
  destruct (TextHandler.set_most_common "textAlign" _ _ d3) as [d4 |] eqn:E4; [| discriminate].
  simpl in E. injection E as <-.
  pose proof (Hstep F _ set_F "fontSize" _ _ _ _ ltac:(done) H0 E1) as H1.
  pose proof (Hstep (option string) _ set_name "fontFamily" _ _ _ _ ltac:(done) H1 E2) as H2.
  pose proof (Hstep string _ set_str "fill" _ _ _ _ ltac:(done) H2 E3) as H3.
  exact (Hstep string _ set_str "textAlign" _ _ _ _ ltac:(done) H3 E4).
Qed.

Lemma _process_picture_plain shape base o :
  _process_picture shape base = Some o -> plain o.
Proof.
  unfold _process_picture. destruct (sh_image shape); [| discriminate].
  destruct (picture_opacity shape); simpl; [| discriminate].
  intros [= <-]. split; [| done]. exists "image". unfold kind. simpl.
  by simplify_map_eq.
Qed.

Lemma _process_textbox_plain shape base o :
  _process_textbox theme_colors shape base = Some o -> plain o.
Proof.
  unfold _process_textbox.
  destruct (TextHandler.convert_to_fabric_text _) as [ft |] eqn:E; [| discriminate].
  apply convert_to_fabric_text_type in E.
  case_match; [| discriminate]. intros [= <-]. split; [| done].
  exists "textbox". unfold kind. simpl.
  rewrite lookup_insert_ne by done.
  erewrite lookup_union_Some_l by exact E. done.
Qed.

Lemma _process_autoshape_plain shape base o :
  _process_autoshape theme_colors shape base = Some o -> plain o.
Proof.
  unfold _process_autoshape.
  set (t := if bool_decide _ then "triangle" else "rect").
  assert (Ht : t <> "group") by (subst t; case_bool_decide; done).
  set (d := _ ∪ _).
  assert (Hd : d !! "type" = Some (VStr t)).
  { subst d. rewrite lookup_union_r by apply line_defaults_type, line_props_type.
    case_match.
    all: by simplify_map_eq. }
  clearbody d t.
  destruct (String.eqb t "triangle").
  - destruct (d !! "rotation") as [[] |]; simpl; try discriminate.
    all: intros [= <-]; split; [| done]; exists t; unfold kind; simpl.
    all: rewrite lookup_insert_ne by done; by rewrite Hd.
  - simpl. intros [= <-]. split; [| done]. exists t. unfold kind. simpl. by rewrite Hd.
Qed.

Lemma _process_freeform_plain shape base o :
  _process_freeform theme_colors shape base = Some o -> plain o.
Proof.
  unfold _process_freeform. destruct (sh_path_data shape) as [[| c cs] |]; try discriminate.
  intros [= <-]. split; [| done]. exists "path". unfold kind. simpl.
  rewrite lookup_union_r by apply line_props_type.
  rewrite lookup_fill_step by done. by simplify_map_eq.
Qed.

Lemma _process_line_plain shape base o :
  _process_line theme_colors shape base = Some o -> plain o.
Proof.
  unfold _process_line. intros [= <-]. split; [| done]. exists "path". unfold kind. simpl.
  rewrite lookup_union_r by apply line_defaults_type, line_props_type.
  by simplify_map_eq.
Qed.


(** The base properties after [base_props.update(fabric_props)]. *)
Definition enriched_base (shape : shape_info F) : dict :=
  match AdvancedShapeHandler.extract_shape_properties (sh_element shape) with
  | Some advanced_props =>
      AdvancedShapeHandler.convert_to_fabric Math (Some advanced_props)
      ∪ _get_base_properties shape
  | None => _get_base_properties shape
  end.




Lemma process_shape_unfold (shape : shape_info F) (group_shapes : list (ShapeHandler.shape F)) :
  process_shape Math theme_colors (Shape shape group_shapes) =
  match sh_shape_type shape with
  | GROUP => _process_group (process_shape Math theme_colors) group_shapes (enriched_base shape)
  | PICTURE => _process_picture shape (enriched_base shape)
  | TEXT_BOX => _process_textbox theme_colors shape (enriched_base shape)
  | AUTO_SHAPE => _process_autoshape theme_colors shape (enriched_base shape)
  | FREEFORM => _process_freeform theme_colors shape (enriched_base shape)
  | LINE => _process_line theme_colors shape (enriched_base shape)
  | OTHER_SHAPE_TYPE => None
  end.
Proof. reflexivity. Qed.

(** The loop of [_process_group] over the members. *)
Definition group_loop (f : shape F -> option (scene_object F)) : list (shape F) -> list (scene_object F) :=
  fix loop (l : list (shape F)) : list (scene_object F) :=
    match l with
    | [] => []
    | shape :: l' =>
        match f shape with
        | Some shape_data => if truthy shape_data then shape_data :: loop l' else loop l'
        | None => loop l'
        end
    end.

Lemma _process_group_unfold f l (base : dict) :
  _process_group f l base =
  match group_loop f l with
  | [] => None
  | c :: cs => Some (SceneObject (<["type" := VStr "group"]> base) (Some (c :: cs)))
  end.
Proof.
  unfold _process_group. fold (group_loop f). cbv zeta.
  destruct (group_loop f l); reflexivity.
Qed.

Lemma kind_truthy (o : scene_object F) t : kind o = Some t -> truthy o = true.
Proof.
  unfold kind, truthy. destruct (props o !! "type") as [v |] eqn:E; [| discriminate].
  intros _. apply orb_true_iff. left. apply negb_true_iff, bool_decide_eq_false.
  intros Hempty. rewrite Hempty, lookup_empty in E. discriminate.
Qed.


(** What [process_shape] returns is a plain object or a group with a
    member. *)
Lemma process_shape_kind (s : shape F) (o : scene_object F) :
  process_shape Math theme_colors s = Some o ->
  plain o \/ (kind o = Some "group" /\ exists c l, objects o = Some (c :: l)).
Proof.
  destruct s as [shape group_shapes]. rewrite process_shape_unfold.
  destruct (sh_shape_type shape).
  - rewrite _process_group_unfold. destruct (group_loop _ _) as [| c cs]; [discriminate |].
    intros [= <-]. right. split; [| by exists c, cs].
    unfold kind. simpl. by rewrite lookup_insert_eq.
  - left. eauto using _process_picture_plain.
  - left. eauto using _process_textbox_plain.
  - left. eauto using _process_autoshape_plain.
  - left. eauto using _process_freeform_plain.
  - left. eauto using _process_line_plain.
  - discriminate.
Qed.

Lemma process_shape_truthy (s : shape F) (o : scene_object F) :
  process_shape Math theme_colors s = Some o -> truthy o = true.
Proof.
  intros E. destruct (process_shape_kind s o E) as [[(t & Ht & _) _] | [Ht _]];
    eauto using kind_truthy.
Qed.



End Groups.

(** ** Effects *)

Section Effects.
Context {F : Type} `{PyFloat F}.
Variable Math : AdvancedShapeHandler.MathObj F.
Import Fabric AdvancedShapeHandler.
Local Abbreviation dict := (gmap string (value F)).

(** The shadow dictionary that stands for one effect. *)
Definition as_shadow (e : effect F) : shadow F :=
  match e with
  | Shadow color opacity blur x y =>
      {| sh_color := color; sh_blur := blur; sh_offsetX := x; sh_offsetY := y;
         sh_opacity := opacity |}
  | Glow color opacity radius =>
      {| sh_color := color; sh_blur := fmul radius (of_int 2);
         sh_offsetX := of_int 0; sh_offsetY := of_int 0; sh_opacity := opacity |}
  | SoftEdge radius =>
      {| sh_color := "#000000"; sh_blur := radius;
         sh_offsetX := of_int 0; sh_offsetY := of_int 0; sh_opacity := tenth |}
  end.

Definition is_shadow (e : effect F) : bool := match e with Shadow _ _ _ _ _ => true | _ => false end.
Definition is_glow (e : effect F) : bool := match e with Glow _ _ _ => true | _ => false end.
Definition is_soft_edge (e : effect F) : bool := match e with SoftEdge _ => true | _ => false end.

(** The effect the specification retains: shadow before glow before
    soft-edge. *)
Definition shadow_first (l : list (effect F)) : option (effect F) :=
  match List.find is_shadow l with
  | Some e => Some e
  | None =>
      match List.find is_glow l with
      | Some e => Some e
      | None => List.find is_soft_edge l
      end
  end.

(** The reverse priority: soft-edge before glow before shadow. *)
Definition soft_edge_first (l : list (effect F)) : option (effect F) :=
  match List.find is_soft_edge l with
  | Some e => Some e
  | None =>
      match List.find is_glow l with
      | Some e => Some e
      | None => List.find is_shadow l
      end
  end.

(** The shape of a list [_extract_effects] builds: at most one effect of
    each kind, the shadow first and the soft edge last. *)
Definition extraction_order (l : list (effect F)) : Prop :=
  exists s g e, l = s ++ g ++ e
    /\ (s = [] \/ exists c o b x y, s = [Shadow c o b x y])
    /\ (g = [] \/ exists c o r, g = [Glow c o r])
    /\ (e = [] \/ exists r, e = [SoftEdge r]).

(** The conversion does not stop at the gradient. *)
Definition no_linear_gradient (props : shape_props F) : Prop :=
  match sp_gradient props with
  | Some grad => gp_type grad <> "linear"
  | None => True
  end.

Lemma extract_effects_order (effects : Xml.element) :
  extraction_order (_extract_effects effects).
Proof.
  unfold _extract_effects.
  assert (Hnil : extraction_order []).
  { exists [], [], []. repeat split; by left. }
  destruct (Xml.find "a:outerShdw" effects) as [sh |]; simpl.
  - destruct (scaled_attr "alpha" "100000" 100000 sh) as [o |]; simpl; [| exact Hnil].
    destruct (scaled_attr "blurRad" "0" 12700 sh) as [b |]; simpl; [| exact Hnil].
    destruct (scaled_attr "dx" "0" 12700 sh) as [x |]; simpl; [| exact Hnil].
    destruct (scaled_attr "dy" "0" 12700 sh) as [y |]; simpl; [| exact Hnil].
    destruct (Xml.find "a:glow" effects) as [gl |]; simpl.
    + destruct (scaled_attr "alpha" "100000" 100000 gl) as [o' |]; simpl; [| exact Hnil].
      destruct (scaled_attr "rad" "0" 12700 gl) as [r |]; simpl; [| exact Hnil].
      destruct (Xml.find "a:softEdge" effects) as [so |]; simpl.
      * destruct (scaled_attr "rad" "0" 12700 so) as [r' |]; simpl; [| exact Hnil].
        exists [Shadow (_get_effect_color sh) o b x y], [Glow (_get_effect_color gl) o' r], [SoftEdge r'].
        repeat split; right; eauto 10.
      * exists [Shadow (_get_effect_color sh) o b x y], [Glow (_get_effect_color gl) o' r], [].
        repeat split; [right | right | left]; eauto 10.
    + destruct (Xml.find "a:softEdge" effects) as [so |]; simpl.
      * destruct (scaled_attr "rad" "0" 12700 so) as [r' |]; simpl; [| exact Hnil].
        exists [Shadow (_get_effect_color sh) o b x y], [], [SoftEdge r'].
        repeat split; [right | left | right]; eauto 10.
      * exists [Shadow (_get_effect_color sh) o b x y], [], [].
        repeat split; [right | left | left]; eauto 10.
  - destruct (Xml.find "a:glow" effects) as [gl |]; simpl.
    + destruct (scaled_attr "alpha" "100000" 100000 gl) as [o' |]; simpl; [| exact Hnil].
      destruct (scaled_attr "rad" "0" 12700 gl) as [r |]; simpl; [| exact Hnil].
      destruct (Xml.find "a:softEdge" effects) as [so |]; simpl.
      * destruct (scaled_attr "rad" "0" 12700 so) as [r' |]; simpl; [| exact Hnil].
        exists [], [Glow (_get_effect_color gl) o' r], [SoftEdge r'].
        repeat split; [left | right | right]; eauto 10.
      * exists [], [Glow (_get_effect_color gl) o' r], [].
        repeat split; [left | right | left]; eauto 10.
    + destruct (Xml.find "a:softEdge" effects) as [so |]; simpl.
      * destruct (scaled_attr "rad" "0" 12700 so) as [r' |]; simpl; [| exact Hnil].
        exists [], [], [SoftEdge r'].
        repeat split; [left | left | right]; eauto 10.
      * exact Hnil.
Qed.

Lemma convert_effect_shadow (d : dict) (e : effect F) :
  convert_effect d e !! "shadow" = Some (VShadow (as_shadow e)).
Proof. destruct e; simpl; apply lookup_insert_eq. Qed.

Lemma fold_convert_effect (l : list (effect F)) (d : dict) :
  fold_left convert_effect l d !! "shadow" =
  match last l with
  | Some e => Some (VShadow (as_shadow e))
  | None => d !! "shadow"
  end.
Proof.
  revert d. induction l as [| e l IH]; intros d; [reflexivity |].
  cbn [fold_left]. rewrite IH, (last_cons e l).
  destruct (last l); [reflexivity | apply convert_effect_shadow].
Qed.

Lemma last_extraction_order (l : list (effect F)) :
  extraction_order l -> last l = soft_edge_first l.
Proof.
  intros (s & g & e & -> & Hs & Hg & He).
  destruct Hs as [-> | (? & ? & ? & ? & ? & ->)];
  destruct Hg as [-> | (? & ? & ? & ->)];
  destruct He as [-> | (? & ->)]; reflexivity.
Qed.

(** The dictionary before the loop over the effects has no shadow. *)
Lemma convert_to_fabric_shadow (props : shape_props F) :
  no_linear_gradient props ->
  convert_to_fabric Math (Some props) !! "shadow"
  = (fun e => VShadow (as_shadow e)) <$> last (sp_effects props).
Proof.
  intros Hg. unfold convert_to_fabric, no_linear_gradient in *.
  destruct (sp_gradient props) as [grad |].
  - apply String.eqb_neq in Hg. rewrite Hg. simpl.
    rewrite fold_convert_effect. destruct (last (sp_effects props)); [reflexivity |].
    simpl. destruct (sp_custom_geometry props) as [[paths rect] |];
      [destruct paths; destruct rect as [[[[? ?] ?] ?] |] |]; simpl.
    all: by simplify_map_eq.
  - simpl. rewrite fold_convert_effect. destruct (last (sp_effects props)); [reflexivity |].
    simpl. destruct (sp_custom_geometry props) as [[paths rect] |];
      [destruct paths; destruct rect as [[[[? ?] ?] ?] |] |]; simpl.
    all: by simplify_map_eq.
Qed.

(** C2, amended: when the conversion does not stop at a linear gradient,
    the object keeps one shadow dictionary, that of the last effect of the
    list; on a list in the order [_extract_effects] builds (and every list
    it builds is) that is the effect chosen with priority soft-edge before
    glow before shadow.  A glow alone gives a centered shadow with its
    color and opacity and twice its radius as blur; a soft edge alone gives
    a centered black shadow of opacity 0.1 with its radius as blur. *)
Theorem C2_effect_collapse :
  (forall effects : Xml.element, extraction_order (_extract_effects effects))
  /\ (forall props : shape_props F,
        no_linear_gradient props ->
        extraction_order (sp_effects props) ->
        convert_to_fabric Math (Some props) !! "shadow"
        = (fun e => VShadow (as_shadow e)) <$> soft_edge_first (sp_effects props))
  /\ (forall (props : shape_props F) color opacity radius,
        no_linear_gradient props ->
        sp_effects props = [Glow color opacity radius] ->
        convert_to_fabric Math (Some props) !! "shadow"
        = Some (VShadow {| sh_color := color; sh_blur := fmul radius (of_int 2);
                           sh_offsetX := of_int 0; sh_offsetY := of_int 0;
                           sh_opacity := opacity |}))
  /\ (forall (props : shape_props F) radius,
        no_linear_gradient props ->
        sp_effects props = [SoftEdge radius] ->
        convert_to_fabric Math (Some props) !! "shadow"
        = Some (VShadow {| sh_color := "#000000"; sh_blur := radius;
                           sh_offsetX := of_int 0; sh_offsetY := of_int 0;
                           sh_opacity := fdiv (of_int 1) (of_int 10) |})).
Proof.
  split; [exact extract_effects_order |].
  split; [| split].
  - intros props Hg Ho. rewrite convert_to_fabric_shadow by done.
    by rewrite last_extraction_order.
  - intros props color opacity radius Hg He.
    rewrite convert_to_fabric_shadow, He by done. reflexivity.
  - intros props radius Hg He.
    rewrite convert_to_fabric_shadow, He by done. reflexivity.
Qed.

End Effects.

(** A value for the section variable [Math] in closed statements; no run
    of the code reads it, the name being unbound. *)
Definition Math_unbound : AdvancedShapeHandler.MathObj float :=
  {| AdvancedShapeHandler.PI := nan;
     AdvancedShapeHandler.cos := fun _ => nan;
     AdvancedShapeHandler.sin := fun _ => nan |}.

(** A shape with an outer shadow and a glow. *)
Definition shadow_and_glow : Xml.element :=
  Xml.Element "p:sp" [] [
    Xml.Element "a:spPr" [] [
      Xml.Element "a:effectLst" [] [
        Xml.Element "a:outerShdw" [("blurRad", "50800"); ("dx", "38100"); ("dy", "38100")] [
          Xml.Element "a:srgbClr" [("val", "000000")] [] ];
        Xml.Element "a:glow" [("rad", "63500")] [
          Xml.Element "a:srgbClr" [("val", "FFC000")] [] ] ] ] ].

(** C2 as stated fails: with a shadow and a glow, the object keeps the
    parameters of the glow, not those of the shadow. *)
Lemma C2_counterexample :
  exists props shadow glow,
    AdvancedShapeHandler.extract_shape_properties (Some shadow_and_glow) = Some props
    /\ AdvancedShapeHandler.sp_effects props = [shadow; glow]
    /\ is_shadow shadow = true /\ is_glow glow = true
    /\ shadow_first (AdvancedShapeHandler.sp_effects props) = Some shadow
    /\ AdvancedShapeHandler.convert_to_fabric Math_unbound (Some props) !! "shadow"
       = Some (Fabric.VShadow (as_shadow glow))
    /\ AdvancedShapeHandler.convert_to_fabric Math_unbound (Some props) !! "shadow"
       <> Some (Fabric.VShadow (as_shadow shadow)).
Proof.
  eexists _, _, _. split; [vm_compute; reflexivity |].
  split; [reflexivity |]. split; [reflexivity |]. split; [reflexivity |].
  split; [reflexivity |]. split; [vm_compute; reflexivity |].
  vm_compute. intros [=].
Qed.

Lemma C2_witness :
  AdvancedShapeHandler.convert_to_fabric Math_unbound
    (AdvancedShapeHandler.extract_shape_properties (Some shadow_and_glow)) !! "shadow"
  = Some (Fabric.VShadow {| Fabric.sh_color := "#FFC000"; Fabric.sh_blur := 10%float;
                            Fabric.sh_offsetX := 0%float; Fabric.sh_offsetY := 0%float;
                            Fabric.sh_opacity := 1%float |}).
Proof.
  pose proof (proj1 (proj2 (C2_effect_collapse Math_unbound))
                {| AdvancedShapeHandler.sp_effects :=
                     AdvancedShapeHandler._extract_effects
                       (Xml.Element "a:effectLst" [] [
                          Xml.Element "a:outerShdw" [("blurRad", "50800"); ("dx", "38100"); ("dy", "38100")] [
                            Xml.Element "a:srgbClr" [("val", "000000")] [] ];
                          Xml.Element "a:glow" [("rad", "63500")] [
                            Xml.Element "a:srgbClr" [("val", "FFC000")] [] ] ]);
                   AdvancedShapeHandler.sp_gradient := None;
                   AdvancedShapeHandler.sp_custom_geometry := None |}
                I (proj1 (C2_effect_collapse Math_unbound) _)) as E.
  exact E.
Defined.

(** ** Linear gradients *)

Section LinearGradient.
Context {F : Type} `{PyFloat F}.
Variable Math : AdvancedShapeHandler.MathObj F.
Import Fabric AdvancedShapeHandler.

(** The module binds [math], not [Math]. *)
Lemma Math_is_unbound : Py.global module_globals "Math" = Raise Py.NameError.
Proof. reflexivity. Qed.

(** With a linear gradient the conversion raises at the name [Math] and
    returns the empty dictionary, whatever else the shape has. *)
Lemma linear_gradient_aborts (props : shape_props F) (grad : gradient_props F) :
  sp_gradient props = Some grad -> gp_type grad = "linear" ->
  convert_to_fabric Math (Some props) = ∅.
Proof.
  intros Hg Ht. unfold convert_to_fabric. rewrite Hg, Ht. reflexivity.
Qed.

End LinearGradient.

(** A linear gradient at 45 degrees with two stops. *)
Definition linear_grad_fill : Xml.element :=
  Xml.Element "a:gradFill" [] [
    Xml.Element "a:gsLst" [] [
      Xml.Element "a:gs" [("pos", "0")] [Xml.Element "a:srgbClr" [("val", "FF0000")] []];
      Xml.Element "a:gs" [("pos", "100000")] [Xml.Element "a:srgbClr" [("val", "0000FF")] []] ];
    Xml.Element "a:lin" [("ang", "2700000"); ("scaled", "1")] [] ].

(** C3: on a linear gradient the code does not reach the endpoint formula.
    [_extract_gradient] reads the gradient (type linear, 45 degrees, two
    stops); [convert_to_fabric] then evaluates [Math.PI], a name the module
    does not bind (it imports [math]), and its handler returns the empty
    dictionary: the object gets no fill descriptor and no endpoints. *)
Theorem C3_linear_gradient_is_lost :
  forall Math : AdvancedShapeHandler.MathObj float,
  exists grad,
    AdvancedShapeHandler._extract_gradient linear_grad_fill = Some grad
    /\ AdvancedShapeHandler.gp_type grad = "linear"
    /\ AdvancedShapeHandler.gp_angle grad = 45%float
    /\ AdvancedShapeHandler.gp_stops grad = [(0%float, "#FF0000"); (1%float, "#0000FF")]
    /\ AdvancedShapeHandler.convert_to_fabric Math
         (Some {| AdvancedShapeHandler.sp_effects := [];
                  AdvancedShapeHandler.sp_gradient := Some grad;
                  AdvancedShapeHandler.sp_custom_geometry := None |})
       = ∅
    /\ AdvancedShapeHandler.convert_to_fabric Math
         (Some {| AdvancedShapeHandler.sp_effects := [];
                  AdvancedShapeHandler.sp_gradient := Some grad;
                  AdvancedShapeHandler.sp_custom_geometry := None |}) !! "fill"
       = None.
Proof.
  intros Math. eexists. split; [vm_compute; reflexivity |].
  split; [reflexivity |]. split; [reflexivity |]. split; [reflexivity |].
  split; [| erewrite linear_gradient_aborts by reflexivity]; reflexivity.
Qed.

(** ** A rectangle, forward and back *)

Section Rectangle.
Context {F : Type} `{PyFloat F}.
Import Fabric Converter.
Local Abbreviation dict := (gmap string (value F)).

(** The module imports [MSO_SHAPE_TYPE] from [pptx.enum.shapes], not
    [MSO_SHAPE]. *)
Lemma MSO_SHAPE_is_unbound : Py.global module_globals "MSO_SHAPE" = Raise Py.NameError.
Proof. reflexivity. Qed.

(** For an object of type [rect] or [path] the call raises at the name
    [MSO_SHAPE] before it adds a shape. *)
Lemma rect_is_never_built (obj : dict) :
  obj !! "type" = Some (VStr "rect") \/ obj !! "type" = Some (VStr "path") ->
  _create_shape_from_fabric obj = None.
Proof.
  intros [Ht | Ht]; unfold _create_shape_from_fabric; rewrite Ht; reflexivity.
Qed.

End Rectangle.

(** A rectangle at (100, 100) points, 200 by 50 points, filled red, with
    the line python-pptx reports for a shape without an outline. *)
Definition red_rectangle : ShapeHandler.shape float :=
  ShapeHandler.Shape
    {| ShapeHandler.sh_shape_type := Pptx.AUTO_SHAPE;
       ShapeHandler.sh_left := 1270000;
       ShapeHandler.sh_top := 1270000;
       ShapeHandler.sh_width := 2540000;
       ShapeHandler.sh_height := 635000;
       ShapeHandler.sh_rotation := Some 0%float;
       ShapeHandler.sh_element :=
         Some (Xml.Element "p:sp" [] [
           Xml.Element "p:spPr" [] [
             Xml.Element "a:prstGeom" [("prst", "rect")] [];
             Xml.Element "a:solidFill" [] [Xml.Element "a:srgbClr" [("val", "FF0000")] []] ] ]);
       ShapeHandler.sh_fill :=
         Some (Some {| Pptx.fill_type := Some Pptx.SOLID;
                       Pptx.fore_color :=
                         Some {| Pptx.rgb := Some (255, 0, 0); Pptx.theme_color := None |} |});
       ShapeHandler.sh_line :=
         Some {| Pptx.has_color := true;
                 Pptx.line_fill :=
                   Some (Some {| Pptx.fill_type := Some Pptx.SOLID;
                                 Pptx.fore_color :=
                                   Some {| Pptx.rgb := None; Pptx.theme_color := None |} |});
                 Pptx.line_width := Some 0 |};
       ShapeHandler.sh_auto_shape_type := Some Pptx.RECTANGLE;
       ShapeHandler.sh_image := None;
       ShapeHandler.sh_text_props := [];
       ShapeHandler.sh_path_data := None |}
    [].

Definition one_rectangle : Converter.presentation float :=
  {| Converter.slide_width := 9144000;
     Converter.slide_height := 6858000;
     Converter.slides :=
       [ {| Converter.sl_background_fill := None;
            Converter.sl_shapes := [red_rectangle] |} ];
     Converter.theme_root := None |}.

(** C1: the way forward does what the specification says: one slide with one
    object of type [rect], its position and size the native values over
    12700, its fill the hex text of the color, which [_parse_color] reads
    back as the color.  The way back does not: for an object of type [rect]
    [_create_shape_from_fabric] evaluates [MSO_SHAPE.RECTANGLE], a name the
    module does not import, the handler prints the error, and the slide of
    the rebuilt document has no shape. *)
Theorem C1_rectangle_is_not_rebuilt :
  forall Math : AdvancedShapeHandler.MathObj float,
  exists slide obj doc,
    Converter.pptx_to_fabric Math one_rectangle = Ok [slide]
    /\ Fabric.sl_objects slide = [obj]
    /\ Fabric.props obj !! "type" = Some (Fabric.VStr "rect")
    /\ Fabric.props obj !! "left" = Some (Fabric.VNum 100%float)
    /\ Fabric.props obj !! "top" = Some (Fabric.VNum 100%float)
    /\ Fabric.props obj !! "width" = Some (Fabric.VNum 200%float)
    /\ Fabric.props obj !! "height" = Some (Fabric.VNum 50%float)
    /\ Fabric.props obj !! "fill" = Some (Fabric.VStr "#ff0000")
    /\ Converter._parse_color (Fabric.VStr "#ff0000" : Fabric.value float) = Some [255; 0; 0]
    /\ Converter._create_shape_from_fabric (Fabric.props obj) = None
    /\ Converter.fabric_to_pptx [slide] None = Ok doc
    /\ Converter.doc_slides doc
       = [ {| Converter.dsl_background := Converter.AsCreated;
              Converter.dsl_shapes := [] |} ].
Proof.
  intros Math. eexists _, _, _.
  split; [vm_compute; reflexivity |].
  split; [reflexivity |].
  repeat (split; [vm_compute; reflexivity |]).
  vm_compute; reflexivity.
Qed.

(** ** The text of a textbox *)

Section TextAsSpecified.
Context {F : Type}.
Import TextHandler.

(** The text of one paragraph: its run texts, one after the other. *)
Definition paragraph_text (p : para_props F) : string :=
  fold_right String.append "" (r_text <$> p_runs p).

(** The text the specification describes: the paragraph texts with one
    newline between every two consecutive paragraphs. *)
Fixpoint text_as_specified (ps : text_props F) : string :=
  match ps with
  | [] => ""
  | [p] => paragraph_text p
  | p :: ps' => paragraph_text p +:+ String "010" "" +:+ text_as_specified ps'
  end.

End TextAsSpecified.

(** A paragraph with the one run [Hi]. *)
Definition hi : TextHandler.para_props float :=
  {| TextHandler.p_text := "Hi";
     TextHandler.p_align := "left";
     TextHandler.p_spacing_before := 0%float;
     TextHandler.p_spacing_after := 0%float;
     TextHandler.p_line_spacing := None;
     TextHandler.p_runs :=
       [ {| TextHandler.r_text := "Hi";
            TextHandler.r_font :=
              {| TextHandler.f_name := Some "Calibri";
                 TextHandler.f_size := 18%float;
                 TextHandler.f_bold := None;
                 TextHandler.f_italic := None;
                 TextHandler.f_underline := None;
                 TextHandler.f_color := "#000000";
                 TextHandler.f_strike := false;
                 TextHandler.f_subscript := false;
                 TextHandler.f_superscript := false |} |} ] |}.

(** C8: a textbox with the same paragraph twice.  The loop adds the
    newline after a paragraph when [paragraph != paragraphs[-1]], a
    comparison of values: the first paragraph equals the last, no newline
    is added, and the second [Hi] takes the offsets 2 and 3 where the
    specification has a newline at 2 and the run at 3 and 4. *)
Theorem C8_equal_paragraphs_lose_newline :
  exists fabric_text styles,
    TextHandler.convert_to_fabric_text [hi; hi] = Some fabric_text
    /\ fabric_text !! "text" = Some (Fabric.VStr "HiHi")
    /\ text_as_specified [hi; hi] = "Hi" +:+ String "010" "" +:+ "Hi"
    /\ fabric_text !! "styles" = Some (Fabric.VStyles styles)
    /\ dom styles = {[ 0%nat; 1%nat; 2%nat; 3%nat ]}.
Proof.
  eexists _, _. split; [vm_compute; reflexivity |].
  split; [reflexivity |]. split; [reflexivity |]. split; [reflexivity |].
  vm_compute. reflexivity.
Qed.

(** ** The defaults of a textbox *)

Section Mode.
Context {A : Type} `{PySet A}.

Lemma max_from_spec (key : A -> nat) (best : A) (l : list A) :
  max_from key best l ∈ best :: l
  /\ forall y, y ∈ best :: l -> (key y <= key (max_from key best l))%nat.
Proof.
  revert best. induction l as [| x l IH]; intros best; simpl.
  - split; [set_solver |]. intros y Hy. assert (y = best) as -> by set_solver. lia.
  - destruct (Nat.ltb_spec (key best) (key x)) as [Hlt | Hge].
    + destruct (IH x) as [Hin Hmax]. split; [set_solver |].
      intros y Hy. apply elem_of_cons in Hy as [-> | Hy].
      * specialize (Hmax x ltac:(set_solver)). lia.
      * apply Hmax. exact Hy.
    + destruct (IH best) as [Hin Hmax]. split; [set_solver |].
      intros y Hy. apply elem_of_cons in Hy as [-> | Hy]; [apply Hmax; set_solver |].
      apply elem_of_cons in Hy as [-> | Hy].
      * specialize (Hmax best ltac:(set_solver)). lia.
      * apply Hmax. set_solver.
Qed.

Lemma count_not_in (x : A) (l : list A) : x ∉ l -> count x l = 0%nat.
Proof.
  intros Hx. unfold count. induction l as [| y l IH]; [reflexivity |].
  rewrite filter_cons. destruct (decide (y = x)) as [-> | _]; [set_solver |].
  apply IH. set_solver.
Qed.

(** [max(set(l), key=l.count)] on a list with a member: a member that no
    value occurs more often than. *)
Lemma max_from_first (key : A -> nat) (l : list A) :
  forall (pre mid : list A) (best : A),
    (forall y, y ∈ pre -> (key y < key best)%nat) ->
    (forall y, y ∈ mid -> (key y <= key best)%nat) ->
    exists pre' post',
      pre ++ best :: mid ++ l = pre' ++ max_from key best l :: post'
      /\ forall y, y ∈ pre' -> (key y < key (max_from key best l))%nat.
Proof.
  induction l as [| x l IH]; intros pre mid best Hpre Hmid; simpl.
  - exists pre, mid. by rewrite app_nil_r.
  - destruct (Nat.ltb_spec (key best) (key x)) as [Hlt | Hge].
    + destruct (IH (pre ++ best :: mid) [] x) as (pre' & post' & E & Hfirst).
      * intros y Hy. apply elem_of_app in Hy as [Hy | Hy].
        -- specialize (Hpre y Hy). lia.
        -- apply elem_of_cons in Hy as [-> | Hy]; [done |].
           specialize (Hmid y Hy). lia.
      * intros y Hy. set_solver.
      * exists pre', post'. split; [| done].
        rewrite <- E. simpl. by rewrite <- !app_assoc.
    + destruct (IH pre (mid ++ [x]) best) as (pre' & post' & E & Hfirst).
      * done.
      * intros y Hy. apply elem_of_app in Hy as [Hy | Hy]; [by apply Hmid |].
        assert (y = x) as -> by set_solver. done.
      * exists pre', post'. split; [| done].
        rewrite <- E. by rewrite <- !app_assoc.
Qed.

(** [v] is the first member, in the order of iteration of the set, with
    its number of occurrences. *)
Definition first_in_order (v : A) (l : list A) : Prop :=
  exists pre post, set_iter l = pre ++ v :: post
                   /\ forall y, y ∈ pre -> (count y l < count v l)%nat.

Lemma most_common_is_mode (l : list A) :
  l <> [] ->
  exists v, most_common l = Ok v /\ v ∈ l
            /\ (forall y, (count y l <= count v l)%nat)
            /\ first_in_order v l.
Proof.
  intros Hl. unfold most_common, py_max, first_in_order.
  destruct (set_iter l) as [| x s] eqn:E.
  - destruct l as [| a l]; [done |].
    assert (a ∈ set_iter (a :: l)) by (apply set_iter_elem; set_solver).
    rewrite E in *. set_solver.
  - destruct (max_from_spec (fun x => count x l) x s) as [Hin Hmax].
    eexists. split; [reflexivity |]. split; [| split].
    + apply set_iter_elem. by rewrite E.
    + intros y. destruct (decide (y ∈ l)) as [Hy | Hy].
      * apply Hmax. rewrite <- E. by apply set_iter_elem.
      * rewrite (count_not_in y l Hy). lia.
    + destruct (max_from_first (fun x => count x l) s [] [] x) as (pre & post & E' & Hf);
        [set_solver | set_solver |].
      exists pre, post. split; [exact E' | exact Hf].
Qed.

End Mode.

Section TextDefaults.
Context {F : Type} `{PyFloat F}.
Context {set_F : PySet F} {set_name : PySet (option string)} {set_str : PySet string}.
Import Fabric TextHandler.
Local Abbreviation dict := (gmap string (value F)).

(** A run with text: the loop skips the others. *)
Definition voiced (r : run_props F) : bool := negb (String.eqb (r_text r) "").

Definition voiced_runs (ps : text_props F) : list (run_props F) :=
  flat_map (fun p => List.filter voiced (p_runs p)) ps.

(** The dictionary entry [entry] holds a mode of [l], the first one in the
    order of iteration of the set, or [dflt] when [l] is empty. *)
Definition mode_or {A} `{PySet A} (dflt : value F) (inj : A -> value F)
    (l : list A) (entry : option (value F)) : Prop :=
  match l with
  | [] => entry = Some dflt
  | _ => exists v, entry = Some (inj v) /\ v ∈ l
                   /\ (forall y, (count y l <= count v l)%nat)
                   /\ first_in_order v l
  end.

(** The style a run gives to its characters. *)
Definition style_of (align : string) (run : run_props F) : style F :=
  {| st_fontFamily := f_name (r_font run);
     st_fontSize := f_size (r_font run);
     st_fontWeight := if opt_truthy (f_bold (r_font run)) then "bold" else "normal";
     st_fontStyle := if opt_truthy (f_italic (r_font run)) then "italic" else "normal";
     st_underline := f_underline (r_font run);
     st_fill := f_color (r_font run);
     st_textAlign := align |}.

Lemma run_body_voiced (al : string) (st : locals F) (r : run_props F) :
  voiced r = true ->
  run_body al st r =
  {| text := text st +:+ r_text r;
     font_sizes := font_sizes st ++ [f_size (r_font r)];
     font_families := font_families st ++ [f_name (r_font r)];
     colors := colors st ++ [f_color (r_font r)];
     styles := fold_left (fun m i => <[(current_index st + i)%nat := style_of al r]> m)
                         (seq 0 (String.length (r_text r))) (styles st);
     alignments := alignments st;
     current_index := (current_index st + String.length (r_text r))%nat |}.
Proof. intros Hv. unfold run_body, voiced in *. rewrite Hv. reflexivity. Qed.

Lemma run_body_silent (al : string) (st : locals F) (r : run_props F) :
  voiced r = false -> run_body al st r = st.
Proof. intros Hv. unfold run_body, voiced in *. rewrite Hv. reflexivity. Qed.

Lemma runs_lists (al : string) (runs : list (run_props F)) (st : locals F) :
  let st' := fold_left (run_body al) runs st in
  font_sizes st' = font_sizes st ++ (f_size ∘ r_font <$> List.filter voiced runs)
  /\ font_families st' = font_families st ++ (f_name ∘ r_font <$> List.filter voiced runs)
  /\ colors st' = colors st ++ (f_color ∘ r_font <$> List.filter voiced runs)
  /\ alignments st' = alignments st.
Proof.
  revert st. induction runs as [| r runs IH]; intros st; simpl.
  - by rewrite !app_nil_r.
  - destruct (IH (run_body al st r)) as (E1 & E2 & E3 & E4).
    rewrite E1, E2, E3, E4. destruct (voiced r) eqn:Hv.
    + rewrite run_body_voiced by done. simpl. by rewrite <- !app_assoc.
    + by rewrite run_body_silent.
Qed.

Lemma paragraph_lists (last_ : option (para_props F)) (st : locals F) (p : para_props F) :
  let st' := paragraph_body last_ st p in
  font_sizes st' = font_sizes st ++ (f_size ∘ r_font <$> List.filter voiced (p_runs p))
  /\ font_families st' = font_families st ++ (f_name ∘ r_font <$> List.filter voiced (p_runs p))
  /\ colors st' = colors st ++ (f_color ∘ r_font <$> List.filter voiced (p_runs p))
  /\ alignments st' = alignments st ++ [p_align p].
Proof.
  unfold paragraph_body.
  destruct (runs_lists (p_align p) (p_runs p)
              {| text := text st; styles := styles st; font_sizes := font_sizes st;
                 font_families := font_families st; colors := colors st;
                 alignments := alignments st ++ [p_align p];
                 current_index := current_index st |}) as (E1 & E2 & E3 & E4).
  simpl in *. case_bool_decide; simpl; auto.
Qed.

Lemma paragraphs_lists (last_ : option (para_props F)) (ps : text_props F) (st : locals F) :
  let st' := fold_left (paragraph_body last_) ps st in
  font_sizes st' = font_sizes st ++ (f_size ∘ r_font <$> voiced_runs ps)
  /\ font_families st' = font_families st ++ (f_name ∘ r_font <$> voiced_runs ps)
  /\ colors st' = colors st ++ (f_color ∘ r_font <$> voiced_runs ps)
  /\ alignments st' = alignments st ++ (p_align <$> ps).
Proof.
  revert st. induction ps as [| p ps IH]; intros st; simpl.
  - by rewrite !app_nil_r.
  - destruct (IH (paragraph_body last_ st p)) as (E1 & E2 & E3 & E4).
    destruct (paragraph_lists last_ st p) as (P1 & P2 & P3 & P4).
    rewrite E1, E2, E3, E4, P1, P2, P3, P4.
    unfold voiced_runs. simpl. rewrite !fmap_app, <- !app_assoc. done.
Qed.

(** The four lists the loops collect. *)
Lemma walk_lists (ps : text_props F) :
  font_sizes (walk ps) = (f_size ∘ r_font <$> voiced_runs ps)
  /\ font_families (walk ps) = (f_name ∘ r_font <$> voiced_runs ps)
  /\ colors (walk ps) = (f_color ∘ r_font <$> voiced_runs ps)
  /\ alignments (walk ps) = (p_align <$> ps).
Proof. apply (paragraphs_lists (last ps) ps initial_locals). Qed.

Lemma set_most_common_spec {A} `{PySet A} (key : string) (dflt : value F)
    (inj : A -> value F) (l : list A) (d : dict) :
  d !! key = Some dflt ->
  exists d', set_most_common key inj l d = Ok d'
             /\ (forall k, k <> key -> d' !! k = d !! k)
             /\ mode_or dflt inj l (d' !! key).
Proof.
  intros Hd. unfold set_most_common, mode_or. destruct l as [| a l].
  - exists d. auto.
  - destruct (most_common_is_mode (a :: l) ltac:(done)) as (v & E & Hin & Hmax & Hfirst).
    rewrite E. simpl. eexists. split; [reflexivity |]. split.
    + intros k Hk. by rewrite lookup_insert_ne.
    + exists v. by rewrite lookup_insert_eq.
Qed.

(** The four defaults of the box, and the text and styles it carries. *)
Lemma defaults_are_modes (ps : text_props F) :
  exists fabric_text,
    convert_to_fabric_text ps = Some fabric_text
    /\ mode_or (VNum (of_int 12)) VNum (f_size ∘ r_font <$> voiced_runs ps)
               (fabric_text !! "fontSize")
    /\ mode_or (VStr "Arial") name_value (f_name ∘ r_font <$> voiced_runs ps)
               (fabric_text !! "fontFamily")
    /\ mode_or (VStr "#000000") VStr (f_color ∘ r_font <$> voiced_runs ps)
               (fabric_text !! "fill")
    /\ mode_or (VStr "left") VStr (p_align <$> ps) (fabric_text !! "textAlign")
    /\ fabric_text !! "styles" = Some (VStyles (styles (walk ps)))
    /\ fabric_text !! "text" = Some (VStr (text (walk ps))).
Proof.
  unfold convert_to_fabric_text.
  destruct (walk_lists ps) as (E1 & E2 & E3 & E4). rewrite E1, E2, E3, E4.
  set (d0 := <["text" := _]> _).
  destruct (set_most_common_spec "fontSize" (VNum (of_int 12)) VNum
              (f_size ∘ r_font <$> voiced_runs ps) d0) as (d1 & -> & K1 & M1);
    [subst d0; by simplify_map_eq |].
  destruct (set_most_common_spec "fontFamily" (VStr "Arial") name_value
              (f_name ∘ r_font <$> voiced_runs ps) d1) as (d2 & S2 & K2 & M2);
    [rewrite K1 by done; subst d0; by simplify_map_eq |].
  destruct (set_most_common_spec "fill" (VStr "#000000") VStr
              (f_color ∘ r_font <$> voiced_runs ps) d2) as (d3 & S3 & K3 & M3);
    [rewrite K2, K1 by done; subst d0; by simplify_map_eq |].
  destruct (set_most_common_spec "textAlign" (VStr "left") VStr
              (p_align <$> ps) d3) as (d4 & S4 & K4 & M4);
    [rewrite K3, K2, K1 by done; subst d0; by simplify_map_eq |].
  simpl. rewrite S2. simpl. rewrite S3. simpl. rewrite S4. simpl.
  exists d4. split; [reflexivity |].
  split; [by rewrite K4, K3, K2 by done |].
  split; [by rewrite K4, K3 by done |].
  split; [by rewrite K4 by done |].
  split; [done |].
  rewrite !K4, !K3, !K2, !K1 by done.
  subst d0. split; by simplify_map_eq.
Qed.


Lemma styles_fold (c n : nat) (s : style F) (m : gmap nat (style F)) (k : nat) :
  fold_left (fun m i => <[(c + i)%nat := s]> m) (seq 0 n) m !! k
  = if decide (c <= k < c + n)%nat then Some s else m !! k.
Proof.
  induction n as [| n IH].
  - simpl. case_decide; [lia | done].
  - rewrite seq_S, fold_left_app. simpl. rewrite lookup_insert, IH.
    repeat case_decide; try done; lia.
Qed.

(** Three runs with text in one paragraph, the first two of one size and
    the third of another. *)
Lemma three_runs (p : para_props F) (r1 r2 r3 : run_props F) (a b : F) :
  p_runs p = [r1; r2; r3] ->
  voiced r1 = true -> voiced r2 = true -> voiced r3 = true ->
  f_size (r_font r1) = a -> f_size (r_font r2) = a -> f_size (r_font r3) = b ->
  a <> b ->
  exists fabric_text styles_,
    convert_to_fabric_text [p] = Some fabric_text
    /\ fabric_text !! "fontSize" = Some (VNum a)
    /\ fabric_text !! "styles" = Some (VStyles styles_)
    /\ forall i, (i < String.length (r_text r3))%nat ->
         st_fontSize <$> styles_ !! (String.length (r_text r1) + String.length (r_text r2) + i)%nat
         = Some b.
Proof.
  intros Hp V1 V2 V3 S1 S2 S3 Hab.
  destruct (defaults_are_modes [p]) as (ft & E & M & _ & _ & _ & Hst & _).
  exists ft, (styles (walk [p])). split; [exact E |]. split; [| split; [exact Hst |]].
  - unfold voiced_runs in M. simpl in M. rewrite Hp in M. simpl in M.
    rewrite V1, V2, V3 in M. simpl in M. rewrite S1, S2, S3 in M.
    destruct M as (v & -> & Hin & Hmax & _).
    assert (Hv : v = a \/ v = b) by set_solver.
    destruct Hv as [-> | ->]; [done |]. exfalso.
    specialize (Hmax a). unfold count in Hmax.
    rewrite !filter_cons, filter_nil in Hmax.
    repeat case_decide; simplify_eq; simpl in Hmax; lia.
  - intros i Hi. unfold walk. simpl. unfold paragraph_body.
    rewrite bool_decide_eq_false_2 by (intros Hne; by apply Hne).
    rewrite Hp. simpl.
    rewrite (run_body_voiced _ _ r1 V1). simpl.
    rewrite (run_body_voiced _ _ r2 V2). simpl.
    rewrite (run_body_voiced _ _ r3 V3). simpl.
    rewrite styles_fold. rewrite decide_True by lia. simpl. by rewrite S3.
Qed.

(** C5, amended: each default of the box ([fontSize], [fontFamily] and
    [fill] over the runs that have text, [textAlign] over the paragraphs)
    is a value no other occurs more often than, whatever the order in which
    the set of values is iterated; of several such values the first in that
    order is taken.  Three runs with text of sizes [a], [a], [b] in one
    paragraph give [fontSize] [a], and the style map has size [b] at every
    offset of the third run.  Without a run that has text the three font
    defaults are Arial, 12 and black; without a paragraph the alignment is
    left. *)
Theorem C5_textbox_defaults :
  (forall ps : text_props F,
     exists fabric_text,
       convert_to_fabric_text ps = Some fabric_text
       /\ mode_or (VNum (of_int 12)) VNum (f_size ∘ r_font <$> voiced_runs ps)
                  (fabric_text !! "fontSize")
       /\ mode_or (VStr "Arial") name_value (f_name ∘ r_font <$> voiced_runs ps)
                  (fabric_text !! "fontFamily")
       /\ mode_or (VStr "#000000") VStr (f_color ∘ r_font <$> voiced_runs ps)
                  (fabric_text !! "fill")
       /\ mode_or (VStr "left") VStr (p_align <$> ps) (fabric_text !! "textAlign"))
  /\ (forall (p : para_props F) (r1 r2 r3 : run_props F) (a b : F),
        p_runs p = [r1; r2; r3] ->
        voiced r1 = true -> voiced r2 = true -> voiced r3 = true ->
        f_size (r_font r1) = a -> f_size (r_font r2) = a -> f_size (r_font r3) = b ->
        a <> b ->
        exists fabric_text styles_,
          convert_to_fabric_text [p] = Some fabric_text
          /\ fabric_text !! "fontSize" = Some (VNum a)
          /\ fabric_text !! "styles" = Some (VStyles styles_)
          /\ forall i, (i < String.length (r_text r3))%nat ->
               st_fontSize <$> styles_ !! (String.length (r_text r1)
                                           + String.length (r_text r2) + i)%nat
               = Some b)
  /\ (forall ps : text_props F,
        voiced_runs ps = [] ->
        exists fabric_text,
          convert_to_fabric_text ps = Some fabric_text
          /\ fabric_text !! "fontFamily" = Some (VStr "Arial")
          /\ fabric_text !! "fontSize" = Some (VNum (of_int 12))
          /\ fabric_text !! "fill" = Some (VStr "#000000")
          /\ (ps = [] -> fabric_text !! "textAlign" = Some (VStr "left"))).
Proof.
  split; [| split].
  - intros ps. destruct (defaults_are_modes ps) as (ft & E & M1 & M2 & M3 & M4 & _).
    exists ft. auto.
  - exact three_runs.
  - intros ps Hv. destruct (defaults_are_modes ps) as (ft & E & M1 & M2 & M3 & M4 & _).
    rewrite Hv in M1, M2, M3. exists ft. repeat split; try done.
    intros ->. exact M4.
Qed.

End TextDefaults.

(** The order of [SmallTable] is an iteration order. *)
Section SmallTableOrder.
Context {F : Type} `{PyFloat F}.

Lemma free_slot_free (fuel : nat) (table : list (option F)) (i perturb : Z) (j : nat) :
  SmallTable.free_slot fuel table i perturb = Some j -> table !! j = Some None.
Proof.
  revert i perturb. induction fuel as [| fuel IH]; intros i perturb; simpl; [discriminate |].
  destruct (table !! Z.to_nat i) as [[x |] |] eqn:E; eauto.
  intros [= <-]. exact E.
Qed.

Lemma members_insert_free (table : list (option F)) (j : nat) (x : F) :
  table !! j = Some None -> omap id (<[j := Some x]> table) ≡ₚ x :: omap id table.
Proof.
  revert j. induction table as [| a table IH]; intros [| j] E; simpl in E; try discriminate.
  - injection E as ->. reflexivity.
  - simpl. destruct a as [y |]; simpl; rewrite (IH j E); [apply Permutation_swap | done].
Qed.

Lemma members_elem (table : list (option F)) (x : F) :
  x ∈ omap id table <-> Some x ∈ table.
Proof.
  rewrite list_elem_of_omap. split.
  - intros (o & Ho & E). simpl in E. by subst.
  - intros Hx. by exists (Some x).
Qed.

Lemma add_members (table table' : list (option F)) (x : F) :
  SmallTable.add table x = Some table' -> NoDup (omap id table) ->
  NoDup (omap id table') /\ forall y, y ∈ omap id table' <-> y = x \/ y ∈ omap id table.
Proof.
  unfold SmallTable.add. destruct (bool_decide_reflect (Some x ∈ table)) as [Hx | Hx].
  - intros [= <-] Hn. split; [done |]. intros y. split; [auto |].
    intros [-> | Hy]; [by apply members_elem | done].
  - destruct (SmallTable.hash x) as [h |]; [| discriminate].
    destruct (SmallTable.free_slot 24 table (h mod 8) h) as [j |] eqn:E; [| discriminate].
    intros [= <-] Hn. pose proof (members_insert_free table j x (free_slot_free _ _ _ _ _ E)) as P.
    split.
    + rewrite P. apply NoDup_cons. split; [by rewrite members_elem | done].
    + intros y. by rewrite P, elem_of_cons.
Qed.

Lemma fill_members (l : list F) (table0 table : list (option F)) :
  foldl (fun table x => match table with
                        | Some table => SmallTable.add table x
                        | None => None
                        end) (Some table0) l = Some table ->
  NoDup (omap id table0) ->
  NoDup (omap id table) /\ forall y, y ∈ omap id table <-> y ∈ l \/ y ∈ omap id table0.
Proof.
  revert table0. induction l as [| x l IH]; intros table0; simpl.
  - intros [= <-] Hn. split; [done |]. intros y. rewrite elem_of_nil. tauto.
  - destruct (SmallTable.add table0 x) as [table1 |] eqn:E.
    + intros Hf Hn. destruct (add_members _ _ _ E Hn) as [Hn1 Hm1].
      destruct (IH table1 Hf Hn1) as [Hn' Hm']. split; [done |].
      intros y. rewrite Hm', Hm1, elem_of_cons. tauto.
    + intros Hf. exfalso. clear -Hf. induction l as [| z l IHl]; simpl in Hf; [discriminate | auto].
Qed.

Definition small_table_set : PySet F.
Proof.
  refine {| set_iter := SmallTable.order |}.
  - intros l. unfold SmallTable.order.
    destruct (bool_decide _); [| apply NoDup_remove_dups].
    destruct (SmallTable.fill l) as [table |] eqn:E; [| apply NoDup_remove_dups].
    apply (fill_members l (replicate 8 None) table E). constructor.
  - intros l x. unfold SmallTable.order.
    destruct (bool_decide _); [| apply elem_of_remove_dups].
    destruct (SmallTable.fill l) as [table |] eqn:E; [| apply elem_of_remove_dups].
    destruct (fill_members l (replicate 8 None) table E) as [_ Hm]; [constructor |].
    rewrite Hm. simpl. rewrite elem_of_nil. tauto.
Defined.

End SmallTableOrder.

(** Three sizes of which two share a slot: 20 finds slot 4 taken by 12,
    then slot 5 taken by 13, and goes to slot 2. *)
Lemma small_table_collision :
  SmallTable.order [13%float; 12%float; 20%float] = [20%float; 12%float; 13%float].
Proof. vm_compute. reflexivity. Qed.


(** The mode with ties going to the value seen first, as the
    specification has it. *)
Fixpoint first_seen {A} `{EqDecision A} (l : list A) : list A :=
  match l with
  | [] => []
  | x :: l' => x :: filter (fun y => y <> x) (first_seen l')
  end.

Definition mode_first_seen {A} `{EqDecision A} (l : list A) : result A :=
  py_max (fun x => count x l) (first_seen l).

Definition run_of (t : string) (size : float) : TextHandler.run_props float :=
  {| TextHandler.r_text := t;
     TextHandler.r_font :=
       {| TextHandler.f_name := Some "Calibri";
          TextHandler.f_size := size;
          TextHandler.f_bold := None;
          TextHandler.f_italic := None;
          TextHandler.f_underline := None;
          TextHandler.f_color := "#000000";
          TextHandler.f_strike := false;
          TextHandler.f_subscript := false;
          TextHandler.f_superscript := false |} |}.

Definition paragraph_of (align : string) (runs : list (TextHandler.run_props float))
    : TextHandler.para_props float :=
  {| TextHandler.p_text := fold_right String.append "" (TextHandler.r_text <$> runs);
     TextHandler.p_align := align;
     TextHandler.p_spacing_before := 0%float;
     TextHandler.p_spacing_after := 0%float;
     TextHandler.p_line_spacing := None;
     TextHandler.p_runs := runs |}.

(** C5 as stated fails twice.  Two runs of sizes 12 and 18: the set
    {12.0, 18.0} of CPython iterates 18.0 first, so [max] returns 18 where
    the value seen first is 12.  A centered paragraph without a run: there
    is no run at all and the alignment is [center], not [left]. *)
Lemma C5_counterexample :
  (exists fabric_text,
     @TextHandler.convert_to_fabric_text float binary64 small_table_set
       (@any_order (option string) _) (@any_order string _)
       [paragraph_of "left" [run_of "a" 12; run_of "b" 18]] = Some fabric_text
     /\ fabric_text !! "fontSize" = Some (Fabric.VNum 18%float)
     /\ mode_first_seen [12%float; 18%float] = Ok 12%float)
  /\ (exists fabric_text,
        @TextHandler.convert_to_fabric_text float binary64 small_table_set
          (@any_order (option string) _) (@any_order string _)
          [paragraph_of "center" []] = Some fabric_text
        /\ TextHandler.p_runs (paragraph_of "center" []) = []
        /\ fabric_text !! "textAlign" = Some (Fabric.VStr "center")).
Proof.
  split; eexists; (split; [vm_compute; reflexivity |]); split; vm_compute; reflexivity.
Qed.

Lemma C5_witness :
  exists fabric_text styles_,
    @TextHandler.convert_to_fabric_text float binary64 small_table_set
      (@any_order (option string) _) (@any_order string _)
      [paragraph_of "left" [run_of "ab" 12; run_of "cd" 12; run_of "ef" 18]]
    = Some fabric_text
    /\ fabric_text !! "fontSize" = Some (Fabric.VNum 12%float)
    /\ fabric_text !! "styles" = Some (Fabric.VStyles styles_)
    /\ forall i, (i < 2)%nat ->
         Fabric.st_fontSize <$> styles_ !! (2 + 2 + i)%nat = Some 18%float.
Proof.
  apply (proj1 (proj2 (@C5_textbox_defaults float binary64 small_table_set
                         (@any_order (option string) _) (@any_order string _)))
           (paragraph_of "left" [run_of "ab" 12; run_of "cd" 12; run_of "ef" 18])
           (run_of "ab" 12) (run_of "cd" 12) (run_of "ef" 18) 12%float 18%float);
    try reflexivity.
  apply (bool_decide_eq_false_1 (12%float = 18%float)). vm_compute. reflexivity.
Defined.

(** ** The order of color resolution *)

Section ColorResolution.
Import ColorHandler.

(** The resolution the specification describes, with the default the
    caller supplies. *)
Definition attr_below (tag name : string) (element : Xml.element) : option string :=
  match Xml.find tag element with
  | Some e => Xml.get name e
  | None => None
  end.

Definition resolve_as_specified (theme_colors : gmap string string) (dflt : string)
    (element : Xml.element) : string :=
  match attr_below "a:srgbClr" "val" element with
  | Some v => "#" +:+ v
  | None =>
  match attr_below "a:sysClr" "lastClr" element with
  | Some v => "#" +:+ v
  | None =>
  match attr_below "a:schemeClr" "val" element with
  | Some role => default dflt (theme_colors !! Py.upper role)
  | None => dflt
  end end end.

(** One turn of the loop of [_extract_theme_colors] over the roles. *)
Definition role_step (clr_scheme : Xml.element) (theme_colors : gmap string string)
    (role : string * string) : gmap string string :=
  let '(elem_name, theme_name) := role in
  match Xml.find ("a:" +:+ elem_name) clr_scheme with
  | Some elem =>
      let color := _extract_color_from_element None elem in
      if str_truthy color
      then <[theme_name := default "" color]> theme_colors
      else theme_colors
  | None => theme_colors
  end.

Lemma _extract_theme_colors_fold (root clr_scheme : Xml.element) :
  Xml.find "a:clrScheme" root = Some clr_scheme ->
  _extract_theme_colors (Some root)
  = fold_left (role_step clr_scheme) color_mappings default_theme_colors.
Proof. intros E. unfold _extract_theme_colors. rewrite E. reflexivity. Qed.

Lemma role_step_other (cs : Xml.element) (m : gmap string string) (e t t' : string) :
  t' <> t -> role_step cs m (e, t') !! t = m !! t.
Proof.
  intros Hne. unfold role_step. destruct (Xml.find _ cs); [| done].
  destruct (str_truthy _); [| done]. by rewrite lookup_insert_ne.
Qed.

Lemma fold_roles_other (cs : Xml.element) (l : list (string * string))
    (m : gmap string string) (t : string) :
  t ∉ l.*2 -> fold_left (role_step cs) l m !! t = m !! t.
Proof.
  revert m. induction l as [| [e t'] l IH]; intros m Hni; [done |].
  simpl. rewrite IH by set_solver. apply role_step_other. set_solver.
Qed.

(** A role whose element is absent or resolves to nothing keeps the color
    of the built-in palette. *)
Lemma unresolved_role_keeps_default (cs : Xml.element) (l : list (string * string))
    (m : gmap string string) (e t : string) :
  NoDup l.*2 -> (e, t) ∈ l ->
  match Xml.find ("a:" +:+ e) cs with
  | Some elem => _extract_color_from_element None elem = None
  | None => True
  end ->
  fold_left (role_step cs) l m !! t = m !! t.
Proof.
  revert m. induction l as [| [e' t'] l IH]; intros m Hnd Hin Hnone; [set_solver |].
  rewrite fmap_cons in Hnd. apply NoDup_cons in Hnd as [Hni Hnd].
  apply elem_of_cons in Hin as [[= <- <-] | Hin]; simpl.
  - rewrite fold_roles_other by done. unfold role_step.
    destruct (Xml.find _ cs); [| done]. by rewrite Hnone.
  - rewrite IH by done. apply role_step_other. intros ->. apply Hni.
    apply list_elem_of_fmap. by exists (e, t).
Qed.

(** C4, amended: the function stops at the first kind of color element it
    finds below the element.  (1) An sRGB color gives [#] and its [val].
    (2) Else a system color gives [#] and its [lastClr], or its [val] when
    it declares no [lastClr].  (3) Else a scheme color is looked up in the
    theme table of the handler under its name in upper case.  (4) Else the
    function returns [None]: it takes no default, and the theme table,
    built by its one caller, keeps the built-in color of a role that
    resolves to nothing. *)
Theorem C4_resolution_order (self_theme_colors : option (gmap string string))
    (element : Xml.element) :
  (forall srgb, Xml.find "a:srgbClr" element = Some srgb ->
     _extract_color_from_element self_theme_colors element
     = Some ("#" +:+ Py.fmt_opt (Xml.get "val" srgb)))
  /\ (Xml.find "a:srgbClr" element = None ->
      forall sys_clr, Xml.find "a:sysClr" element = Some sys_clr ->
        _extract_color_from_element self_theme_colors element
        = Some ("#" +:+ Py.fmt_opt (match Xml.get "lastClr" sys_clr with
                                    | Some c => Some c
                                    | None => Xml.get "val" sys_clr
                                    end)))
  /\ (Xml.find "a:srgbClr" element = None -> Xml.find "a:sysClr" element = None ->
      forall scheme_clr val theme_colors,
        Xml.find "a:schemeClr" element = Some scheme_clr ->
        Xml.get "val" scheme_clr = Some val ->
        self_theme_colors = Some theme_colors ->
        _extract_color_from_element self_theme_colors element
        = theme_colors !! Py.upper val)
  /\ (Xml.find "a:srgbClr" element = None -> Xml.find "a:sysClr" element = None ->
      Xml.find "a:schemeClr" element = None ->
      _extract_color_from_element self_theme_colors element = None)
  /\ (forall root clr_scheme elem_name theme_name,
        Xml.find "a:clrScheme" root = Some clr_scheme ->
        (elem_name, theme_name) ∈ color_mappings ->
        match Xml.find ("a:" +:+ elem_name) clr_scheme with
        | Some elem => _extract_color_from_element None elem = None
        | None => True
        end ->
        _extract_theme_colors (Some root) !! theme_name
        = default_theme_colors !! theme_name).
Proof.
  unfold _extract_color_from_element. repeat split.
  - intros srgb ->. reflexivity.
  - intros -> sys_clr ->. reflexivity.
  - intros -> -> scheme_clr val theme_colors -> Hval ->. rewrite Hval. reflexivity.
  - intros -> -> ->. reflexivity.
  - intros root clr_scheme elem_name theme_name Hcs Hin Hnone.
    rewrite (_extract_theme_colors_fold root clr_scheme Hcs).
    apply (unresolved_role_keeps_default clr_scheme color_mappings _ elem_name); [| done | done].
    unfold color_mappings. simpl.
    repeat (apply NoDup_cons; split; [set_solver |]). apply NoDup_nil_2.
Qed.

End ColorResolution.

(** The text color of a theme, given as a system color without
    [lastClr]. *)
Definition window_text : Xml.element :=
  Xml.Element "a:dk1" [] [Xml.Element "a:sysClr" [("val", "windowText")] []].

(** C4 as stated fails: the element has no direct color and no
    last-rendered value, so the stated order ends at the default, while
    the code returns [#] followed by the name of the system color. *)
Lemma C4_counterexample :
  ColorHandler._extract_color_from_element (Some ColorHandler.default_theme_colors) window_text
  = Some "#windowText"
  /\ resolve_as_specified ColorHandler.default_theme_colors "#000000" window_text = "#000000"
  /\ ColorHandler._extract_theme_colors
       (Some (Xml.Element "a:theme" [] [Xml.Element "a:clrScheme" [] [window_text]]))
     !! "TEXT_1" = Some "#windowText".
Proof. repeat split; vm_compute; reflexivity. Qed.

Lemma C4_witness :
  ColorHandler._extract_color_from_element (Some ColorHandler.default_theme_colors)
    (Xml.Element "a:accent1" [] [Xml.Element "a:schemeClr" [("val", "accent_1")] []])
  = Some "#4472C4".
Proof.
  destruct (C4_resolution_order
              (Some ColorHandler.default_theme_colors)
              (Xml.Element "a:accent1" [] [Xml.Element "a:schemeClr" [("val", "accent_1")] []]))
    as (_ & _ & H3 & _).
  exact (H3 eq_refl eq_refl (Xml.Element "a:schemeClr" [("val", "accent_1")] [])
            "accent_1" ColorHandler.default_theme_colors eq_refl eq_refl eq_refl).
Defined.

(** ** Shapes without a fill *)

Section NoFill.
Context {F : Type} `{PyFloat F}.
Context {set_F : PySet F} {set_name : PySet (option string)} {set_str : PySet string}.
Variable Math : AdvancedShapeHandler.MathObj F.
Variable theme_colors : gmap string string.
Import Pptx Fabric ShapeHandler.
Local Abbreviation dict := (gmap string (value F)).

(** The object has no attribute [fill], or the attribute is [None], or the
    markup has no fill element, or the fill is the background fill. *)
Definition no_fill (fill : fill_attr) : Prop :=
  match fill with
  | None | Some None => True
  | Some (Some fill) => fill_type fill = None \/ fill_type fill = Some BACKGROUND
  end.

Lemma get_shape_color_no_fill (fill : fill_attr) :
  no_fill fill -> ColorHandler.get_shape_color theme_colors fill = "transparent".
Proof.
  destruct fill as [[fill |] |]; [| done | done].
  intros [Ht | Ht]; unfold ColorHandler.get_shape_color; rewrite Ht; reflexivity.
Qed.

Lemma line_props_keys (shape : shape_info F) (k : string) :
  k <> "stroke" -> k <> "strokeWidth" ->
  _get_line_properties theme_colors shape !! k = None.
Proof.
  intros H1 H2. unfold _get_line_properties.
  destruct (sh_line shape) as [line |]; [| apply lookup_empty].
  destruct (line_width line); destruct (has_color line); simpl;
    repeat case_match.
  all: by simplify_map_eq.
Qed.

Lemma line_defaults_keys (d : dict) (k : string) :
  k <> "stroke" -> k <> "strokeWidth" ->
  d !! k = None -> line_defaults d !! k = None.
Proof.
  intros H1 H2 Hd. unfold line_defaults. repeat case_match.
  all: by simplify_map_eq.
Qed.

Lemma convert_effects_keys (l : list (AdvancedShapeHandler.effect F)) (d : dict) (k : string) :
  k <> "shadow" ->
  fold_left AdvancedShapeHandler.convert_effect l d !! k = d !! k.
Proof.
  intros Hk. revert d. induction l as [| e l IH]; intros d; [done |].
  simpl. rewrite IH. destruct e; simpl; by rewrite lookup_insert_ne.
Qed.

(** The advanced properties assign no key but [fill], [path], [clipPath]
    and [shadow]. *)
Lemma convert_to_fabric_keys (props : option (AdvancedShapeHandler.shape_props F)) (k : string) :
  k <> "fill" -> k <> "path" -> k <> "clipPath" -> k <> "shadow" ->
  AdvancedShapeHandler.convert_to_fabric Math props !! k = None.
Proof.
  intros H1 H2 H3 H4. unfold AdvancedShapeHandler.convert_to_fabric.
  destruct props as [props |]; [| apply lookup_empty].
  destruct (AdvancedShapeHandler.sp_gradient props) as [grad |]; simpl.
  - destruct (String.eqb _ "linear"); simpl; [apply lookup_empty |].
    rewrite convert_effects_keys by done.
    destruct (AdvancedShapeHandler.sp_custom_geometry props) as [[paths rect] |];
      [destruct paths; destruct rect as [[[[? ?] ?] ?] |] |]; simpl.
    all: by simplify_map_eq.
  - rewrite convert_effects_keys by done.
    destruct (AdvancedShapeHandler.sp_custom_geometry props) as [[paths rect] |];
      [destruct paths; destruct rect as [[[[? ?] ?] ?] |] |]; simpl.
    all: by simplify_map_eq.
Qed.



Lemma line_transparent (shape : shape_info F) (base : dict) :
  exists o, _process_line theme_colors shape base = Some o
            /\ props o !! "fill" = Some (VStr "transparent").
Proof.
  unfold _process_line. eexists. split; [reflexivity |]. simpl.
  rewrite lookup_union_r by (by apply line_defaults_keys, line_props_keys).
  by simplify_map_eq.
Qed.


Lemma textbox_transparent (shape : shape_info F) (base : dict) :
  no_fill (sh_fill shape) ->
  exists o, _process_textbox theme_colors shape base = Some o
            /\ props o !! "backgroundColor" = Some (VStr "transparent").
Proof.
  intros Hf. unfold _process_textbox.
  destruct (defaults_are_modes (sh_text_props shape)) as (ft & E & _ & _ & _ & _ & Hst & _).
  rewrite E, (get_shape_color_no_fill _ Hf).
  rewrite bool_decide_eq_false_2; [| intros ->; by rewrite lookup_empty in Hst].
  simpl. eexists. split; [reflexivity |]. simpl. by rewrite lookup_insert_eq.
Qed.









End NoFill.

(** A shape of the given kind at (100, 100) points, 200 by 50, with
    nothing else. *)
Definition bare_shape (kind : Pptx.MSO_SHAPE_TYPE) : ShapeHandler.shape_info float :=
  {| ShapeHandler.sh_shape_type := kind;
     ShapeHandler.sh_left := 1270000;
     ShapeHandler.sh_top := 1270000;
     ShapeHandler.sh_width := 2540000;
     ShapeHandler.sh_height := 635000;
     ShapeHandler.sh_rotation := Some 0%float;
     ShapeHandler.sh_element := None;
     ShapeHandler.sh_fill := None;
     ShapeHandler.sh_line := None;
     ShapeHandler.sh_auto_shape_type := None;
     ShapeHandler.sh_image := None;
     ShapeHandler.sh_text_props := [];
     ShapeHandler.sh_path_data := None |}.


(** A textbox with the text [Hi] whose markup has no fill element. *)
Definition a_textbox : ShapeHandler.shape float :=
  ShapeHandler.Shape
    {| ShapeHandler.sh_shape_type := Pptx.TEXT_BOX;
       ShapeHandler.sh_left := 1270000;
       ShapeHandler.sh_top := 1270000;
       ShapeHandler.sh_width := 2540000;
       ShapeHandler.sh_height := 635000;
       ShapeHandler.sh_rotation := Some 0%float;
       ShapeHandler.sh_element := None;
       ShapeHandler.sh_fill :=
         Some (Some {| Pptx.fill_type := None; Pptx.fore_color := None |});
       ShapeHandler.sh_line := None;
       ShapeHandler.sh_auto_shape_type := None;
       ShapeHandler.sh_image := None;
       ShapeHandler.sh_text_props := [hi];
       ShapeHandler.sh_path_data := None |}
    [].




(** A group of the red rectangle and a shape of a kind the dispatcher
    drops. *)
Definition a_group : ShapeHandler.shape float :=
  ShapeHandler.Shape (bare_shape Pptx.GROUP)
    [red_rectangle; ShapeHandler.Shape (bare_shape Pptx.OTHER_SHAPE_TYPE) []].


(** ** The text, when no earlier paragraph equals the last *)

Section TextWalk.
Context {F : Type} `{PyFloat F}.
Context {set_F : PySet F} {set_name : PySet (option string)} {set_str : PySet string}.
Import Fabric TextHandler.

Lemma str_app_assoc (a b c : string) : (a +:+ b) +:+ c = a +:+ (b +:+ c).
Proof.
  induction a as [| x a IH]; [reflexivity |].
  change (String x ((a +:+ b) +:+ c) = String x (a +:+ b +:+ c)). by rewrite IH.
Qed.

Lemma str_app_nil_r (a : string) : a +:+ "" = a.
Proof.
  induction a as [| x a IH]; [reflexivity |].
  change (String x (a +:+ "") = String x a). by rewrite IH.
Qed.

Lemma runs_text (al : string) (runs : list (run_props F)) (st : locals F) :
  text (fold_left (run_body al) runs st)
  = text st +:+ fold_right String.append "" (r_text <$> runs).
Proof.
  revert st. induction runs as [| r runs IH]; intros st; simpl.
  - by rewrite str_app_nil_r.
  - rewrite IH. destruct (voiced r) eqn:Hv.
    + rewrite run_body_voiced by done. simpl. by rewrite str_app_assoc.
    + rewrite run_body_silent by done. unfold voiced in Hv.
      apply negb_false_iff, String.eqb_eq in Hv. by rewrite Hv.
Qed.

(** What the loop appends after a paragraph. *)
Definition newline_after (last_ : option (para_props F)) (p : para_props F) : string :=
  if bool_decide (Some p ≠ last_) then String "010" "" else "".

Lemma paragraphs_text (last_ : option (para_props F)) (ps : text_props F) (st : locals F) :
  text (fold_left (paragraph_body last_) ps st)
  = text st +:+ fold_right (fun p acc => paragraph_text p +:+ newline_after last_ p +:+ acc)
                           "" ps.
Proof.
  revert st. induction ps as [| p ps IH]; intros st; simpl.
  - by rewrite str_app_nil_r.
  - rewrite IH.
    assert (E : text (paragraph_body last_ st p)
                = text st +:+ paragraph_text p +:+ newline_after last_ p).
    { unfold paragraph_body, newline_after, paragraph_text.
      case_bool_decide; simpl; rewrite runs_text; simpl.
      - by rewrite str_app_assoc.
      - by rewrite str_app_nil_r. }
    rewrite E. by rewrite !str_app_assoc.
Qed.

Lemma specified_fold (init : text_props F) (l : para_props F) :
  (forall p, p ∈ init -> p <> l) ->
  fold_right (fun p acc => paragraph_text p +:+ newline_after (Some l) p +:+ acc)
             "" (init ++ [l])
  = text_as_specified (init ++ [l]).
Proof.
  intros Hne. induction init as [| p init IH].
  - cbn [app fold_right text_as_specified]. unfold newline_after.
    rewrite bool_decide_eq_false_2 by (intros Hx; by apply Hx).
    change ("" +:+ "") with "". apply str_app_nil_r.
  - cbn [app fold_right]. rewrite IH by (intros q Hq; apply Hne; set_solver).
    unfold newline_after.
    rewrite bool_decide_eq_true_2 by (intros [= ->]; apply (Hne l); set_solver).
    destruct init; reflexivity.
Qed.

(** When no paragraph before the last one equals it, the text is the one
    the specification describes. *)
Lemma text_unless_equal_to_last (init : text_props F) (l : para_props F) :
  (forall p, p ∈ init -> p <> l) ->
  exists fabric_text,
    convert_to_fabric_text (init ++ [l]) = Some fabric_text
    /\ fabric_text !! "text" = Some (VStr (text_as_specified (init ++ [l]))).
Proof.
  intros Hne.
  destruct (defaults_are_modes (init ++ [l])) as (ft & E & _ & _ & _ & _ & _ & Ht).
  exists ft. split; [exact E |]. rewrite Ht. do 2 f_equal.
  unfold walk. rewrite last_snoc, paragraphs_text, specified_fold by done.
  reflexivity.
Qed.

End TextWalk.

(** ** The colors the way forward writes *)

Section ColorsWritten.
Import Pptx ColorHandler.

(** The text is a hex color as far as its first character tells. *)
Definition hashed (c : string) : Prop := Py.startswith "#" c = true.

Lemma hashed_app (s : string) : hashed ("#" +:+ s).
Proof.
  unfold hashed, Py.startswith. change ("#" +:+ s) with (String "#" s).
  destruct s; reflexivity.
Qed.

Lemma hex_color_hashed (c : Z * Z * Z) : hashed (hex_color c).
Proof. destruct c as [[r g] b]. apply hashed_app. Qed.

Lemma _extract_color_hashed (element : Xml.element) (c : string) :
  _extract_color_from_element None element = Some c -> hashed c.
Proof.
  unfold _extract_color_from_element.
  destruct (Xml.find "a:srgbClr" element); [intros [= <-]; apply hashed_app |].
  destruct (Xml.find "a:sysClr" element); [intros [= <-]; apply hashed_app |].
  destruct (Xml.find "a:schemeClr" element); discriminate.
Qed.

(** The invariant of the loop over the roles. *)
Definition palette (m : gmap string string) : Prop :=
  dom m = dom default_theme_colors /\ map_Forall (fun _ c => hashed c) m.

Lemma palette_default : palette default_theme_colors.
Proof.
  split; [reflexivity |].
  unfold default_theme_colors. intros k c Hk.
  apply elem_of_list_to_map_2 in Hk.
  repeat (apply elem_of_cons in Hk as [[= <- <-] | Hk]; [reflexivity |]).
  set_solver.
Qed.

Lemma role_step_palette (cs : Xml.element) (m : gmap string string) (role : string * string) :
  role ∈ color_mappings -> palette m -> palette (role_step cs m role).
Proof.
  intros Hin [Hdom Hall]. destruct role as [e t]. unfold role_step.
  destruct (Xml.find _ cs) as [elem |]; [| done].
  destruct (_extract_color_from_element None elem) as [c |] eqn:E; [| done].
  destruct (str_truthy (Some c)); [| done]. simpl. split.
  - rewrite dom_insert_L, Hdom.
    assert (Ht : is_Some (default_theme_colors !! t)).
    { unfold color_mappings in Hin.
      repeat (apply elem_of_cons in Hin as [[= -> ->] | Hin];
              [eexists; vm_compute; reflexivity |]).
      by apply elem_of_nil in Hin. }
    apply elem_of_dom in Ht. by apply subseteq_union_1_L, singleton_subseteq_l.
  - apply map_Forall_insert_2; [| done]. by eapply _extract_color_hashed.
Qed.

Lemma fold_roles_palette (cs : Xml.element) (l : list (string * string))
    (m : gmap string string) :
  l ⊆ color_mappings -> palette m -> palette (fold_left (role_step cs) l m).
Proof.
  revert m. induction l as [| role l IH]; intros m Hl Hm; [done |].
  simpl. apply IH; [set_solver |]. apply role_step_palette; [set_solver | done].
Qed.

Lemma _extract_theme_colors_palette (theme_root : option Xml.element) :
  palette (_extract_theme_colors theme_root).
Proof.
  destruct theme_root as [root |]; [| apply palette_default].
  destruct (Xml.find "a:clrScheme" root) as [cs |] eqn:E.
  - rewrite (_extract_theme_colors_fold root cs E).
    apply fold_roles_palette; [done | apply palette_default].
  - unfold _extract_theme_colors. rewrite E. apply palette_default.
Qed.

(** X1: The theme table: whatever the theme of the presentation holds, the
    table has the ten roles of the built-in palette as its keys, no more
    and no fewer, and each of its colors starts with [#]. *)
Theorem X1_theme_table_roles (theme_root : option Xml.element) :
  (forall role, is_Some (_extract_theme_colors theme_root !! role)
                <-> role ∈ ["BACKGROUND_1"; "BACKGROUND_2"; "TEXT_1"; "TEXT_2"; "ACCENT_1";
                            "ACCENT_2"; "ACCENT_3"; "ACCENT_4"; "ACCENT_5"; "ACCENT_6"])
  /\ (forall role c, _extract_theme_colors theme_root !! role = Some c ->
                     Py.startswith "#" c = true).
Proof.
  destruct (_extract_theme_colors_palette theme_root) as [Hdom Hall]. split.
  - intros role. rewrite <- elem_of_dom, Hdom.
    unfold default_theme_colors. rewrite dom_list_to_map_L. simpl. set_solver.
  - intros role c. apply Hall.
Qed.

Lemma get_shape_color_form (theme_colors : gmap string string) (fill : fill_attr) :
  map_Forall (fun _ c => hashed c) theme_colors ->
  get_shape_color theme_colors fill = "transparent"
  \/ get_shape_color theme_colors fill = "gradient"
  \/ hashed (get_shape_color theme_colors fill).
Proof.
  intros Hall. unfold get_shape_color.
  destruct fill as [[fill |] |]; [| by left | by left].
  cbv zeta. destruct (bool_decide (fill_type fill = Some BACKGROUND)); [by left |].
  set (after := if bool_decide (fill_type fill = Some GRADIENT)
                then Ok "gradient" else Ok "transparent").
  assert (Hafter : Py.try_except after "transparent" = "transparent"
                   \/ Py.try_except after "transparent" = "gradient"
                   \/ hashed (Py.try_except after "transparent")).
  { subst after. destruct (bool_decide _); simpl; auto. }
  clearbody after.
  destruct (bool_decide (fill_type fill = Some SOLID)); [| done].
  destruct (fore_color fill) as [color |]; [| done].
  destruct (rgb color) as [c |]; [right; right; apply hex_color_hashed |].
  destruct (theme_color color) as [t |]; [| done].
  destruct (theme_colors !! t) as [c |] eqn:E; simpl; [| by left].
  right; right. by eapply Hall.
Qed.

(** X2: The colors of the way forward, with the theme table [__init__] builds:
    the color of a text always starts with [#]; the color of a fill, a line
    or a background is [transparent], [gradient] or starts with [#].  So
    neither is ever the empty string. *)
Theorem X2_forward_colors (theme_root : option Xml.element) :
  (forall color : option ColorFormat,
     Py.startswith "#" (get_text_color (_extract_theme_colors theme_root) color) = true)
  /\ (forall fill : fill_attr,
        get_shape_color (_extract_theme_colors theme_root) fill = "transparent"
        \/ get_shape_color (_extract_theme_colors theme_root) fill = "gradient"
        \/ Py.startswith "#" (get_shape_color (_extract_theme_colors theme_root) fill) = true).
Proof.
  destruct (_extract_theme_colors_palette theme_root) as [_ Hall]. split.
  - intros [color |]; [| reflexivity]. unfold get_text_color.
    destruct (rgb color) as [c |]; [apply hex_color_hashed |].
    destruct (theme_color color) as [t |]; [| reflexivity].
    destruct (_ !! t) as [c |] eqn:E; [| reflexivity]. by eapply Hall.
  - intros fill. by apply get_shape_color_form.
Qed.

Lemma get_shape_color_nonempty (theme_root : option Xml.element) (fill : fill_attr) :
  String.eqb (get_shape_color (_extract_theme_colors theme_root) fill) "" = false.
Proof.
  destruct (_extract_theme_colors_palette theme_root) as [_ Hall].
  destruct (get_shape_color_form _ fill Hall) as [-> | [-> | Hh]]; [done | done |].
  destruct (get_shape_color _ fill); [discriminate | reflexivity].
Qed.

End ColorsWritten.

(** ** What every object carries *)

Section Objects.
Context {F : Type} `{PyFloat F}.
Context {set_F : PySet F} {set_name : PySet (option string)} {set_str : PySet string}.
Variable Math : AdvancedShapeHandler.MathObj F.
Variable theme_colors : gmap string string.
Import Pptx Fabric ShapeHandler.
Local Abbreviation dict := (gmap string (value F)).

(** The keys the handlers of the kinds assign. *)
Definition handler_keys : list string :=
  ["type"; "src"; "opacity"; "crossOrigin"; "backgroundColor"; "text"; "styles";
   "fontSize"; "fontFamily"; "textAlign"; "fill"; "originX"; "originY";
   "stroke"; "strokeWidth"; "angle"; "path"].

Lemma set_most_common_other {A} `{PySet A} (key : string) (inj : A -> value F)
    (l : list A) (d d' : dict) (k : string) :
  TextHandler.set_most_common key inj l d = Ok d' -> k <> key -> d' !! k = d !! k.
Proof.
  unfold TextHandler.set_most_common. destruct l; [by intros [= <-] |].
  destruct (most_common _); simpl; [| discriminate].
  intros [= <-] Hk. by rewrite lookup_insert_ne.
Qed.

(** The keys of the dictionary of a text. *)
Definition text_keys : list string :=
  ["type"; "text"; "styles"; "fontSize"; "fontFamily"; "textAlign"; "fill";
   "originX"; "originY"].

Lemma convert_to_fabric_text_keys (ps : TextHandler.text_props F) (ft : dict) (k : string) :
  TextHandler.convert_to_fabric_text ps = Some ft ->
  k ∉ text_keys -> ft !! k = None.
Proof.
  unfold TextHandler.convert_to_fabric_text. intros E Hk.
  set (d0 := <["text" := _]> _) in E.
  assert (H0 : d0 !! k = None).
  { subst d0. unfold text_keys in Hk.
    rewrite !lookup_insert_ne by set_solver.
    apply not_elem_of_list_to_map_1. simpl. set_solver. }
  clearbody d0.
  destruct (TextHandler.set_most_common "fontSize" _ _ d0) as [d1 |] eqn:E1; [| discriminate].
  simpl in E.
  destruct (TextHandler.set_most_common "fontFamily" _ _ d1) as [d2 |] eqn:E2; [| discriminate].
  simpl in E.
  destruct (TextHandler.set_most_common "fill" _ _ d2) as [d3 |] eqn:E3; [| discriminate].
  simpl in E.
  destruct (TextHandler.set_most_common "textAlign" _ _ d3) as [d4 |] eqn:E4; [| discriminate].
  simpl in E. injection E as <-. unfold text_keys in Hk.
  rewrite (set_most_common_other _ _ _ _ _ k E4) by set_solver.
  rewrite (set_most_common_other _ _ _ _ _ k E3) by set_solver.
  rewrite (set_most_common_other _ _ _ _ _ k E2) by set_solver.
  rewrite (set_most_common_other _ _ _ _ _ k E1) by set_solver.
  exact H0.
Qed.

Lemma line_props_other (shape : shape_info F) (k : string) :
  k ∉ handler_keys -> line_defaults (_get_line_properties theme_colors shape) !! k = None.
Proof.
  intros Hk. unfold handler_keys in Hk.
  apply line_defaults_keys; [set_solver | set_solver |].
  apply line_props_keys; set_solver.
Qed.

(** A key no handler assigns is, in the object, what it is in the base
    properties after the update with the advanced properties. *)
Lemma process_shape_keeps (s : shape F) (o : scene_object F) (k : string) :
  k ∉ handler_keys ->
  process_shape Math theme_colors s = Some o ->
  props o !! k = enriched_base Math (info s) !! k.
Proof.
  intros Hk. destruct s as [shape members]. rewrite process_shape_unfold. simpl.
  set (base := enriched_base Math shape). clearbody base.
  pose proof Hk as Hk'. unfold handler_keys in Hk'.
  destruct (sh_shape_type shape).
  - rewrite _process_group_unfold. destruct (group_loop _ _); [discriminate |].
    intros [= <-]. simpl. apply lookup_insert_ne. set_solver.
  - unfold _process_picture. destruct (sh_image shape); [| discriminate].
    destruct (picture_opacity shape); simpl; [| discriminate].
    intros [= <-]. simpl. rewrite !lookup_insert_ne by set_solver. done.
  - unfold _process_textbox.
    destruct (TextHandler.convert_to_fabric_text _) as [ft |] eqn:E; [| discriminate].
    case_match; [| discriminate]. intros [= <-]. simpl.
    rewrite lookup_insert_ne by set_solver.
    apply lookup_union_r. eapply convert_to_fabric_text_keys; [done |].
    unfold text_keys. set_solver.
  - unfold _process_autoshape.
    set (t := if bool_decide _ then "triangle" else "rect").
    set (d := _ ∪ _).
    assert (Hd : d !! k = base !! k).
    { subst d. rewrite lookup_union_r by (by apply line_props_other).
      rewrite lookup_fill_step by set_solver. apply lookup_insert_ne. set_solver. }
    clearbody d t. destruct (String.eqb t "triangle").
    + destruct (d !! "rotation") as [[] |]; simpl; try discriminate.
      all: intros [= <-]; simpl; rewrite lookup_insert_ne by set_solver; exact Hd.
    + simpl. by intros [= <-].
  - unfold _process_freeform. destruct (sh_path_data shape) as [[| c cs] |]; try discriminate.
    intros [= <-]. simpl.
    rewrite lookup_union_r by (apply line_props_keys; set_solver).
    rewrite lookup_fill_step by set_solver.
    rewrite !lookup_insert_ne by set_solver. done.
  - unfold _process_line. intros [= <-]. simpl.
    rewrite lookup_union_r by (by apply line_props_other).
    rewrite !lookup_insert_ne by set_solver. done.
  - discriminate.
Qed.


Lemma enriched_base_advanced (shape : shape_info F) (k : string) :
  k ∈ ["fill"; "path"; "clipPath"; "shadow"] ->
  enriched_base Math shape !! k
  = AdvancedShapeHandler.convert_to_fabric Math
      (AdvancedShapeHandler.extract_shape_properties (sh_element shape)) !! k.
Proof.
  intros Hk. unfold enriched_base.
  destruct (AdvancedShapeHandler.extract_shape_properties _) as [props |].
  - destruct (AdvancedShapeHandler.convert_to_fabric Math (Some props) !! k) as [v |] eqn:E.
    + by erewrite lookup_union_Some_l.
    + rewrite lookup_union_r by done. unfold _get_base_properties.
      apply not_elem_of_list_to_map_1. simpl. set_solver.
  - unfold AdvancedShapeHandler.convert_to_fabric. simpl. rewrite lookup_empty.
    unfold _get_base_properties. apply not_elem_of_list_to_map_1. simpl. set_solver.
Qed.

Lemma enriched_base_keys (shape : shape_info F) (k : string) :
  k ∉ ["left"; "top"; "width"; "height"; "rotation"; "fill"; "path"; "clipPath"; "shadow"] ->
  enriched_base Math shape !! k = None.
Proof.
  intros Hk.
  assert (Hb : _get_base_properties shape !! k = None).
  { unfold _get_base_properties. apply not_elem_of_list_to_map_1. simpl. set_solver. }
  unfold enriched_base.
  destruct (AdvancedShapeHandler.extract_shape_properties _); [| done].
  rewrite lookup_union_r; [done |]. apply convert_to_fabric_keys; set_solver.
Qed.


(** X4: The shadow and the clip path of the advanced properties reach the
    object of every kind: no handler assigns these keys. *)
Theorem X4_object_effects (s : shape F) (o : scene_object F) :
  process_shape Math theme_colors s = Some o ->
  props o !! "shadow"
  = AdvancedShapeHandler.convert_to_fabric Math
      (AdvancedShapeHandler.extract_shape_properties (sh_element (info s))) !! "shadow"
  /\ props o !! "clipPath"
     = AdvancedShapeHandler.convert_to_fabric Math
         (AdvancedShapeHandler.extract_shape_properties (sh_element (info s))) !! "clipPath".
Proof.
  intros E.
  assert (Hk : forall k, k ∈ ["shadow"; "clipPath"] ->
                         props o !! k = enriched_base Math (info s) !! k).
  { intros k Hk. apply process_shape_keeps; [unfold handler_keys; set_solver | done]. }
  rewrite !Hk by set_solver. split; apply enriched_base_advanced; set_solver.
Qed.

End Objects.

(** ** Quotients of ints *)


Section Quotients.
Context {F : Type} `{PyFloat F}.



End Quotients.

(** ** The fill and the outline of an object *)

Section FillAndStroke.
Context {F : Type} `{PyFloat F}.
Context {set_F : PySet F} {set_name : PySet (option string)} {set_str : PySet string}.
Variable Math : AdvancedShapeHandler.MathObj F.
Import Pptx Fabric ShapeHandler.
Local Abbreviation dict := (gmap string (value F)).

Lemma line_union_other (theme_colors : gmap string string) (shape : shape_info F)
    (d : dict) (k : string) :
  k <> "stroke" -> k <> "strokeWidth" ->
  (line_defaults (_get_line_properties theme_colors shape) ∪ d) !! k = d !! k.
Proof.
  intros H1 H2. apply lookup_union_r. by apply line_defaults_keys, line_props_keys.
Qed.

Lemma autoshape_fill (theme_root : option Xml.element) (shape : shape_info F)
    (base : dict) (o : scene_object F) :
  _process_autoshape (ColorHandler._extract_theme_colors theme_root) shape base = Some o ->
  props o !! "fill"
  = Some (VStr (ColorHandler.get_shape_color (ColorHandler._extract_theme_colors theme_root)
                  (sh_fill shape))).
Proof.
  unfold _process_autoshape. rewrite get_shape_color_nonempty. simpl.
  set (t := if bool_decide _ then "triangle" else "rect").
  set (d := _ ∪ _).
  assert (Hd : d !! "fill" = Some (VStr (ColorHandler.get_shape_color
                   (ColorHandler._extract_theme_colors theme_root) (sh_fill shape)))).
  { subst d. rewrite line_union_other by done. apply lookup_insert_eq. }
  clearbody d t. destruct (String.eqb t "triangle").
  - destruct (d !! "rotation") as [[] |]; simpl; try discriminate.
    all: intros [= <-]; simpl; by rewrite lookup_insert_ne.
  - simpl. by intros [= <-].
Qed.

Lemma freeform_fill (theme_root : option Xml.element) (shape : shape_info F)
    (base : dict) (o : scene_object F) :
  _process_freeform (ColorHandler._extract_theme_colors theme_root) shape base = Some o ->
  props o !! "fill"
  = Some (VStr (ColorHandler.get_shape_color (ColorHandler._extract_theme_colors theme_root)
                  (sh_fill shape))).
Proof.
  unfold _process_freeform. destruct (sh_path_data shape) as [[| c cs] |]; try discriminate.
  rewrite get_shape_color_nonempty. simpl. intros [= <-]. simpl.
  rewrite lookup_union_r by (by apply line_props_keys). apply lookup_insert_eq.
Qed.

Lemma textbox_fill (theme_colors : gmap string string) (shape : shape_info F)
    (base : dict) (o : scene_object F) :
  _process_textbox theme_colors shape base = Some o ->
  exists c, props o !! "fill" = Some (VStr c).
Proof.
  unfold _process_textbox.
  destruct (defaults_are_modes (sh_text_props shape)) as (ft & E & _ & _ & M & _).
  rewrite E. case_match; [| discriminate]. intros [= <-]. simpl.
  rewrite lookup_insert_ne by done.
  unfold mode_or in M. destruct (_ <$> _) in M.
  - exists "#000000". by erewrite lookup_union_Some_l.
  - destruct M as (c & Hc & _). exists c. by erewrite lookup_union_Some_l.
Qed.

(** X5: The [fill] of the object of an auto shape, a freeform, a line or a
    textbox is a string, with the theme table [__init__] builds: the color
    [get_shape_color] gives for an auto shape and a freeform, [transparent]
    for a line, the color of the text for a textbox.  The handler of the
    kind assigns the key after the advanced properties, so the gradient
    dictionary [convert_to_fabric] stored under [fill] does not reach the
    object. *)
Theorem X5_fill_is_a_string (theme_root : option Xml.element) (shape : shape_info F)
    (members : list (ShapeHandler.shape F)) (o : scene_object F) :
  process_shape Math (ColorHandler._extract_theme_colors theme_root) (Shape shape members)
  = Some o ->
  (sh_shape_type shape = AUTO_SHAPE \/ sh_shape_type shape = FREEFORM ->
   props o !! "fill"
   = Some (VStr (ColorHandler.get_shape_color
                   (ColorHandler._extract_theme_colors theme_root) (sh_fill shape))))
  /\ (sh_shape_type shape = LINE -> props o !! "fill" = Some (VStr "transparent"))
  /\ (sh_shape_type shape = TEXT_BOX -> exists c, props o !! "fill" = Some (VStr c)).
Proof.
  rewrite process_shape_unfold. intros E. split; [| split].
  - intros [Hk | Hk]; rewrite Hk in E; eauto using autoshape_fill, freeform_fill.
  - intros Hk. rewrite Hk in E.
    destruct (line_transparent (ColorHandler._extract_theme_colors theme_root) shape
                (enriched_base Math shape)) as (o' & E' & Hf).
    congruence.
  - intros Hk. rewrite Hk in E. eauto using textbox_fill.
Qed.

(** *** Which shapes give no object *)







(** *** The outline of an auto shape and of a line *)







End FillAndStroke.

(** ** The path of a freeform *)

Section FreeformPath.
Context {F : Type} `{PyFloat F}.
Context {set_F : PySet F} {set_name : PySet (option string)} {set_str : PySet string}.
Variable Math : AdvancedShapeHandler.MathObj F.
Variable theme_colors : gmap string string.
Import Pptx Fabric ShapeHandler.
Local Abbreviation dict := (gmap string (value F)).

Definition is_arc (c : path_cmd F) : bool :=
  match c with
  | PA _ _ _ _ _ => true
  | _ => false
  end.

(** A loop whose body raises on one member raises. *)
Lemma for_each_raises {A B} (body : B -> A -> result B) (l : list A) (a : A) (acc : B) :
  a ∈ l -> (forall acc, exists e, body acc a = Raise e) ->
  exists e, AdvancedShapeHandler.for_each body l acc = Raise e.
Proof.
  intros Hin Hr. revert acc. induction l as [| x l IH]; intros acc; [set_solver |].
  simpl. apply elem_of_cons in Hin as [<- | Hin].
  - destruct (Hr acc) as [e ->]. simpl. eauto.
  - destruct (body acc x) as [acc' | e]; simpl; eauto.
Qed.

Lemma path_child_adds (commands commands' : list (path_cmd F)) (child : Xml.element) :
  path_child commands child = Ok commands' ->
  exists new, commands' = commands ++ new /\ (length new <= 1)%nat
              /\ Forall (fun c => is_arc c = false) new.
Proof.
  unfold path_child. intros E.
  assert (H0 : exists new : list (path_cmd F),
            commands = commands ++ new /\ (length new <= 1)%nat
            /\ Forall (fun c => is_arc c = false) new).
  { exists []. rewrite app_nil_r. repeat split; [simpl; lia | constructor]. }
  assert (H1 : forall c, is_arc c = false ->
            exists new : list (path_cmd F),
              commands ++ [c] = commands ++ new /\ (length new <= 1)%nat
              /\ Forall (fun c => is_arc c = false) new).
  { intros c Hc. exists [c]. repeat split; [simpl; lia | by repeat constructor]. }
  repeat case_match; simplify_eq; try done.
  all: repeat match goal with
       | E : _ ≫= _ = Ok _ |- _ => apply bind_Ok in E as (? & ? & E)
       end.
  all: try (destruct (vertex _) as [[? ?] |]; simpl in E; [| discriminate]).
  all: repeat (match type of E with
               | context [vertex ?p] =>
                   destruct (vertex p) as [[? ?] |]; simpl in E; [| discriminate]
               end).
  all: try (injection E as <-); try done; by apply H1.
Qed.

Lemma path_children_add (l : list Xml.element) (commands commands' : list (path_cmd F)) :
  AdvancedShapeHandler.for_each path_child l commands = Ok commands' ->
  exists new, commands' = commands ++ new /\ (length new <= length l)%nat
              /\ Forall (fun c => is_arc c = false) new.
Proof.
  revert commands. induction l as [| child l IH]; intros commands; simpl.
  - intros [= <-]. exists []. rewrite app_nil_r. repeat split; [simpl; lia | constructor].
  - destruct (path_child commands child) as [c1 |] eqn:E1; simpl; [| discriminate].
    intros E. destruct (path_child_adds _ _ _ E1) as (n1 & -> & L1 & A1).
    destruct (IH _ E) as (n2 & -> & L2 & A2).
    exists (n1 ++ n2). rewrite app_assoc. split; [done |].
    split; [rewrite length_app; lia | by apply Forall_app].
Qed.

(** X8: The object of a freeform carries under [path] the commands
    [_get_path_data] read from the first [a:path] below the element of the
    shape, whatever path the advanced properties hold: at most one command
    for each child of that element, and no arc among them. *)
Theorem X8_freeform_path (shape : shape_info F) (members : list (ShapeHandler.shape F))
    (o : scene_object F) :
  sh_shape_type shape = FREEFORM ->
  sh_path_data shape = _get_path_data (sh_element shape) ->
  process_shape Math theme_colors (Shape shape members) = Some o ->
  exists element path_elem commands,
    sh_element shape = Some element
    /\ Xml.find "a:path" element = Some path_elem
    /\ _extract_path_commands path_elem = Some commands
    /\ props o !! "path" = Some (VPath commands)
    /\ (0 < length commands <= length (Xml.children path_elem))%nat
    /\ Forall (fun c => is_arc c = false) commands.
Proof.
  intros Hk Hp. rewrite process_shape_unfold, Hk. unfold _process_freeform.
  rewrite Hp. unfold _get_path_data.
  destruct (sh_element shape) as [element |]; [| discriminate].
  destruct (Xml.find "a:path" element) as [path_elem |] eqn:Ef; [| discriminate].
  destruct (_extract_path_commands path_elem) as [[| c cs] |] eqn:E; try discriminate.
  intros [= <-]. exists element, path_elem, (c :: cs).
  split; [done |]. split; [done |]. split; [done |]. split.
  - simpl. rewrite lookup_union_r by (by apply line_props_keys).
    rewrite lookup_fill_step by done. apply lookup_insert_eq.
  - unfold _extract_path_commands in E.
    destruct (AdvancedShapeHandler.for_each _ _ _) as [cmds |] eqn:E'; simpl in E;
      [| discriminate].
    injection E as ->.
    destruct (path_children_add _ _ _ E') as (new & Hn & Hl & Ha).
    simpl in Hn. subst new. simpl in *. split; [lia | done].
Qed.

(** X9: A move or a line without a point loses the freeform: the call on
    [None] raises, [_extract_path_commands] returns [None] for the whole
    path, and [process_shape] gives no object. *)
Theorem X9_freeform_without_point (shape : shape_info F) (members : list (ShapeHandler.shape F))
    (element path_elem child : Xml.element) :
  sh_shape_type shape = FREEFORM ->
  sh_path_data shape = _get_path_data (sh_element shape) ->
  sh_element shape = Some element ->
  Xml.find "a:path" element = Some path_elem ->
  child ∈ Xml.children path_elem ->
  Xml.local_name child = "moveTo" \/ Xml.local_name child = "lnTo" ->
  Xml.find "a:pt" child = None ->
  _extract_path_commands (F := F) path_elem = None
  /\ process_shape Math theme_colors (Shape shape members) = None.
Proof.
  intros Hk Hp He Hf Hin Htag Hpt.
  assert (E : _extract_path_commands (F := F) path_elem = None).
  { unfold _extract_path_commands.
    destruct (for_each_raises path_child (Xml.children path_elem) child [] Hin) as [e ->];
      [| done].
    intros acc. unfold path_child. rewrite Hpt.
    destruct Htag as [-> | ->]; simpl; eauto. }
  split; [exact E |].
  rewrite process_shape_unfold, Hk. unfold _process_freeform.
  rewrite Hp, He. simpl. rewrite Hf, E. done.
Qed.

End FreeformPath.

(** ** The slides of the way forward *)

Section Slides.
Context {F : Type} `{PyFloat F}.
Context {set_F : PySet F} {set_name : PySet (option string)} {set_str : PySet string}.
Variable Math : AdvancedShapeHandler.MathObj F.
Import Pptx Fabric ShapeHandler Converter.
Local Abbreviation dict := (gmap string (value F)).

(** What an object adds to the list of a slide: its members for a group,
    itself otherwise. *)
Definition spliced (o : scene_object F) : list (scene_object F) :=
  match objects o with
  | Some members => members
  | None => [o]
  end.

Lemma add_shape_data_spec (theme_colors : gmap string string)
    (objects_ : list (scene_object F)) (shape : ShapeHandler.shape F) :
  add_shape_data Math theme_colors objects_ shape
  = Ok (objects_ ++ match process_shape Math theme_colors shape with
                    | Some o => spliced o
                    | None => []
                    end).
Proof.
  unfold add_shape_data.
  destruct (process_shape Math theme_colors shape) as [o |] eqn:E; [| by rewrite app_nil_r].
  rewrite (process_shape_truthy _ _ _ _ E).
  destruct (process_shape_kind _ _ _ _ E) as [[(t & Ht & Hne) Ho] | [Ht (c & l & Ho)]].
  - unfold kind in Ht. destruct (props o !! "type") as [[] |]; try discriminate.
    injection Ht as ->. simpl. apply String.eqb_neq in Hne. rewrite Hne.
    unfold spliced. by rewrite Ho.
  - unfold kind in Ht. destruct (props o !! "type") as [[] |]; try discriminate.
    injection Ht as ->. simpl. unfold spliced. by rewrite Ho.
Qed.

Lemma shapes_loop (theme_colors : gmap string string) (shapes : list (ShapeHandler.shape F))
    (objects_ : list (scene_object F)) :
  AdvancedShapeHandler.for_each (add_shape_data Math theme_colors) shapes objects_
  = Ok (objects_ ++ flat_map spliced (omap (process_shape Math theme_colors) shapes)).
Proof.
  revert objects_. induction shapes as [| shape shapes IH]; intros objects_; simpl.
  - by rewrite app_nil_r.
  - rewrite add_shape_data_spec. simpl. rewrite IH, <- app_assoc.
    by destruct (process_shape Math theme_colors shape).
Qed.

Lemma map_result_total {A B} (f : A -> result B) (g : A -> B) (l : list A) :
  (forall a, f a = Ok (g a)) -> map_result f l = Ok (map g l).
Proof.
  intros Hf. induction l as [| a l IH]; simpl; [done |]. by rewrite Hf, IH.
Qed.

(** The entry of a slide, by its index. *)
Definition slide_entry (prs : presentation F) (slide_index : nat) (slide : slide F)
    : slide_data F :=
  let theme_colors := ColorHandler._extract_theme_colors (theme_root prs) in
  {| sl_objects :=
       flat_map spliced (omap (process_shape Math theme_colors) (sl_shapes slide));
     sl_width := fdiv (of_int (slide_width prs)) (of_int 12700);
     sl_height := fdiv (of_int (slide_height prs)) (of_int 12700);
     sl_slideNumber := Z.of_nat slide_index + 1;
     sl_background := _get_slide_background theme_colors slide |}.

Lemma pptx_to_fabric_entries (prs : presentation F) :
  pptx_to_fabric Math prs = Ok (imap (slide_entry prs) (slides prs)).
Proof.
  unfold pptx_to_fabric.
  rewrite (map_result_total _ (fun p => slide_entry prs p.1 p.2)).
  - f_equal. change (map ?f ?l) with (f <$> l). rewrite fmap_imap.
    by apply imap_ext.
  - intros [i slide]. rewrite shapes_loop. done.
Qed.

(** X11: When [pptx_to_fabric] returns, the objects of a slide are those of
    its shapes in order, a shape that gives no object adding nothing and a
    group adding its members in place of itself.  The members are added as
    they are: a group inside a group stays one object. *)
Theorem X11_slide_objects_spliced (prs : presentation F) (slides_data : list (slide_data F))
    (i : nat) (slide : slide F) :
  pptx_to_fabric Math prs = Ok slides_data ->
  slides prs !! i = Some slide ->
  exists slide_data,
    slides_data !! i = Some slide_data
    /\ sl_objects slide_data
       = flat_map (fun o => match objects o with
                            | Some members => members
                            | None => [o]
                            end)
           (omap (process_shape Math (ColorHandler._extract_theme_colors (theme_root prs)))
                 (sl_shapes slide)).
Proof.
  rewrite pptx_to_fabric_entries. intros [= <-] Hi. exists (slide_entry prs i slide).
  split; [by rewrite list_lookup_imap, Hi | done].
Qed.

End Slides.

(** ** The background, forward and back *)

Section Background.
Context {F : Type} `{PyFloat F}.
Import Pptx Fabric Converter.
Local Abbreviation dict := (gmap string (value F)).



End Background.

(** ** What the way back builds *)

Section WayBack.
Context {F : Type} `{PyFloat F}.
Context {set_F : PySet F} {set_name : PySet (option string)} {set_str : PySet string}.
Variable Math : AdvancedShapeHandler.MathObj F.
Variable theme_colors : gmap string string.
Import Pptx Fabric Converter.
Local Abbreviation dict := (gmap string (value F)).

Lemma built_geometry (kind : doc_kind) (l t w h : Z) (obj : dict) (s : doc_shape F) :
  geom s = geom (new_shape kind l t w h : doc_shape F) ->
  geometry obj = Ok (l, t, w, h) ->
  ds_kind s = kind
  /\ geometry obj = Ok (ds_left s, ds_top s, ds_width s, ds_height s).
Proof. unfold geom. simpl. intros [= -> -> -> -> ->] ->. done. Qed.

(** X13: [_create_shape_from_fabric] adds a shape for two kinds of object only:
    a textbox for an object of type [textbox], and a picture for an object
    of type [image] whose [src] starts with [data:image] and has a comma,
    the payload being what lies between the first comma and the next.  The
    shape is where [Inches] of the four lengths over 72 puts it.  Every
    other object, a group with all its members among them, adds nothing. *)
Theorem X13_way_back_builds (obj : dict) (s : doc_shape F) :
  _create_shape_from_fabric obj = Some s ->
  geometry obj = Ok (ds_left s, ds_top s, ds_width s, ds_height s)
  /\ ((obj !! "type" = Some (VStr "textbox") /\ ds_kind s = TextBox)
      \/ (obj !! "type" = Some (VStr "image")
          /\ exists src payload,
               obj !! "src" = Some (VStr src)
               /\ Py.startswith "data:image" src = true
               /\ Py.after_comma src = Some payload
               /\ ds_kind s = Picture payload)).
Proof.
  unfold _create_shape_from_fabric.
  destruct (obj !! "type") as [[| | | type | | | | |] |]; simpl; try discriminate.
  destruct (String.eqb_spec type "textbox") as [-> | _].
  { destruct (geometry obj) as [[[[l t] w] h] |] eqn:G; simpl; [| discriminate].
    intros [= <-].
    destruct (built_geometry TextBox l t w h obj
                (set_rotation obj (_set_text_properties (new_shape TextBox l t w h) obj)))
      as [Hk Hg]; [| done |].
    - by rewrite set_rotation_geom, _set_text_properties_geom.
    - split; [by rewrite <- G | by left]. }
  destruct (String.eqb_spec type "rect") as [-> | _]; [discriminate |].
  destruct (String.eqb_spec type "path") as [-> | _]; [discriminate |].
  destruct (String.eqb_spec type "image") as [-> | _]; [| discriminate].
  destruct (obj !! "src") as [[| | | src | | | | |] |]; simpl; try discriminate.
  destruct (Py.startswith "data:image" src) eqn:Hs; [| discriminate].
  destruct (Py.after_comma src) as [payload |] eqn:Hp; simpl; [| discriminate].
  destruct (geometry obj) as [[[[l t] w] h] |] eqn:G; simpl; [| discriminate].
  intros [= <-].
  destruct (built_geometry (Picture payload) l t w h obj
              (set_rotation obj (new_shape (Picture payload) l t w h)))
    as [Hk Hg]; [| done |].
  - by rewrite set_rotation_geom.
  - split; [by rewrite <- G |]. right. split; [done |]. by exists src, payload.
Qed.

(** *** A textbox, forward and back *)

Lemma run_steps_cons {S} (step : S -> result S) (steps : list (S -> result S)) (s : S) :
  run_steps (step :: steps) s
  = match step s with
    | Ok s' => run_steps steps s'
    | Raise _ => s
    end.
Proof. reflexivity. Qed.

(** What the steps after the text leave alone. *)
Definition text_kept (s : doc_shape F)
    : option F * doc_fill * option (Z * Z * Z) * option Z
      * option (string * option bool * option bool) :=
  (ds_rotation s, ds_fill s, ds_line_color s, ds_line_width s,
   (fun r => (run_text r, run_bold r, run_italic r)) <$> ds_run s).

Lemma set_run_keeps_text (f : doc_run -> result doc_run) :
  (forall r r', f r = Ok r' ->
                run_text r' = run_text r /\ run_bold r' = run_bold r
                /\ run_italic r' = run_italic r) ->
  forall s s' : doc_shape F, set_run f s = Ok s' -> text_kept s' = text_kept s.
Proof.
  intros Hf s s' E. unfold set_run in E.
  destruct (ds_run s) as [r |] eqn:Er; simpl in E; [| discriminate].
  destruct (f r) as [r' |] eqn:Ef; simpl in E; [| discriminate].
  injection E as <-. destruct (Hf r r' Ef) as (E1 & E2 & E3).
  unfold text_kept. simpl. rewrite Er. simpl. by rewrite E1, E2, E3.
Qed.

Lemma text_of_object (shape : doc_shape F) (obj : dict) (t : string) :
  obj !! "text" = Some (VStr t) ->
  obj !! "fontWeight" = None -> obj !! "fontStyle" = None ->
  text_kept (_set_text_properties shape obj)
  = (ds_rotation shape, ds_fill shape, ds_line_color shape, ds_line_width shape,
     Some (t, None, None)).
Proof.
  intros Ht Hw Hs. unfold _set_text_properties. rewrite Ht.
  cbn [app]. rewrite !run_steps_cons. cbn [set_run ds_run with_text Py.deref mbind
    result_bind Py.bind].
  unfold when_key. rewrite Hw, Hs.
  rewrite run_steps_preserves; [reflexivity |].
  repeat (apply Forall_app; split); try constructor.
  - destruct (obj !! "fontSize") as [v |]; repeat constructor.
    apply set_run_keeps_text. intros r r' E.
    destruct (number v) as [x |]; simpl in E; [| discriminate].
    destruct (Pt x) as [e |]; simpl in E; [| discriminate].
    destruct (font_size e); simpl in E; [| discriminate]. by injection E as <-.
  - destruct (obj !! "fontFamily") as [v |]; repeat constructor.
    apply set_run_keeps_text. intros r r' E.
    destruct v; simpl in E; try discriminate; by injection E as <-.
  - destruct (obj !! "fill") as [v |]; [| constructor].
    destruct (color_truthy (_parse_color v)); repeat constructor.
    apply set_run_keeps_text. intros r r' E.
    destruct (RGBColor _); simpl in E; [| discriminate]. by injection E as <-.
  - destruct (obj !! "textAlign") as [v |]; repeat constructor.
    intros s s' E. destruct (_get_alignment v); simpl in E; [| discriminate].
    by injection E as <-.
Qed.

Lemma set_rotation_absent (obj : dict) (shape : doc_shape F) :
  obj !! "angle" = None -> set_rotation obj shape = shape.
Proof. intros Ha. unfold set_rotation, when_key. by rewrite Ha. Qed.

(** X14: A textbox, forward and back: the shape [_create_shape_from_fabric]
    adds for the object of a textbox is a textbox with one run that holds
    the whole text of the object.  The object has no key [fontWeight],
    [fontStyle] or [angle], and the way back reads no [backgroundColor]: the
    run is neither bold nor italic whatever the runs of the source were, and
    the shape has no rotation, no fill and no outline of its own. *)
Theorem X14_textbox_round_trip (shape : ShapeHandler.shape_info F)
    (members : list (ShapeHandler.shape F)) (o : scene_object F) (s : doc_shape F) :
  ShapeHandler.sh_shape_type shape = TEXT_BOX ->
  ShapeHandler.process_shape Math theme_colors (ShapeHandler.Shape shape members) = Some o ->
  _create_shape_from_fabric (props o) = Some s ->
  ds_kind s = TextBox
  /\ (exists r, ds_run s = Some r
                /\ run_text r
                   = TextHandler.text (TextHandler.walk (ShapeHandler.sh_text_props shape))
                /\ run_bold r = None /\ run_italic r = None)
  /\ ds_rotation s = None /\ ds_fill s = AsCreated
  /\ ds_line_color s = None /\ ds_line_width s = None.
Proof.
  intros Hk. rewrite process_shape_unfold, Hk. unfold ShapeHandler._process_textbox.
  destruct (defaults_are_modes (ShapeHandler.sh_text_props shape))
    as (ft & E & _ & _ & _ & _ & _ & Htext).
  pose proof (convert_to_fabric_text_type _ _ E) as Htype.
  rewrite E. case_match; [| discriminate]. intros [= <-]. simpl.
  set (obj := <["backgroundColor" := _]> _).
  assert (Hty : obj !! "type" = Some (VStr "textbox")).
  { subst obj. rewrite lookup_insert_ne by done. by erewrite lookup_union_Some_l. }
  assert (Htx : obj !! "text"
                = Some (VStr (TextHandler.text
                                (TextHandler.walk (ShapeHandler.sh_text_props shape))))).
  { subst obj. rewrite lookup_insert_ne by done. by erewrite lookup_union_Some_l. }
  assert (Hno : forall k, k ∈ ["fontWeight"; "fontStyle"; "angle"] -> obj !! k = None).
  { intros k Hin. subst obj. rewrite lookup_insert_ne by set_solver.
    rewrite lookup_union_r.
    - apply enriched_base_keys. set_solver.
    - eapply convert_to_fabric_text_keys; [done |]. unfold text_keys. set_solver. }
  clearbody obj. unfold _create_shape_from_fabric. rewrite Hty. simpl.
  destruct (geometry obj) as [[[[l t] w] h] |]; simpl; [| discriminate].
  intros [= <-]. rewrite set_rotation_absent by (apply Hno; set_solver).
  pose proof (text_of_object (new_shape TextBox l t w h) obj _ Htx
                (Hno "fontWeight" ltac:(set_solver)) (Hno "fontStyle" ltac:(set_solver)))
    as Hkept.
  pose proof (_set_text_properties_geom (new_shape TextBox l t w h) obj) as Hgeom.
  unfold text_kept in Hkept. unfold geom in Hgeom. simpl in Hkept, Hgeom.
  injection Hkept as -> -> -> -> Hrun. injection Hgeom as -> _ _ _ _.
  destruct (ds_run _) as [r |]; simpl in Hrun; [| discriminate].
  injection Hrun as Ht Hb Hi. repeat split; eauto.
Qed.

End WayBack.

(** ** The colors the way back reads *)

Section ColorsRead.
Context {F : Type} `{PyFloat F}.
Import Pptx Fabric Converter.
Local Abbreviation dict := (gmap string (value F)).
















(** *** Hex colors *)

Lemma lstrip_hash_head (s : string) :
  match Py.lstrip "#" s with
  | String a _ => a <> "#"%char
  | EmptyString => True
  end.
Proof.
  induction s as [| a s IH]; simpl; [done |].
  destruct (Ascii.eqb_spec a "#"); [exact IH | done].
Qed.

Lemma slice_prefix (c : string) (i : nat) :
  i ∈ [0; 2; 4]%nat -> Py.slice2 i (String.substring 0 6 c) = Py.slice2 i c.
Proof.
  intros Hi. unfold Py.slice2.
  destruct c as [| a1 [| a2 [| a3 [| a4 [| a5 [| a6 c]]]]]].
  all: repeat (apply elem_of_cons in Hi as [-> | Hi]; [try reflexivity |]).
  all: try (by apply elem_of_nil in Hi).
  all: simpl; by destruct c.
Qed.

Lemma parse_hex (s : string) :
  Py.startswith "#" s = true ->
  _parse_color (VStr s : value F)
  = Py.try_except
      (t ← map_result (fun i => Py.int_base 16 (Py.slice2 i (Py.lstrip "#" s))) [0; 2; 4]%nat;
       Ok (Some t))
      None.
Proof. intros Hs. unfold _parse_color. by rewrite Hs. Qed.

(** X16: A hex color is read from the first six characters after the leading
    [#] signs, two by two: what follows them, an alpha value for one, is
    ignored, and with fewer than five characters (the short form [#rgb])
    the third slice is empty, [int] raises and the color is [None]. *)
Theorem X16_hex_colors (s : string) :
  Py.startswith "#" s = true ->
  _parse_color (VStr s : value F)
  = _parse_color (VStr ("#" +:+ String.substring 0 6 (Py.lstrip "#" s)) : value F)
  /\ ((String.length (Py.lstrip "#" s) < 5)%nat -> _parse_color (VStr s : value F) = None).
Proof.
  intros Hs. split.
  - rewrite (parse_hex s Hs), (parse_hex ("#" +:+ _)) by apply hashed_app.
    change ("#" +:+ ?x) with (String "#" x). cbn [Py.lstrip]. rewrite Ascii.eqb_refl.
    set (c := Py.lstrip "#" s).
    assert (Hc : Py.lstrip "#" (String.substring 0 6 c) = String.substring 0 6 c).
    { pose proof (lstrip_hash_head s) as Hh. fold c in Hh.
      destruct c as [| a c]; [done |]. simpl.
      apply Ascii.eqb_neq in Hh. by rewrite Hh. }
    rewrite Hc. cbn [map_result]. rewrite !slice_prefix by set_solver. done.
  - intros Hl. rewrite (parse_hex s Hs).
    destruct (Py.lstrip "#" s) as [| a1 [| a2 [| a3 [| a4 [| a5 c]]]]];
      simpl in Hl; try lia.
    all: cbn [map_result].
    all: destruct (Py.int_base 16 (Py.slice2 0 _)); [| reflexivity].
    all: destruct (Py.int_base 16 (Py.slice2 2 _)); reflexivity.
Qed.

End ColorsRead.

(** ** Gradients *)

Section Gradients.
Context {F : Type} `{PyFloat F}.
Variable Math : AdvancedShapeHandler.MathObj F.
Import Fabric AdvancedShapeHandler.
Local Abbreviation dict := (gmap string (value F)).







(** *** The color stops of the fill *)

(** [d.get(k)] on a dictionary kept as the list of its items. *)
Fixpoint dict_get {K V} `{EqDecision K} (k : K) (d : list (K * V)) : option V :=
  match d with
  | [] => None
  | (k', v) :: d' => if decide (k' = k) then Some v else dict_get k d'
  end.

Lemma dict_set_get {K V} `{EqDecision K} (k k' : K) (v : V) (d : list (K * V)) :
  dict_get k' (dict_set k v d) = if decide (k = k') then Some v else dict_get k' d.
Proof.
  induction d as [| [k0 v0] d IH]; simpl.
  - done.
  - destruct (decide (k0 = k)) as [-> | Hne]; simpl.
    + by destruct (decide (k = k')).
    + rewrite IH. destruct (decide (k0 = k')) as [-> | ?]; [| done].
      by rewrite decide_False.
Qed.

Lemma dict_set_keys {K V} `{EqDecision K} (k : K) (v : V) (d : list (K * V)) :
  NoDup d.*1 -> NoDup (dict_set k v d).*1 /\ forall k', k' ∈ (dict_set k v d).*1 <-> k' = k \/ k' ∈ d.*1.
Proof.
  induction d as [| [k0 v0] d IH]; simpl; intros Hnd.
  - split; [apply NoDup_singleton |]. intros k'.
    rewrite list_elem_of_singleton, elem_of_nil. tauto.
  - apply NoDup_cons in Hnd as [Hni Hnd]. destruct (IH Hnd) as [IH1 IH2].
    destruct (decide (k0 = k)) as [-> | Hne]; simpl.
    + split; [by apply NoDup_cons |]. intros k'. rewrite elem_of_cons. tauto.
    + split.
      * apply NoDup_cons. split; [| done]. rewrite IH2. tauto.
      * intros k'. rewrite !elem_of_cons, IH2. tauto.
Qed.

Definition set_stop (d : list (F * string)) (stop : F * string) : list (F * string) :=
  let '(offset, color) := stop in dict_set offset color d.

Lemma color_stops_spec (stops d : list (F * string)) :
  NoDup d.*1 ->
  NoDup (fold_left set_stop stops d).*1
  /\ (forall offset, offset ∈ (fold_left set_stop stops d).*1
                     <-> offset ∈ stops.*1 \/ offset ∈ d.*1)
  /\ forall offset,
       dict_get offset (fold_left set_stop stops d)
       = match dict_get offset (rev stops) with
         | Some color => Some color
         | None => dict_get offset d
         end.
Proof.
  revert d. induction stops as [| [o c] stops IH]; intros d Hnd; simpl.
  - split; [done |]. split; [| done]. intros offset. rewrite elem_of_nil. tauto.
  - destruct (dict_set_keys o c d Hnd) as [Hnd' Hk].
    destruct (IH _ Hnd') as (I1 & I2 & I3). split; [done |]. split.
    + intros offset. rewrite I2, Hk, elem_of_cons. tauto.
    + intros offset. rewrite I3, dict_set_get.
      assert (Happ : forall l1 l2 : list (F * string),
                dict_get offset (l1 ++ l2)
                = match dict_get offset l1 with
                  | Some color => Some color
                  | None => dict_get offset l2
                  end).
      { intros l1 l2. induction l1 as [| [k0 v0] l1 IHl]; simpl; [done |].
        by destruct (decide (k0 = offset)). }
      rewrite Happ. simpl.
      destruct (dict_get offset (rev stops)); [done |]. by destruct (decide (o = offset)).
Qed.

(** X18: A gradient that is not linear: the object gets a [fill] with the type
    of the gradient, the fixed coordinates of a circle of radius 0.5 about
    the center of the unit square, and one color stop for each offset that
    occurs among the stops, with the color of the last stop at that
    offset.  Two stops at one offset, a hard edge in the source, become
    one. *)
Theorem X18_radial_gradient_fill (props : shape_props F) (grad : gradient_props F) :
  sp_gradient props = Some grad -> gp_type grad <> "linear" ->
  exists fill,
    convert_to_fabric Math (Some props) !! "fill" = Some (VGradient fill)
    /\ g_type fill = gp_type grad
    /\ g_coords fill = RadialCoords (fdiv (of_int 1) (of_int 2)) (fdiv (of_int 1) (of_int 2))
                         (of_int 0) (fdiv (of_int 1) (of_int 2))
                         (fdiv (of_int 1) (of_int 2)) (fdiv (of_int 1) (of_int 2))
    /\ NoDup (g_colorStops fill).*1
    /\ (forall offset, offset ∈ (g_colorStops fill).*1 <-> offset ∈ (gp_stops grad).*1)
    /\ forall offset, dict_get offset (g_colorStops fill)
                      = dict_get offset (rev (gp_stops grad)).
Proof.
  intros Hg Ht. apply String.eqb_neq in Ht.
  destruct (color_stops_spec (gp_stops grad) []) as (S1 & S2 & S3); [constructor |].
  eexists. split.
  - unfold convert_to_fabric. rewrite Hg, Ht. simpl.
    rewrite convert_effects_keys by done.
    destruct (sp_custom_geometry props) as [[paths rect] |];
      [destruct paths; destruct rect as [[[[? ?] ?] ?] |] |]; simpl.
    all: rewrite ?lookup_insert_ne by done; apply lookup_insert_eq.
  - simpl. rewrite ?Ht. split; [done |]. split; [done |].
    split; [exact S1 |]. split.
    + intros offset. rewrite (S2 offset), elem_of_nil. tauto.
    + intros offset. etransitivity; [apply (S3 offset) |].
      by destruct (dict_get offset (rev _)).
Qed.

End Gradients.

(** ** Custom geometry and effects *)

Section GeometryAndEffects.
Context {F : Type} `{PyFloat F}.
Import Fabric AdvancedShapeHandler.

(** X19: A curve with other than three points is passed over, the commands
    before and after it staying; a move or a line without a point is not:
    the call on [None] raises and [_extract_custom_geometry] returns [None]
    for the whole geometry, its other paths and its rectangle included. *)
Theorem X19_custom_geometry_points (custom_geom : Xml.element) :
  (forall (path_data : list (path_cmd F)) (cmd : Xml.element),
     Xml.local_name cmd = "cubicBezTo" -> length (Xml.findall "a:pt" cmd) <> 3%nat ->
     path_command path_data cmd = Ok path_data)
  /\ (forall path_list path cmd : Xml.element,
        Xml.find "a:pathLst" custom_geom = Some path_list ->
        path ∈ Xml.findall "a:path" path_list ->
        cmd ∈ Xml.children path ->
        Xml.local_name cmd = "moveTo" \/ Xml.local_name cmd = "lnTo" ->
        Xml.find "a:pt" cmd = None ->
        _extract_custom_geometry (F := F) custom_geom = None).
Proof.
  split.
  - intros path_data cmd Htag Hn. unfold path_command. rewrite Htag. simpl.
    destruct (Xml.findall "a:pt" cmd) as [| p0 [| p1 [| p2 [| p3 l]]]]; done.
  - intros path_list path cmd Hpl Hpath Hcmd Htag Hpt.
    unfold _extract_custom_geometry. rewrite Hpl.
    match goal with
    | |- Py.try_except (?read ≫= _) None = None => destruct read as [rc |]; [| done]
    end.
    simpl.
    match goal with
    | |- Py.try_except (for_each ?body ?l ?acc ≫= _) None = None =>
        destruct (for_each_raises body l path acc Hpath) as [e ->]; [| done]
    end.
    intros paths.
    destruct (for_each_raises path_command (Xml.children path) cmd [] Hcmd) as [e ->];
      [| simpl; eauto].
    intros acc. unfold path_command. rewrite Hpt.
    destruct Htag as [-> | ->]; simpl; eauto.
Qed.



End GeometryAndEffects.

(** ** The offsets of the styles *)

Section StyleOffsets.
Context {F : Type} `{PyFloat F}.
Context {set_F : PySet F} {set_name : PySet (option string)} {set_str : PySet string}.
Import Fabric TextHandler.

Lemma str_length_app (a b : string) :
  String.length (a +:+ b) = (String.length a + String.length b)%nat.
Proof.
  induction a as [| x a IH]; [reflexivity |].
  change (S (String.length (a +:+ b)) = S (String.length a + String.length b)).
  by rewrite IH.
Qed.

(** The invariant of the two loops: the index is the length of the text,
    and every entry of the style map lies below it and is the style of a
    run with text of a paragraph of the box. *)
Definition styles_ok (ps : text_props F) (st : locals F) : Prop :=
  current_index st = String.length (text st)
  /\ forall i s, styles st !! i = Some s ->
       (i < current_index st)%nat
       /\ exists p r, p ∈ ps /\ r ∈ p_runs p /\ r_text r <> ""
                      /\ s = style_of (p_align p) r.

Lemma run_body_ok (ps : text_props F) (p : para_props F) (r : run_props F) (st : locals F) :
  p ∈ ps -> r ∈ p_runs p -> styles_ok ps st -> styles_ok ps (run_body (p_align p) st r).
Proof.
  intros Hp Hr [Hi Hs]. destruct (voiced r) eqn:Hv.
  - rewrite run_body_voiced by done. split; simpl.
    + rewrite str_length_app. lia.
    + intros i s. rewrite styles_fold. case_decide as Hd.
      * intros [= <-]. split; [lia |]. exists p, r. repeat split; try done.
        unfold voiced in Hv. apply negb_true_iff in Hv. by apply String.eqb_neq.
      * intros Hl. destruct (Hs i s Hl) as [Hlt Hex]. split; [lia | done].
  - by rewrite run_body_silent.
Qed.

Lemma runs_ok (ps : text_props F) (p : para_props F) (runs : list (run_props F))
    (st : locals F) :
  p ∈ ps -> runs ⊆ p_runs p -> styles_ok ps st ->
  styles_ok ps (fold_left (run_body (p_align p)) runs st).
Proof.
  intros Hp. revert st. induction runs as [| r runs IH]; intros st Hin Hok; [done |].
  simpl. apply IH; [set_solver |]. apply run_body_ok; [done | set_solver | done].
Qed.

Lemma paragraph_ok (ps : text_props F) (last_ : option (para_props F)) (p : para_props F)
    (st : locals F) :
  p ∈ ps -> styles_ok ps st -> styles_ok ps (paragraph_body last_ st p).
Proof.
  intros Hp [Hi Hs]. unfold paragraph_body.
  match goal with
  | |- context [fold_left _ _ ?st0] =>
      assert (Hok : styles_ok ps (fold_left (run_body (p_align p)) (p_runs p) st0))
  end.
  { apply runs_ok; [done | done |]. by split. }
  destruct Hok as [Hi' Hs']. case_bool_decide; [| by split].
  split; simpl.
  - rewrite str_length_app. simpl. lia.
  - intros i s Hl. destruct (Hs' i s Hl) as [Hlt Hex]. split; [lia | done].
Qed.

Lemma paragraphs_ok (ps : text_props F) (last_ : option (para_props F))
    (l : list (para_props F)) (st : locals F) :
  l ⊆ ps -> styles_ok ps st -> styles_ok ps (fold_left (paragraph_body last_) l st).
Proof.
  revert st. induction l as [| p l IH]; intros st Hin Hok; [done |].
  simpl. apply IH; [set_solver |]. apply paragraph_ok; [set_solver | done].
Qed.

(** X21: The style map of a textbox indexes its text: every key of the map is
    an offset below the length of the text, and the style under it is the
    one a run with text of some paragraph of the box gives (its font, its
    color, the alignment of its paragraph). *)
Theorem X21_style_offsets (ps : text_props F) :
  exists fabric_text text_ styles_,
    convert_to_fabric_text ps = Some fabric_text
    /\ fabric_text !! "text" = Some (VStr text_)
    /\ fabric_text !! "styles" = Some (VStyles styles_)
    /\ forall (i : nat) (s : style F),
         styles_ !! i = Some s ->
         (i < String.length text_)%nat
         /\ exists p r, p ∈ ps /\ r ∈ p_runs p /\ r_text r <> ""
              /\ s = {| st_fontFamily := f_name (r_font r);
                        st_fontSize := f_size (r_font r);
                        st_fontWeight :=
                          if default false (f_bold (r_font r)) then "bold" else "normal";
                        st_fontStyle :=
                          if default false (f_italic (r_font r)) then "italic" else "normal";
                        st_underline := f_underline (r_font r);
                        st_fill := f_color (r_font r);
                        st_textAlign := p_align p |}.
Proof.
  destruct (defaults_are_modes ps) as (ft & E & _ & _ & _ & _ & Hst & Htx).
  exists ft, (text (walk ps)), (styles (walk ps)).
  split; [done |]. split; [done |]. split; [done |].
  assert (Hok : styles_ok ps (walk ps)).
  { apply paragraphs_ok; [done |]. split; [done |]. intros i s Hl.
    simpl in Hl. by rewrite lookup_empty in Hl. }
  destruct Hok as [Hi Hs]. intros i s Hl. destruct (Hs i s Hl) as [Hlt Hex].
  split; [by rewrite <- Hi | exact Hex].
Qed.

End StyleOffsets.

(** ** The text of a textbox, in general *)

Section TextOfBox.
Context {F : Type} `{PyFloat F}.
Context {set_F : PySet F} {set_name : PySet (option string)} {set_str : PySet string}.
Import Fabric TextHandler.

(** X22: The text of a textbox is the texts of its runs in order, with a newline
    after every paragraph that differs, as a value, from the last paragraph
    of the box: a paragraph equal to the last one gets none, wherever it
    stands. *)
Theorem X22_textbox_text (ps : text_props F) :
  exists fabric_text,
    convert_to_fabric_text ps = Some fabric_text
    /\ fabric_text !! "text"
       = Some (VStr (fold_right
                       (fun p acc =>
                          fold_right String.append "" (r_text <$> p_runs p)
                          +:+ (if bool_decide (Some p ≠ last ps) then String "010" "" else "")
                          +:+ acc)
                       "" ps)).
Proof.
  destruct (defaults_are_modes ps) as (ft & E & _ & _ & _ & _ & _ & Ht).
  exists ft. split; [exact E |]. rewrite Ht. do 2 f_equal.
  unfold walk. rewrite paragraphs_text. reflexivity.
Qed.

End TextOfBox.

(** ** The namespace fix *)

Section NamespaceFix.
Import Converter.

(** The text has an occurrence of [old]. *)
Definition occurs (old s : string) : Prop := exists pre post, s = pre +:+ old +:+ post.

(** [s] without its first [n] characters. *)
Fixpoint string_skip (n : nat) (s : string) : string :=
  match n, s with
  | S n', String _ s' => string_skip n' s'
  | _, _ => s
  end.

Lemma substring_skip (n : nat) (s : string) : String.substring 0 n s +:+ string_skip n s = s.
Proof.
  revert n. induction s as [| a s IH]; intros [| n]; try reflexivity.
  change (String a (String.substring 0 n s +:+ string_skip n s) = String a s).
  by rewrite IH.
Qed.

Lemma prefix_occurs (old s : string) :
  String.prefix old s = true -> exists post, s = old +:+ post.
Proof.
  revert s. induction old as [| a old IH]; intros s Hp.
  - by exists s.
  - destruct s as [| b s]; [discriminate |]. cbn [String.prefix] in Hp.
    destruct (ascii_dec a b) as [E | E]; [| discriminate]. subst b.
    destruct (IH s Hp) as [post ->]. by exists post.
Qed.

Lemma replace_absent (old new s : string) : ~ occurs old s -> Py.replace old new s = s.
Proof.
  unfold Py.replace. induction s as [| a s IH]; intros Hno; [reflexivity |].
  cbn [Py.replace_from]. destruct (String.prefix old (String a s)) eqn:Hp.
  - destruct Hno. apply prefix_occurs in Hp as [post Hp]. by exists "", post.
  - rewrite IH; [done |]. intros (pre & post & ->). apply Hno.
    by exists (String a pre), post.
Qed.

(** A match of a pattern that ends with a character ends with it. *)
Definition ends_with (q : ascii) (s : string) (n : nat) : Prop :=
  exists m, n = S m /\ String.get m s = Some q.

Lemma match_ends (q : ascii) (items : list Re.item) (s : string) (n : nat) :
  Re.match_ (items ++ [Re.Lit q]) s = Some n -> ends_with q s n.
Proof.
  revert s n. induction items as [| [c | c] items IH]; intros s n.
  - destruct s as [| a s]; simpl; [discriminate |].
    destruct (Ascii.eqb_spec a q) as [-> | _]; [| discriminate].
    intros [= <-]. by exists 0%nat.
  - destruct s as [| a s]; simpl; [discriminate |].
    destruct (Ascii.eqb a c); [| discriminate].
    destruct (Re.match_ (items ++ [Re.Lit q]) s) as [k |] eqn:E; [| discriminate].
    intros [= <-]. destruct (IH s k E) as (m & -> & Hm). by exists (S m).
  - change (Re.match_ ((Re.PlusNot c :: items) ++ [Re.Lit q]))
      with (fix more (s : string) : option nat :=
              match s with
              | String a s' =>
                  if Ascii.eqb a c then None
                  else match more s' with
                       | Some n => Some (S n)
                       | None => S <$> Re.match_ (items ++ [Re.Lit q]) s'
                       end
              | EmptyString => None
              end).
    revert n. induction s as [| a s IHs]; intros n; [discriminate |].
    cbn beta iota fix. destruct (Ascii.eqb a c); [discriminate |].
    match goal with
    | |- match ?more s with _ => _ end = _ -> _ => destruct (more s) as [k |] eqn:E
    end.
    + intros [= <-]. destruct (IHs k eq_refl) as (m & -> & Hm). by exists (S m).
    + destruct (Re.match_ (items ++ [Re.Lit q]) s) as [k |] eqn:E'; [| discriminate].
      intros [= <-]. destruct (IH s k E') as (m & -> & Hm). by exists (S m).
Qed.

Lemma but_last_app (u : string) (q : ascii) : Py.but_last (u +:+ String q "") = u.
Proof.
  induction u as [| a u IH]; [reflexivity |].
  change (Py.but_last (String a (u +:+ String q "")) = String a u).
  destruct (u +:+ String q "") as [| b t] eqn:E; [by destruct u |].
  change (String a (Py.but_last (String b t)) = String a u). by rewrite IH.
Qed.

Lemma substring_last (m : nat) (s : string) (q : ascii) :
  String.get m s = Some q ->
  String.substring 0 (S m) s = String.substring 0 m s +:+ String q "".
Proof.
  revert s. induction m as [| m IH]; intros [| a s] Hm; try discriminate.
  - injection Hm as ->. simpl. by destruct s.
  - change (String a (String.substring 0 (S m) s)
            = String a (String.substring 0 m s +:+ String q "")).
    by rewrite (IH s Hm).
Qed.

Lemma but_last_restored (q : ascii) (s : string) (n : nat) :
  ends_with q s n ->
  Py.but_last (String.substring 0 n s) +:+ String q "" = String.substring 0 n s.
Proof.
  intros (m & -> & Hm). by rewrite (substring_last m s q Hm), but_last_app.
Qed.

Lemma sub_from_unchanged (pattern : list Re.item) (repl : string -> string) :
  (forall s n, Re.match_ pattern s = Some n ->
               repl (String.substring 0 n s) = String.substring 0 n s) ->
  forall s skip, Re.sub_from pattern repl skip s = string_skip skip s.
Proof.
  intros Hrepl. induction s as [| a s IH]; intros skip; [by destruct skip |].
  cbn [Re.sub_from]. destruct skip as [| skip]; [| apply IH].
  destruct (Re.match_ pattern (String a s)) as [[| n] |] eqn:E.
  - rewrite IH. done.
  - rewrite (Hrepl _ _ E), IH.
    change (String a (String.substring 0 n s +:+ string_skip n s) = String a s).
    by rewrite substring_skip.
  - rewrite IH. done.
Qed.

Lemma namespace_sub_unchanged (xml_content : string) :
  Re.sub namespace_pattern (fun m => Py.but_last m +:+ String quote "") xml_content
  = xml_content.
Proof.
  unfold Re.sub. rewrite sub_from_unchanged; [done |].
  intros s n E. apply but_last_restored.
  by apply (match_ends quote
              [Re.Lit "x"; Re.Lit "m"; Re.Lit "l"; Re.Lit "n"; Re.Lit "s"; Re.Lit ":";
               Re.PlusNot "="; Re.Lit "="; Re.Lit quote; Re.PlusNot quote;
               Re.Lit backslash]%char).
Qed.

(** X23: The substitution of [_fix_invalid_namespace_uri] changes nothing: the
    function puts back the quote it takes off each match, so the result is
    that of the three replacements alone.  A content in which none of the
    three listed addresses is followed by a backslash is returned as it is,
    a declaration of another namespace that ends with a backslash
    included. *)
Theorem X23_namespace_fix_scope (xml_content : string) :
  _fix_invalid_namespace_uri xml_content
  = fold_left (fun xml_content '(invalid, valid) => Py.replace invalid valid xml_content)
              namespace_fixes xml_content
  /\ ((forall invalid valid, (invalid, valid) ∈ namespace_fixes ->
                             ~ occurs invalid xml_content) ->
      _fix_invalid_namespace_uri xml_content = xml_content).
Proof.
  unfold _fix_invalid_namespace_uri. rewrite namespace_sub_unchanged.
  split; [done |]. intros Hno. unfold namespace_fixes in *. cbn [fold_left].
  do 3 (rewrite (replace_absent _ _ xml_content)
          by (eapply Hno; apply list_elem_of_In; simpl; eauto)).
  done.
Qed.

(** X24: [fix_invalid_namespace_uri] of pptx_to_json.py is the one replacement
    of its second statement: it returns a content without the address of
    the 2014 drawing namespace followed by a backslash as it is. *)
Theorem X24_json_namespace_fix_scope (xml_content : string) :
  PptxToJson.fix_invalid_namespace_uri xml_content
  = Py.replace
      ("http://schemas.microsoft.com/office/drawing/2014/main" +:+ String backslash "")
      "http://schemas.microsoft.com/office/drawing/2014/main" xml_content
  /\ (~ occurs ("http://schemas.microsoft.com/office/drawing/2014/main"
                +:+ String backslash "") xml_content ->
      PptxToJson.fix_invalid_namespace_uri xml_content = xml_content).
Proof.
  unfold PptxToJson.fix_invalid_namespace_uri. rewrite namespace_sub_unchanged.
  split; [done |]. intros Hno. by rewrite replace_absent.
Qed.

End NamespaceFix.

(** ** The two ways forward *)

Section TwoWaysForward.
Context {F : Type} `{PyFloat F}.
Context {set_F : PySet F} {set_name : PySet (option string)} {set_str : PySet string}.
Variable Math : AdvancedShapeHandler.MathObj F.
Import Pptx Fabric Converter PptxToJson.
Local Abbreviation dict := (gmap string (value F)).

(** X25: [pptx_to_fabric_json] and [PPTXFabricConverter.pptx_to_fabric] on one
    presentation, when both return: they give the same number of entries,
    and the entries of a slide have the same size and number.  Where the
    converter gives the slide a [background], the objects of
    [pptx_to_fabric_json] are a rectangle with the same fill, of the size of
    the slide in points, followed by the objects of the converter; where it
    gives none, the objects are the same. *)
Theorem X25_json_objects (prs : presentation F) (slides_json : list (json_slide F))
    (slides_data : list (slide_data F)) :
  pptx_to_fabric_json Math prs = Ok slides_json ->
  pptx_to_fabric Math prs = Ok slides_data ->
  length slides_json = length slides_data
  /\ forall (i : nat) (j : json_slide F) (d : slide_data F),
         slides_json !! i = Some j -> slides_data !! i = Some d ->
         js_width j = sl_width d /\ js_height j = sl_height d
         /\ js_slideNumber j = sl_slideNumber d
         /\ match sl_background d with
            | Some background =>
                exists rect,
                  js_objects j = rect :: sl_objects d
                  /\ objects rect = None
                  /\ props rect !! "type" = Some (VStr "rect")
                  /\ props rect !! "fill" = background !! "fill"
                  /\ props rect !! "width" = Some (VNum (sl_width d))
                  /\ props rect !! "height" = Some (VNum (sl_height d))
                  /\ background !! "width" = Some (VStr "100%")
                  /\ background !! "height" = Some (VStr "100%")
            | None => js_objects j = sl_objects d
            end.
Proof.
  set (theme_colors := ColorHandler._extract_theme_colors (theme_root prs)).
  set (rects := fun slide : slide F =>
         match sl_background_fill slide with
         | Some fill =>
             let bg_color := ColorHandler.get_shape_color theme_colors (Some (Some fill)) in
             if negb (String.eqb bg_color "") then
               [ SceneObject
                   (list_to_map [
                      ("type", VStr "rect"); ("left", VNum (of_int 0));
                      ("top", VNum (of_int 0));
                      ("width", VNum (fdiv (of_int (slide_width prs)) (of_int 12700)));
                      ("height", VNum (fdiv (of_int (slide_height prs)) (of_int 12700)));
                      ("fill", VStr bg_color); ("selectable", VBool false) ] : dict)
                   None ]
             else []
         | None => []
         end).
  set (entry := fun (slide_index : nat) (slide : slide F) =>
         {| js_objects := rects slide ++ sl_objects (slide_entry Math prs slide_index slide);
            js_width := fdiv (of_int (slide_width prs)) (of_int 12700);
            js_height := fdiv (of_int (slide_height prs)) (of_int 12700);
            js_slideNumber := Z.of_nat slide_index + 1 |}).
  assert (Hj : pptx_to_fabric_json Math prs = Ok (imap entry (slides prs))).
  { unfold pptx_to_fabric_json.
    rewrite (map_result_total _ (fun p => entry p.1 p.2)).
    - f_equal. change (map ?f ?l) with (f <$> l). rewrite fmap_imap. by apply imap_ext.
    - intros [i slide]. rewrite shapes_loop. done. }
  rewrite Hj, pptx_to_fabric_entries. intros [= <-] [= <-].
  split; [by rewrite !length_imap |].
  intros i j d. rewrite !list_lookup_imap.
  destruct (slides prs !! i) as [slide |]; [| discriminate].
  simpl. intros [= <-] [= <-]. split; [done |]. split; [done |]. split; [done |].
  simpl. unfold _get_slide_background. subst rects. cbv beta zeta.
  fold theme_colors.
  destruct (sl_background_fill slide) as [fill |]; [| done].
  destruct (negb _); [| done].
  eexists. split; [reflexivity |]. simpl. repeat split; by simplify_map_eq.
Qed.

End TwoWaysForward.

(** ** Instances *)


(** A group of the red rectangle and of a graphic frame, a kind the
    dispatcher drops, whose locked canvas holds a shape with a shadow and
    with a text rectangle in its custom geometry. *)
Definition canvas_group : ShapeHandler.shape float :=
  ShapeHandler.Shape
    {| ShapeHandler.sh_shape_type := Pptx.GROUP;
       ShapeHandler.sh_left := 1270000;
       ShapeHandler.sh_top := 1270000;
       ShapeHandler.sh_width := 2540000;
       ShapeHandler.sh_height := 635000;
       ShapeHandler.sh_rotation := Some 0%float;
       ShapeHandler.sh_element :=
         Some (Xml.Element "p:grpSp" [] [
           Xml.Element "p:sp" [] [
             Xml.Element "p:spPr" [] [
               Xml.Element "a:prstGeom" [("prst", "rect")] [];
               Xml.Element "a:solidFill" [] [Xml.Element "a:srgbClr" [("val", "FF0000")] []] ] ];
           Xml.Element "p:graphicFrame" [] [
             Xml.Element "a:graphic" [] [
               Xml.Element "a:graphicData" [] [
                 Xml.Element "lc:lockedCanvas" [] [
                   Xml.Element "a:sp" [] [
                     Xml.Element "a:spPr" [] [
                       Xml.Element "a:custGeom" [] [
                         Xml.Element "a:rect"
                           [("l", "0"); ("t", "0"); ("r", "100000"); ("b", "50000")] [] ];
                       Xml.Element "a:effectLst" [] [
                         Xml.Element "a:outerShdw"
                           [("blurRad", "25400"); ("dx", "12700"); ("dy", "12700")] [
                           Xml.Element "a:srgbClr" [("val", "808080")] [] ] ] ] ] ] ] ] ] ]);
       ShapeHandler.sh_fill := None;
       ShapeHandler.sh_line := None;
       ShapeHandler.sh_auto_shape_type := None;
       ShapeHandler.sh_image := None;
       ShapeHandler.sh_text_props := [];
       ShapeHandler.sh_path_data := None |}
    [red_rectangle; ShapeHandler.Shape (bare_shape Pptx.OTHER_SHAPE_TYPE) []].

Lemma X4_witness :
  exists o,
    ShapeHandler.process_shape Math_unbound ColorHandler.default_theme_colors canvas_group
    = Some o
    /\ Fabric.props o !! "type" = Some (Fabric.VStr "group")
    /\ Fabric.props o !! "shadow"
       = Some (Fabric.VShadow
                 {| Fabric.sh_color := "#808080"; Fabric.sh_blur := 2%float;
                    Fabric.sh_offsetX := 1%float; Fabric.sh_offsetY := 1%float;
                    Fabric.sh_opacity := 1%float |})
    /\ Fabric.props o !! "clipPath"
       = Some (Fabric.VClip
                 {| Fabric.cp_left := 0%float; Fabric.cp_top := 0%float;
                    Fabric.cp_width := 1%float; Fabric.cp_height := 0.5%float |}).
Proof.
  assert (E : exists o,
             ShapeHandler.process_shape Math_unbound ColorHandler.default_theme_colors
               canvas_group = Some o
             /\ Fabric.props o !! "type" = Some (Fabric.VStr "group"))
    by (eexists; split; vm_compute; reflexivity).
  destruct E as (o & E & Ht). exists o. split; [exact E |]. split; [exact Ht |].
  destruct (X4_object_effects Math_unbound ColorHandler.default_theme_colors canvas_group
              o E) as [Hs Hc].
  rewrite Hs, Hc. split; vm_compute; reflexivity.
Defined.

Lemma X5_witness :
  exists o,
    ShapeHandler.process_shape Math_unbound (ColorHandler._extract_theme_colors None)
      red_rectangle = Some o
    /\ Fabric.props o !! "fill" = Some (Fabric.VStr "#ff0000").
Proof.
  eexists. split; [vm_compute; reflexivity |].
  exact (proj1 (X5_fill_is_a_string Math_unbound None (ShapeHandler.info red_rectangle) [] _
                  eq_refl) (or_introl eq_refl)).
Defined.





(** A freeform: a path that moves to the origin, draws a line and
    closes. *)
Definition freeform_element : Xml.element :=
  Xml.Element "p:sp" [] [
    Xml.Element "p:spPr" [] [
      Xml.Element "a:custGeom" [] [
        Xml.Element "a:pathLst" [] [
          Xml.Element "a:path" [("w", "100"); ("h", "100")] [
            Xml.Element "a:moveTo" [] [Xml.Element "a:pt" [("x", "0"); ("y", "0")] []];
            Xml.Element "a:lnTo" [] [Xml.Element "a:pt" [("x", "12700"); ("y", "25400")] []];
            Xml.Element "a:close" [] [] ] ] ] ] ].

Definition a_freeform : ShapeHandler.shape_info float :=
  {| ShapeHandler.sh_shape_type := Pptx.FREEFORM;
     ShapeHandler.sh_left := 1270000;
     ShapeHandler.sh_top := 1270000;
     ShapeHandler.sh_width := 2540000;
     ShapeHandler.sh_height := 635000;
     ShapeHandler.sh_rotation := Some 0%float;
     ShapeHandler.sh_element := Some freeform_element;
     ShapeHandler.sh_fill := None;
     ShapeHandler.sh_line := None;
     ShapeHandler.sh_auto_shape_type := None;
     ShapeHandler.sh_image := None;
     ShapeHandler.sh_text_props := [];
     ShapeHandler.sh_path_data := ShapeHandler._get_path_data (Some freeform_element) |}.

Lemma X8_witness :
  exists o commands,
    ShapeHandler.process_shape Math_unbound ColorHandler.default_theme_colors
      (ShapeHandler.Shape a_freeform []) = Some o
    /\ Fabric.props o !! "path" = Some (Fabric.VPath commands)
    /\ (0 < length commands <= 3)%nat.
Proof.
  assert (E : exists o,
             ShapeHandler.process_shape Math_unbound ColorHandler.default_theme_colors
               (ShapeHandler.Shape a_freeform []) = Some o)
    by (eexists; vm_compute; reflexivity).
  destruct E as [o E].
  destruct (X8_freeform_path Math_unbound ColorHandler.default_theme_colors a_freeform [] o
              eq_refl eq_refl E)
    as (element & path_elem & commands & He & Hf & Hc & Hp & Hl & _).
  exists o, commands. split; [exact E |]. split; [exact Hp |].
  injection He as <-. vm_compute in Hf. injection Hf as <-. exact Hl.
Defined.

(** The same freeform with a move that has no point. *)
Definition pointless_path : Xml.element :=
  Xml.Element "a:path" [] [
    Xml.Element "a:moveTo" [] [];
    Xml.Element "a:lnTo" [] [Xml.Element "a:pt" [("x", "12700"); ("y", "25400")] []] ].

Definition pointless_freeform : ShapeHandler.shape_info float :=
  {| ShapeHandler.sh_shape_type := Pptx.FREEFORM;
     ShapeHandler.sh_left := 1270000;
     ShapeHandler.sh_top := 1270000;
     ShapeHandler.sh_width := 2540000;
     ShapeHandler.sh_height := 635000;
     ShapeHandler.sh_rotation := Some 0%float;
     ShapeHandler.sh_element := Some (Xml.Element "p:sp" [] [pointless_path]);
     ShapeHandler.sh_fill := None;
     ShapeHandler.sh_line := None;
     ShapeHandler.sh_auto_shape_type := None;
     ShapeHandler.sh_image := None;
     ShapeHandler.sh_text_props := [];
     ShapeHandler.sh_path_data :=
       ShapeHandler._get_path_data (Some (Xml.Element "p:sp" [] [pointless_path])) |}.

Lemma X9_witness :
  ShapeHandler.process_shape Math_unbound ColorHandler.default_theme_colors
    (ShapeHandler.Shape pointless_freeform []) = None.
Proof.
  refine (proj2 (X9_freeform_without_point Math_unbound ColorHandler.default_theme_colors
                   pointless_freeform [] (Xml.Element "p:sp" [] [pointless_path])
                   pointless_path (Xml.Element "a:moveTo" [] [])
                   eq_refl eq_refl eq_refl eq_refl _ (or_introl eq_refl) eq_refl)).
  apply list_elem_of_In. simpl. auto.
Defined.

(** One slide with a group, whose members are the group of the red
    rectangle and the textbox, and with a shape of a kind the dispatcher
    drops. *)
Definition nested_groups : Converter.presentation float :=
  {| Converter.slide_width := 9144000;
     Converter.slide_height := 6858000;
     Converter.slides :=
       [ {| Converter.sl_background_fill := None;
            Converter.sl_shapes :=
              [ ShapeHandler.Shape (bare_shape Pptx.GROUP) [a_group; a_textbox];
                ShapeHandler.Shape (bare_shape Pptx.OTHER_SHAPE_TYPE) [] ] |} ];
     Converter.theme_root := None |}.

Lemma X11_witness :
  exists slides_data slide_data inner box,
    Converter.pptx_to_fabric Math_unbound nested_groups = Ok slides_data
    /\ slides_data !! 0%nat = Some slide_data
    /\ Fabric.sl_objects slide_data = [inner; box]
    /\ Fabric.props inner !! "type" = Some (Fabric.VStr "group")
    /\ Fabric.props box !! "type" = Some (Fabric.VStr "textbox").
Proof.
  assert (E : exists slides_data,
             Converter.pptx_to_fabric Math_unbound nested_groups = Ok slides_data)
    by (eexists; vm_compute; reflexivity).
  destruct E as [slides_data E].
  destruct (X11_slide_objects_spliced Math_unbound nested_groups slides_data 0 _ E eq_refl)
    as (slide_data & Hi & Ho).
  vm_compute in Ho.
  exists slides_data, slide_data. eexists _, _. split; [exact E |]. split; [exact Hi |].
  split; [exact Ho |]. split; vm_compute; reflexivity.
Defined.



(** The object of a textbox one inch from the corner. *)
Definition textbox_object : gmap string (Fabric.value float) :=
  list_to_map [
    ("type", Fabric.VStr "textbox"); ("left", Fabric.VNum 72%float);
    ("top", Fabric.VNum 72%float); ("width", Fabric.VNum 144%float);
    ("height", Fabric.VNum 36%float); ("text", Fabric.VStr "Hi") ].

Lemma X13_witness :
  exists s,
    Converter._create_shape_from_fabric textbox_object = Some s
    /\ Converter.ds_kind s = Converter.TextBox.
Proof.
  assert (E : exists s, Converter._create_shape_from_fabric textbox_object = Some s)
    by (eexists; vm_compute; reflexivity).
  destruct E as [s E]. exists s. split; [exact E |].
  destruct (X13_way_back_builds textbox_object s E) as [_ [[_ Hk] | [Ht _]]].
  - exact Hk.
  - vm_compute in Ht. discriminate Ht.
Defined.

Lemma X14_witness :
  exists o s r,
    ShapeHandler.process_shape Math_unbound ColorHandler.default_theme_colors a_textbox
    = Some o
    /\ Converter._create_shape_from_fabric (Fabric.props o) = Some s
    /\ Converter.ds_run s = Some r
    /\ Converter.run_text r = "Hi"
    /\ Converter.run_bold r = None.
Proof.
  assert (E : exists o s,
             ShapeHandler.process_shape Math_unbound ColorHandler.default_theme_colors
               a_textbox = Some o
             /\ Converter._create_shape_from_fabric (Fabric.props o) = Some s)
    by (eexists _, _; split; [vm_compute; reflexivity | vm_compute; reflexivity]).
  destruct E as (o & s & Eo & Es).
  destruct (X14_textbox_round_trip Math_unbound ColorHandler.default_theme_colors
              (ShapeHandler.info a_textbox) [] o s eq_refl Eo Es)
    as (_ & (r & Hr & Ht & Hb & _) & _).
  exists o, s, r. split; [exact Eo |]. split; [exact Es |].
  split; [exact Hr |]. split; [rewrite Ht; vm_compute; reflexivity | exact Hb].
Defined.


Lemma X16_witness :
  Converter._parse_color (Fabric.VStr "#ff000080" : Fabric.value float)
  = Converter._parse_color (Fabric.VStr "#ff0000" : Fabric.value float).
Proof. exact (proj1 (X16_hex_colors (F := float) "#ff000080" eq_refl)). Defined.

(** The properties of a shape with a radial gradient that has a hard edge
    in the middle. *)
Definition radial_props : AdvancedShapeHandler.shape_props float :=
  {| AdvancedShapeHandler.sp_effects := [];
     AdvancedShapeHandler.sp_gradient :=
       Some {| AdvancedShapeHandler.gp_type := "radial";
               AdvancedShapeHandler.gp_angle := 0%float;
               AdvancedShapeHandler.gp_stops :=
                 [(0%float, "#FF0000"); (0.5%float, "#00FF00"); (0.5%float, "#0000FF");
                  (1%float, "#FFFFFF")] |};
     AdvancedShapeHandler.sp_custom_geometry := None |}.

Lemma X18_witness :
  exists fill,
    AdvancedShapeHandler.convert_to_fabric Math_unbound (Some radial_props) !! "fill"
    = Some (Fabric.VGradient fill)
    /\ Fabric.g_type fill = "radial"
    /\ dict_get 0.5%float (Fabric.g_colorStops fill) = Some "#0000FF".
Proof.
  destruct (X18_radial_gradient_fill Math_unbound radial_props _ eq_refl)
    as (fill & Hf & Ht & _ & _ & _ & Hs); [discriminate |].
  exists fill. split; [exact Hf |]. split; [exact Ht |].
  rewrite Hs. vm_compute. reflexivity.
Defined.

(** A custom geometry whose second path has a line without a point. *)
Definition broken_geometry : Xml.element :=
  Xml.Element "a:custGeom" [] [
    Xml.Element "a:pathLst" [] [
      Xml.Element "a:path" [] [
        Xml.Element "a:moveTo" [] [Xml.Element "a:pt" [("x", "0"); ("y", "0")] []] ];
      Xml.Element "a:path" [] [Xml.Element "a:lnTo" [] []] ] ].

Lemma X19_witness :
  AdvancedShapeHandler._extract_custom_geometry (F := float) broken_geometry = None.
Proof.
  refine (proj2 (X19_custom_geometry_points (F := float) broken_geometry)
            (Xml.Element "a:pathLst" [] [
               Xml.Element "a:path" [] [
                 Xml.Element "a:moveTo" [] [
                   Xml.Element "a:pt" [("x", "0"); ("y", "0")] []] ];
               Xml.Element "a:path" [] [Xml.Element "a:lnTo" [] []] ])
            (Xml.Element "a:path" [] [Xml.Element "a:lnTo" [] []])
            (Xml.Element "a:lnTo" [] [])
            eq_refl _ _ (or_intror eq_refl) eq_refl).
  - apply list_elem_of_In. vm_compute. auto.
  - apply list_elem_of_In. simpl. auto.
Defined.





(** *** A namespace the fix leaves invalid *)

(** [old] occurs in [s], decided. *)
Fixpoint contains (old s : string) : bool :=
  String.prefix old s
  || match s with
     | String _ s' => contains old s'
     | EmptyString => false
     end.

Lemma occurs_contains (old s : string) : occurs old s -> contains old s = true.
Proof.
  intros (pre & post & ->). induction pre as [| a pre IH].
  - assert (Hp : String.prefix old (old +:+ post) = true).
    { clear. induction old as [| a old IH]; [by destruct post |].
      change (String.prefix (String a old) (String a (old +:+ post)) = true).
      cbn [String.prefix]. destruct (ascii_dec a a); [exact IH | done]. }
    change ("" +:+ old +:+ post) with (old +:+ post).
    destruct (old +:+ post); simpl; simpl in Hp; rewrite Hp; reflexivity.
  - change (String a pre +:+ old +:+ post) with (String a (pre +:+ old +:+ post)).
    cbn [contains]. rewrite IH. apply orb_true_r.
Qed.

(** A declaration of a namespace that is not one of the three, with the
    backslash the fix is written for. *)
Definition stray_declaration : string :=
  "<a:blip xmlns:r=" +:+ String Converter.quote ""
  +:+ "http://schemas.openxmlformats.org/officeDocument/2006/relationships"
  +:+ String Converter.backslash "" +:+ String Converter.quote "" +:+ "/>".

Lemma X23_witness :
  Converter._fix_invalid_namespace_uri stray_declaration = stray_declaration.
Proof.
  refine (proj2 (X23_namespace_fix_scope stray_declaration) _).
  intros invalid valid Hin Ho. apply occurs_contains in Ho.
  apply list_elem_of_In in Hin. simpl in Hin.
  destruct Hin as [Hin | [Hin | [Hin | []]]]; injection Hin as <- _;
    vm_compute in Ho; discriminate Ho.
Defined.

(** One slide with a solid red background and the red rectangle. *)
Definition red_deck : Converter.presentation float :=
  {| Converter.slide_width := 9144000;
     Converter.slide_height := 6858000;
     Converter.slides :=
       [ {| Converter.sl_background_fill :=
              Some {| Pptx.fill_type := Some Pptx.SOLID;
                      Pptx.fore_color :=
                        Some {| Pptx.rgb := Some (255, 0, 0);
                                Pptx.theme_color := None |} |};
            Converter.sl_shapes := [red_rectangle] |} ];
     Converter.theme_root := None |}.

Lemma X25_witness :
  exists slides_json slides_data j d rect,
    PptxToJson.pptx_to_fabric_json Math_unbound red_deck = Ok slides_json
    /\ Converter.pptx_to_fabric Math_unbound red_deck = Ok slides_data
    /\ slides_json !! 0%nat = Some j
    /\ slides_data !! 0%nat = Some d
    /\ PptxToJson.js_objects j = rect :: Fabric.sl_objects d
    /\ Fabric.props rect !! "fill" = Some (Fabric.VStr "#ff0000")
    /\ length (Fabric.sl_objects d) = 1%nat.
Proof.
  assert (E : exists slides_json slides_data j d background,
             PptxToJson.pptx_to_fabric_json Math_unbound red_deck = Ok slides_json
             /\ Converter.pptx_to_fabric Math_unbound red_deck = Ok slides_data
             /\ slides_json !! 0%nat = Some j
             /\ slides_data !! 0%nat = Some d
             /\ Fabric.sl_background d = Some background
             /\ background !! "fill" = Some (Fabric.VStr "#ff0000")
             /\ length (Fabric.sl_objects d) = 1%nat).
  { eexists _, _, _, _, _. split; [vm_compute; reflexivity |].
    split; [vm_compute; reflexivity |]. split; [reflexivity |]. split; [reflexivity |].
    split; [reflexivity |]. split; vm_compute; reflexivity. }
  destruct E as (slides_json & slides_data & j & d & background
                 & Ej & Ed & Hj & Hd & Hb & Hf & Hn).
  destruct (X25_json_objects Math_unbound red_deck slides_json slides_data Ej Ed)
    as [_ Hall].
  destruct (Hall 0%nat j d Hj Hd) as (_ & _ & _ & Hbg).
  rewrite Hb in Hbg. destruct Hbg as (rect & Ho & _ & _ & Hr & _).
  exists slides_json, slides_data, j, d, rect.
  split; [exact Ej |]. split; [exact Ed |]. split; [exact Hj |]. split; [exact Hd |].
  split; [exact Ho |]. split; [by rewrite Hr |]. exact Hn.
Defined.

(** ** A picture, forward and back *)

Section PictureRoundTrip.
Context {F : Type} `{PyFloat F}.
Context {set_F : PySet F} {set_name : PySet (option string)} {set_str : PySet string}.
Variable Math : AdvancedShapeHandler.MathObj F.
Variable theme_colors : gmap string string.
Import Pptx Fabric Converter.
Local Abbreviation dict := (gmap string (value F)).

(** The text has no comma. *)
Definition comma_free (s : string) : Prop := ","%char ∉ list_ascii_of_string s.

Lemma after_comma_app (a b : string) :
  comma_free a -> Py.after_comma (a +:+ b) = Py.after_comma b.
Proof.
  unfold comma_free. induction a as [| x a IH]; intros Ha; [reflexivity |].
  change (Py.after_comma (String x (a +:+ b)) = Py.after_comma b).
  cbn [Py.after_comma]. simpl in Ha. apply not_elem_of_cons in Ha as [Hx Ha].
  destruct (Ascii.eqb_spec x ","); [congruence |]. by apply IH.
Qed.

Lemma up_to_comma_free (s : string) : comma_free s -> Py.up_to_comma s = s.
Proof.
  unfold comma_free. induction s as [| x s IH]; intros Hs; [reflexivity |].
  cbn [Py.up_to_comma]. simpl in Hs. apply not_elem_of_cons in Hs as [Hx Hs].
  destruct (Ascii.eqb_spec x ","); [congruence |]. by rewrite IH.
Qed.

Lemma data_uri_payload (image_type image_data : string) :
  comma_free image_type ->
  Py.after_comma ("data:image/" +:+ image_type +:+ ";base64," +:+ image_data)
  = Some (Py.up_to_comma image_data).
Proof.
  intros Ht.
  change ("data:image/" +:+ image_type +:+ ";base64," +:+ image_data)
    with ("data:image/" +:+ (image_type +:+ (";base64" +:+ String "," image_data))).
  rewrite (after_comma_app "data:image/"), (after_comma_app image_type) by
    (first [exact Ht | unfold comma_free; simpl; rewrite !not_elem_of_cons;
            repeat split; first [discriminate | apply not_elem_of_nil]]).
  reflexivity.
Qed.

(** X26: A picture, forward and back: when the way back adds a shape for the
    object of a picture, that shape is a picture.  When the subtype of the
    image and its base64 text have no comma (base64 never has one), the
    picture rebuilt is the one with the data of the source.  The object has
    no key [angle], so the picture rebuilt has no rotation, whatever that of
    the source was. *)
Theorem X26_picture_round_trip (shape : ShapeHandler.shape_info F)
    (members : list (ShapeHandler.shape F)) (o : scene_object F) (s : doc_shape F) :
  ShapeHandler.sh_shape_type shape = PICTURE ->
  ShapeHandler.process_shape Math theme_colors (ShapeHandler.Shape shape members) = Some o ->
  _create_shape_from_fabric (props o) = Some s ->
  exists image payload,
    ShapeHandler.sh_image shape = Some image
    /\ ds_kind s = Picture payload
    /\ (comma_free (Py.last_segment "/" (content_type image)) ->
        payload = Py.up_to_comma (blob_b64 image))
    /\ (comma_free (Py.last_segment "/" (content_type image)) ->
        comma_free (blob_b64 image) -> payload = blob_b64 image)
    /\ ds_rotation s = None
    /\ geometry (props o) = Ok (ds_left s, ds_top s, ds_width s, ds_height s).
Proof.
  intros Hk. rewrite process_shape_unfold, Hk. unfold ShapeHandler._process_picture.
  destruct (ShapeHandler.sh_image shape) as [image |]; [| discriminate].
  destruct (ShapeHandler.picture_opacity shape) as [opacity |]; simpl; [| discriminate].
  intros [= <-]. simpl.
  set (src := "data:image/" +:+ _ +:+ ";base64," +:+ _).
  set (obj := <["crossOrigin" := _]> _).
  assert (Hty : obj !! "type" = Some (VStr "image")) by (subst obj; by simplify_map_eq).
  assert (Hsrc : obj !! "src" = Some (VStr src)) by (subst obj; by simplify_map_eq).
  assert (Hang : obj !! "angle" = None).
  { subst obj. rewrite !lookup_insert_ne by done. apply enriched_base_keys.
    rewrite !not_elem_of_cons. repeat split; first [discriminate | apply not_elem_of_nil]. }
  assert (Hst : Py.startswith "data:image" src = true).
  { subst src. unfold Py.startswith.
    change ("data:image/" +:+ ?x) with ("data:image" +:+ String "/" x).
    generalize (Py.last_segment "/" (content_type image) +:+ ";base64," +:+ blob_b64 image).
    intros rest. reflexivity. }
  assert (Hpay : forall payload, Py.after_comma src = Some payload ->
                 comma_free (Py.last_segment "/" (content_type image)) ->
                 payload = Py.up_to_comma (blob_b64 image)).
  { intros payload Hp Ht. subst src. rewrite (data_uri_payload _ _ Ht) in Hp. congruence. }
  clearbody obj src. unfold _create_shape_from_fabric. rewrite Hty, Hsrc. simpl.
  rewrite Hst.
  destruct (Py.after_comma src) as [payload |] eqn:Hp; simpl; [| discriminate].
  destruct (geometry obj) as [[[[l t] w] h] |] eqn:G; simpl; [| discriminate].
  intros [= <-]. rewrite set_rotation_absent by done.
  exists image, payload. split; [done |]. split; [done |].
  split; [by apply Hpay |]. split.
  - intros Ht Hd. rewrite (Hpay payload eq_refl Ht). by apply up_to_comma_free.
  - done.
Qed.

End PictureRoundTrip.

(** A picture whose image is a PNG of one red pixel. *)
Definition red_pixel : string :=
  "iVBORw0KGgoAAAANSUhEUgAAAAEAAAABCAIAAACQd1PeAAAADElEQVR42mP4z8AAAAMBAQD3A0FDAAAAAElFTkSuQmCC".

Definition png_picture : ShapeHandler.shape float :=
  ShapeHandler.Shape
    {| ShapeHandler.sh_shape_type := Pptx.PICTURE;
       ShapeHandler.sh_left := 1270000;
       ShapeHandler.sh_top := 1270000;
       ShapeHandler.sh_width := 2540000;
       ShapeHandler.sh_height := 635000;
       ShapeHandler.sh_rotation := Some 45%float;
       ShapeHandler.sh_element :=
         Some (Xml.Element "p:pic" [] [
           Xml.Element "p:blipFill" [] [Xml.Element "a:blip" [("r:embed", "rId2")] []];
           Xml.Element "p:spPr" [] [Xml.Element "a:prstGeom" [("prst", "rect")] []] ]);
       ShapeHandler.sh_fill := None;
       ShapeHandler.sh_line := None;
       ShapeHandler.sh_auto_shape_type := None;
       ShapeHandler.sh_image :=
         Some {| Pptx.blob_b64 := red_pixel; Pptx.content_type := "image/png" |};
       ShapeHandler.sh_text_props := [];
       ShapeHandler.sh_path_data := None |}
    [].

Lemma X26_witness :
  exists o s,
    ShapeHandler.process_shape Math_unbound ColorHandler.default_theme_colors png_picture
    = Some o
    /\ Converter._create_shape_from_fabric (Fabric.props o) = Some s
    /\ Converter.ds_kind s = Converter.Picture red_pixel
    /\ Converter.ds_rotation s = None.
Proof.
  assert (E : exists o s,
             ShapeHandler.process_shape Math_unbound ColorHandler.default_theme_colors
               png_picture = Some o
             /\ Converter._create_shape_from_fabric (Fabric.props o) = Some s)
    by (eexists _, _; split; [vm_compute; reflexivity | vm_compute; reflexivity]).
  destruct E as (o & s & Eo & Es).
  destruct (X26_picture_round_trip Math_unbound ColorHandler.default_theme_colors
              (ShapeHandler.info png_picture) [] o s eq_refl Eo Es)
    as (image & payload & Hi & Hk & _ & Hp & Hr & _).
  exists o, s. split; [exact Eo |]. split; [exact Es |]. split; [| exact Hr].
  rewrite Hk. f_equal. injection Hi as <-. apply Hp.
  - unfold comma_free. simpl. rewrite !not_elem_of_cons.
    repeat split; first [discriminate | apply not_elem_of_nil].
  - unfold comma_free. apply (bool_decide_unpack _). vm_compute. exact I.
Defined.

(** ** The document of the way back *)

Section WayBackDocument.
Context {F : Type} `{PyFloat F}.
Import Pptx Fabric Converter.
Local Abbreviation dict := (gmap string (value F)).

(** The shape is a textbox or a picture. *)
Definition text_or_picture (s : doc_shape F) : Prop :=
  ds_kind s = TextBox \/ exists payload, ds_kind s = Picture payload.

Lemma created_kind (obj : dict) (s : doc_shape F) :
  _create_shape_from_fabric obj = Some s -> text_or_picture s.
Proof.
  unfold _create_shape_from_fabric, text_or_picture.
  destruct (obj !! "type") as [[| | | type | | | | |] |]; simpl; try discriminate.
  destruct (String.eqb type "textbox").
  { destruct (geometry obj) as [[[[l t] w] h] |]; simpl; [| discriminate].
    intros [= <-]. left.
    pose proof (set_rotation_geom (_set_text_properties (new_shape TextBox l t w h) obj) obj)
      as E1.
    pose proof (_set_text_properties_geom (new_shape TextBox l t w h) obj) as E2.
    unfold geom in E1, E2. simpl in E2. congruence. }
  destruct (String.eqb type "rect"); [discriminate |].
  destruct (String.eqb type "path"); [discriminate |].
  destruct (String.eqb type "image"); [| discriminate].
  destruct (obj !! "src") as [[| | | src | | | | |] |]; simpl; try discriminate.
  destruct (Py.startswith "data:image" src); [| discriminate].
  destruct (Py.after_comma src) as [payload |]; simpl; [| discriminate].
  destruct (geometry obj) as [[[[l t] w] h] |]; simpl; [| discriminate].
  intros [= <-]. right. exists payload.
  pose proof (set_rotation_geom (new_shape (Picture payload) l t w h) obj) as E1.
  unfold geom in E1. simpl in E1. congruence.
Qed.

Lemma omap_Forall {A B} (f : A -> option B) (P : B -> Prop) (l : list A) :
  (forall a b, f a = Some b -> P b) ->
  Forall P (omap f l) /\ (length (omap f l) <= length l)%nat.
Proof.
  intros Hf. induction l as [| a l [IH1 IH2]]; [split; [constructor | done] |].
  change (omap f (a :: l))
    with (match f a with Some b => b :: omap f l | None => omap f l end).
  destruct (f a) as [b |] eqn:E.
  - split; [constructor; eauto |]. cbn [length]. lia.
  - split; [done |]. cbn [length]. lia.
Qed.

(** X27: The document [fabric_to_pptx] returns.  Its slides are those of the
    template (none without one) followed by one slide for each entry of the
    data, in order; a slide has at most one shape for each object of its
    entry, and every shape is a textbox or a picture: no auto shape and no
    freeform is ever added.  With a template the size of the slides is that
    of the template, whatever the data say; without one it is read from the
    first entry alone, and empty data raise [IndexError]. *)
Theorem X27_way_back_document (fabric_data : list (slide_data F))
    (template_pptx : option (document F)) (doc : document F) :
  fabric_to_pptx fabric_data template_pptx = Ok doc ->
  (exists added,
     doc_slides doc = doc_slides (default default_presentation template_pptx) ++ added
     /\ length added = length fabric_data
     /\ forall (i : nat) (slide_data : slide_data F) (sl : doc_slide F),
          fabric_data !! i = Some slide_data -> added !! i = Some sl ->
          (length (dsl_shapes sl) <= length (sl_objects slide_data))%nat
          /\ Forall text_or_picture (dsl_shapes sl))
  /\ match template_pptx with
     | Some prs =>
         doc_slide_width doc = doc_slide_width prs
         /\ doc_slide_height doc = doc_slide_height prs
     | None =>
         exists first rest,
           fabric_data = first :: rest
           /\ to_int (fmul (sl_width first) (of_int 12700)) = Ok (doc_slide_width doc)
           /\ to_int (fmul (sl_height first) (of_int 12700)) = Ok (doc_slide_height doc)
     end.
Proof.
  unfold fabric_to_pptx. intros E.
  assert (Hadded : forall (i : nat) (slide_data : slide_data F) (sl : doc_slide F),
            fabric_data !! i = Some slide_data ->
            map build_slide fabric_data !! i = Some sl ->
            (length (dsl_shapes sl) <= length (sl_objects slide_data))%nat
            /\ Forall text_or_picture (dsl_shapes sl)).
  { intros i slide_data sl Hi Hs. change (map ?f ?l) with (f <$> l) in Hs.
    rewrite list_lookup_fmap, Hi in Hs. injection Hs as <-. simpl.
    destruct (omap_Forall (fun o => _create_shape_from_fabric (props o)) text_or_picture
                (sl_objects slide_data)) as [H1 H2]; [| done].
    intros a b. apply created_kind. }
  destruct template_pptx as [prs |]; simpl in E.
  - injection E as <-. simpl. split; [| done].
    exists (map build_slide fabric_data). split; [done |].
    split; [by rewrite length_map | done].
  - destruct fabric_data as [| first rest]; simpl in E; [discriminate |].
    destruct (to_int (fmul (sl_width first) (of_int 12700))) as [w |] eqn:Ew; simpl in E;
      [| discriminate].
    destruct (to_int (fmul (sl_height first) (of_int 12700))) as [h |] eqn:Eh; simpl in E;
      [| discriminate].
    injection E as <-. simpl. split.
    + exists (map build_slide (first :: rest)). split; [done |].
      split; [by rewrite length_map | done].
    + by exists first, rest.
Qed.

End WayBackDocument.

(** The data of one slide with the textbox and an object of type [rect]. *)
Definition two_objects : Fabric.slide_data float :=
  {| Fabric.sl_objects :=
       [ Fabric.SceneObject textbox_object None;
         Fabric.SceneObject (<["type" := Fabric.VStr "rect"]> textbox_object) None ];
     Fabric.sl_width := 720%float;
     Fabric.sl_height := 540%float;
     Fabric.sl_slideNumber := 1;
     Fabric.sl_background := None |}.

Lemma X27_witness :
  exists doc sl,
    Converter.fabric_to_pptx [two_objects] None = Ok doc
    /\ Converter.doc_slides doc = [sl]
    /\ Forall text_or_picture (Converter.dsl_shapes sl)
    /\ length (Converter.dsl_shapes sl) = 1%nat.
Proof.
  assert (E : exists doc sl,
             Converter.fabric_to_pptx [two_objects] None = Ok doc
             /\ Converter.doc_slides doc = [sl]
             /\ length (Converter.dsl_shapes sl) = 1%nat)
    by (eexists _, _; split; [vm_compute; reflexivity |]; split; reflexivity).
  destruct E as (doc & sl & E & Hs & Hl).
  destruct (X27_way_back_document [two_objects] None doc E)
    as [(added & Ha & _ & Hall) _].
  exists doc, sl. split; [exact E |]. split; [exact Hs |]. split; [| exact Hl].
  simpl in Ha. rewrite Hs in Ha. subst added.
  exact (proj2 (Hall 0%nat two_objects sl eq_refl eq_refl)).
Defined.

(** ** Where the styling of a text stops *)

Section TextStyling.
Context {F : Type} `{PyFloat F}.
Import Pptx Fabric Converter.
Local Abbreviation dict := (gmap string (value F)).

(** X28: [_set_text_properties] sets nothing for an object without [text],
    whatever else the object holds.  With a [fontSize] that is null the
    statement that sets the size raises and the handler ends the call: the
    run keeps its text and gets no font name, no color, no weight, no style,
    and the paragraph no alignment, whatever the object says of them. *)
Theorem X28_text_styling_stops (shape : doc_shape F) (obj : dict) :
  (obj !! "text" = None -> _set_text_properties shape obj = shape)
  /\ (forall t : string,
        obj !! "text" = Some (VStr t) -> obj !! "fontSize" = Some VNone ->
        ds_run (_set_text_properties shape obj)
        = Some {| run_text := t; run_size := None; run_name := None; run_color := None;
                  run_bold := None; run_italic := None |}
        /\ ds_alignment (_set_text_properties shape obj) = ds_alignment shape).
Proof.
  split.
  - intros Ht. unfold _set_text_properties. by rewrite Ht.
  - intros t Ht Hs. unfold _set_text_properties, when_key. rewrite Ht, Hs.
    cbn [app run_steps set_run ds_run with_text Py.deref mbind result_bind Py.bind number].
    done.
Qed.

End TextStyling.

(** The textbox object with a null size and a font, a color and an
    alignment. *)
Definition unsized_object : gmap string (Fabric.value float) :=
  <["fontSize" := Fabric.VNone]> (
  <["fontFamily" := Fabric.VStr "Arial"]> (
  <["fill" := Fabric.VStr "#ff0000"]> (
  <["textAlign" := Fabric.VStr "center"]> textbox_object))).

Lemma X28_witness :
  Converter.ds_run
    (Converter._set_text_properties (Converter.new_shape Converter.TextBox 0 0 0 0)
       unsized_object)
  = Some {| Converter.run_text := "Hi"; Converter.run_size := None;
            Converter.run_name := None; Converter.run_color := None;
            Converter.run_bold := None; Converter.run_italic := None |}.
Proof.
  exact (proj1 (proj2 (X28_text_styling_stops (Converter.new_shape Converter.TextBox 0 0 0 0)
                         unsized_object) "Hi" eq_refl eq_refl)).
Defined.
